(** * ArenaForge battle sandbox: a shallow embedding of the simulation kernel

    The development follows the JavaScript modules of [frontend/battle/src]:
    [engine/Simulator.js] (fixed-timestep scheduler), [physics/Ragdoll.js]
    (articulated body builder), [entities/Fighter.js], [ai/AIBrain.js] (both
    revisions kept in the repository), [engine/ImpactTracker.js] and the
    spawning code of [index.js]; the damage formulas come from BALANCE.md.

    Conventions.
    - A JavaScript number is an exact rational ([Q]).  Sums, products and
      comparisons are the exact ones; the rounding of binary64 arithmetic is
      outside the model.  [Math.sqrt] and the area Matter.js gives the polygon
      it builds for a circle are irrational in general: they are parameters
      of the sections that use them.
    - Module-level [let] variables become the fields of a state record that
      the functions of the module receive and return.
    - Objects that several holders reference (the fighters) live in a heap,
      a list indexed by address; holders keep the address.
    - Calls into Matter.js, the canvas and the timers are either applied
      through a small model of the Matter.js function, recorded as events,
      or left out when they only print to the console.
    - A call that raises (a property read on [null]) is the [Throw] outcome
      of the [completion] type. *)

From Stdlib Require Import QArith Qabs Qround ZArith List String Bool Lia Lqa.
From Equations Require Import Equations.
From stdpp Require Import base option list strings.
Import ListNotations.

Open Scope Q_scope.

(** ** JavaScript outcomes and numbers *)

Module JS.

Inductive error : Type :=
| TypeError (msg : string).

Inductive completion (A : Type) : Type :=
| Normal (a : A)
| Throw (e : error).
Arguments Normal {A} a.
Arguments Throw {A} e.

Definition bind {A B} (c : completion A) (k : A -> completion B) : completion B :=
  match c with
  | Normal a => k a
  | Throw e => Throw e
  end.

Definition returns {A} (c : completion A) : Prop :=
  exists a, c = Normal a.

Definition throws {A} (c : completion A) : Prop :=
  exists e, c = Throw e.

(** [a > b], [a < b], [a >= b] and [a === b] on numbers. *)
Definition gtb (a b : Q) : bool := negb (Qle_bool a b).
Definition ltb (a b : Q) : bool := negb (Qle_bool b a).
Definition geb (a b : Q) : bool := Qle_bool b a.
Definition eqb (a b : Q) : bool := Qeq_bool a b.

(** [Math.abs] and [Math.sign]. *)
Definition Math_abs (a : Q) : Q := Qabs a.
Definition Math_sign (a : Q) : Q :=
  if gtb a 0 then 1 else if ltb a 0 then -1 else 0.

(** [a || b] on numbers: [0] is the falsy one. *)
Definition or_else (a b : Q) : Q := if eqb a 0 then b else a.

End JS.

Notation "'let*' x ':=' c 'in' k" := (JS.bind c (fun x => k))
  (at level 10, x name, c at level 100, k at level 200).
Notation "'let*' ( x , y ) ':=' c 'in' k" := (JS.bind c (fun '(x, y) => k))
  (at level 10, x name, y name, c at level 100, k at level 200).

(** A point or a 2D vector, [{ x, y }]. *)
Module Vector.

Record t : Type := make { x : Q; y : Q }.

Definition zero : t := make 0 0.

End Vector.

(** ** engine/Simulator.js *)

Module Simulator.

Module SIM_CONFIG.
Definition fixedDelta : Q := 1000 / 60.
Definition maxSubSteps : Q := 5.
End SIM_CONFIG.

(** The object the render callback is handed. *)
Record DebugInfo : Type := {
  info_fps : nat;
  info_tickCount : nat;
  info_isPaused : bool;
  info_isRunning : bool
}.

Section WithEngine.

(** The Matter.js engine and its integrator, [Engine.update(engine, delta)]. *)
Variable Engine : Type.
Variable Engine_update : Engine -> Q -> Engine.

Inductive Event : Type :=
| EngineUpdate (delta : Q)
| Render (engine : option Engine) (info : DebugInfo)
| ResetCallback
| RequestAnimationFrame.

(** The module state.  [onRender] and [onReset] tell whether a callback is
    installed; [trace] lists the outside calls made so far, oldest first. *)
Record State : Type := {
  engine : option Engine;
  isRunning : bool;
  isPaused : bool;
  accumulator : Q;
  lastTime : Q;
  frameCount : nat;
  fps : nat;
  fpsLastTime : Q;
  tickCount : nat;
  onRender : bool;
  onReset : bool;
  trace : list Event
}.

Definition initial : State :=
  {| engine := None; isRunning := false; isPaused := false;
     accumulator := 0; lastTime := 0; frameCount := 0; fps := 0;
     fpsLastTime := 0; tickCount := 0; onRender := false; onReset := false;
     trace := [] |}.

Definition emit (ev : Event) (s : State) : State :=
  {| engine := engine s; isRunning := isRunning s; isPaused := isPaused s;
     accumulator := accumulator s; lastTime := lastTime s;
     frameCount := frameCount s; fps := fps s; fpsLastTime := fpsLastTime s;
     tickCount := tickCount s; onRender := onRender s; onReset := onReset s;
     trace := trace s ++ [ev] |}.

(** [init(matterEngine, renderCallback, resetCallback)]; [now] is the value
    [performance.now()] returns. *)
Definition init (matterEngine : option Engine) (renderCallback resetCallback : bool)
    (now : Q) (s : State) : State :=
  {| engine := matterEngine; isRunning := isRunning s; isPaused := isPaused s;
     accumulator := 0; lastTime := 0; frameCount := 0; fps := 0;
     fpsLastTime := now; tickCount := 0;
     onRender := renderCallback; onReset := resetCallback;
     trace := trace s |}.

Definition setEngine (matterEngine : option Engine) (s : State) : State :=
  {| engine := matterEngine; isRunning := isRunning s; isPaused := isPaused s;
     accumulator := accumulator s; lastTime := lastTime s;
     frameCount := frameCount s; fps := fps s; fpsLastTime := fpsLastTime s;
     tickCount := tickCount s; onRender := onRender s; onReset := onReset s;
     trace := trace s |}.

(** [Engine.update(engine, SIM_CONFIG.fixedDelta)] on a non-null engine. *)
Definition engineUpdate (e : Engine) (s : State) : State :=
  {| engine := Some (Engine_update e SIM_CONFIG.fixedDelta);
     isRunning := isRunning s; isPaused := isPaused s;
     accumulator := accumulator s; lastTime := lastTime s;
     frameCount := frameCount s; fps := fps s; fpsLastTime := fpsLastTime s;
     tickCount := tickCount s; onRender := onRender s; onReset := onReset s;
     trace := trace s ++ [EngineUpdate SIM_CONFIG.fixedDelta] |}.

(** [tickCount++]. *)
Definition incrTickCount (s : State) : State :=
  {| engine := engine s; isRunning := isRunning s; isPaused := isPaused s;
     accumulator := accumulator s; lastTime := lastTime s;
     frameCount := frameCount s; fps := fps s; fpsLastTime := fpsLastTime s;
     tickCount := S (tickCount s); onRender := onRender s; onReset := onReset s;
     trace := trace s |}.

Definition setAccumulator (a : Q) (s : State) : State :=
  {| engine := engine s; isRunning := isRunning s; isPaused := isPaused s;
     accumulator := a; lastTime := lastTime s;
     frameCount := frameCount s; fps := fps s; fpsLastTime := fpsLastTime s;
     tickCount := tickCount s; onRender := onRender s; onReset := onReset s;
     trace := trace s |}.

(** One pass of the body of the [while] loop of [loop]:
    [Engine.update(engine, fixedDelta); accumulator -= fixedDelta; tickCount++]. *)
Definition tick (e : Engine) (s : State) : State :=
  let s1 := engineUpdate e s in
  let s2 := setAccumulator (accumulator s1 - SIM_CONFIG.fixedDelta) s1 in
  incrTickCount s2.

(** How many whole ticks the accumulator still holds: the measure under
    which the [while] loop terminates. *)
Definition pendingTicks (s : State) : nat :=
  Z.to_nat (Qfloor (accumulator s / SIM_CONFIG.fixedDelta)).

(** [while (accumulator >= fixedDelta) { ... }].  [Engine.update] reads the
    fields of its engine: on a [null] engine the first pass raises. *)
Equations physicsSteps (s : State) : JS.completion State
  by wf (pendingTicks s) lt :=
  physicsSteps s with Qlt_le_dec (accumulator s) SIM_CONFIG.fixedDelta => {
    | left _ => JS.Normal s
    | right Hge with engine s => {
        | None => JS.Throw (JS.TypeError "Cannot read properties of null")
        | Some e => physicsSteps (tick e s) } }.
Next Obligation.
  intros s e Hge _.
  unfold pendingTicks. cbn [tick incrTickCount engineUpdate setAccumulator accumulator].
  assert (Hfd : 0 < SIM_CONFIG.fixedDelta) by reflexivity.
  set (q := accumulator s / SIM_CONFIG.fixedDelta).
  assert (Heq : (accumulator s - SIM_CONFIG.fixedDelta) / SIM_CONFIG.fixedDelta
                == q + inject_Z (-1)).
  { unfold q. field. intros H0. rewrite H0 in Hfd. discriminate. }
  rewrite (Qfloor_comp _ _ Heq).
  assert (H1 : 1 <= q).
  { apply Qle_shift_div_l; [exact Hfd|]. rewrite Qmult_1_l. exact Hge. }
  assert (Hpos : (1 <= Qfloor q)%Z).
  { change 1%Z with (Qfloor 1). apply Qfloor_resp_le. exact H1. }
  assert (Hfl : (Qfloor (q + inject_Z (-1)) = Qfloor q - 1)%Z).
  { destruct q as [n d]. unfold Qfloor, Qplus, inject_Z. cbn [Qnum Qden].
    rewrite Pos.mul_1_r, Z.mul_1_r.
    rewrite Z.div_add by discriminate. lia. }
  rewrite Hfl. lia.
Qed.

(** The render callback, when one is installed, with the [isPaused] value
    the caller puts into [debugInfo]. *)
Definition render (paused : bool) (s : State) : State :=
  if onRender s then
    emit (Render (engine s)
            {| info_fps := fps s; info_tickCount := tickCount s;
               info_isPaused := paused; info_isRunning := isRunning s |}) s
  else s.

(** The statements of [loop] between the early return and the accumulator:
    frame delta (capped), [lastTime], and the FPS counter.  Returns the
    capped delta with the new state. *)
Definition frameDelta (currentTime : Q) (s : State) : Q * State :=
  let lastTime0 := if JS.eqb (lastTime s) 0 then currentTime else lastTime s in
  let deltaTime := currentTime - lastTime0 in
  let cap := SIM_CONFIG.fixedDelta * SIM_CONFIG.maxSubSteps in
  let deltaTime := if JS.gtb deltaTime cap then cap else deltaTime in
  let frameCount1 := S (frameCount s) in
  let second := JS.geb (currentTime - fpsLastTime s) 1000 in
  (deltaTime,
   {| engine := engine s; isRunning := isRunning s; isPaused := isPaused s;
      accumulator := accumulator s; lastTime := currentTime;
      frameCount := if second then 0%nat else frameCount1;
      fps := if second then frameCount1 else fps s;
      fpsLastTime := if second then currentTime else fpsLastTime s;
      tickCount := tickCount s; onRender := onRender s; onReset := onReset s;
      trace := trace s |}).

(** [loop(currentTime)], the [requestAnimationFrame] callback. *)
Definition loop (currentTime : Q) (s : State) : JS.completion State :=
  if negb (isRunning s) then JS.Normal s
  else
    let '(deltaTime, s1) := frameDelta currentTime s in
    let* s2 :=
      (if negb (isPaused s1)
       then physicsSteps (setAccumulator (accumulator s1 + deltaTime) s1)
       else JS.Normal s1) in
    JS.Normal (emit RequestAnimationFrame (render (isPaused s2) s2)).

Definition start (s : State) : State :=
  if isRunning s then s
  else
    emit RequestAnimationFrame
      {| engine := engine s; isRunning := true; isPaused := false;
         accumulator := 0; lastTime := 0;
         frameCount := frameCount s; fps := fps s; fpsLastTime := fpsLastTime s;
         tickCount := tickCount s; onRender := onRender s; onReset := onReset s;
         trace := trace s |}.

Definition setPaused (p : bool) (s : State) : State :=
  {| engine := engine s; isRunning := isRunning s; isPaused := p;
     accumulator := accumulator s; lastTime := lastTime s;
     frameCount := frameCount s; fps := fps s; fpsLastTime := fpsLastTime s;
     tickCount := tickCount s; onRender := onRender s; onReset := onReset s;
     trace := trace s |}.

Definition setLastTime (t : Q) (s : State) : State :=
  {| engine := engine s; isRunning := isRunning s; isPaused := isPaused s;
     accumulator := accumulator s; lastTime := t;
     frameCount := frameCount s; fps := fps s; fpsLastTime := fpsLastTime s;
     tickCount := tickCount s; onRender := onRender s; onReset := onReset s;
     trace := trace s |}.

Definition pause (s : State) : State :=
  if negb (isRunning s) then s else setPaused true s.

(** [resume()]; [now] is the value [performance.now()] returns. *)
Definition resume (now : Q) (s : State) : State :=
  if negb (isRunning s) then s else setLastTime now (setPaused false s).

Definition togglePause (now : Q) (s : State) : bool * State :=
  let s1 := if isPaused s then resume now s else pause s in
  (isPaused s1, s1).

(** [step()]: returns at once on a [null] engine; otherwise calls [pause()]
    unless already paused, runs the integrator once and renders with
    [isPaused: true]. *)
Definition step (s : State) : State :=
  match engine s with
  | None => s
  | Some e =>
      let s1 := if negb (isPaused s) then pause s else s in
      render true (incrTickCount (engineUpdate e s1))
  end.

Definition reset (s : State) : State :=
  let s1 :=
    {| engine := engine s; isRunning := false; isPaused := false;
       accumulator := 0; lastTime := 0;
       frameCount := frameCount s; fps := fps s; fpsLastTime := fpsLastTime s;
       tickCount := 0; onRender := onRender s; onReset := onReset s;
       trace := trace s |} in
  if onReset s1 then emit ResetCallback s1 else s1.

Definition getIsRunning (s : State) : bool := isRunning s.
Definition getIsPaused (s : State) : bool := isPaused s.
Definition getFPS (s : State) : nat := fps s.
Definition getTickCount (s : State) : nat := tickCount s.

(** The browser calling [loop] once per frame, with the time stamps [ts]. *)
Fixpoint runFrames (ts : list Q) (s : State) : JS.completion State :=
  match ts with
  | [] => JS.Normal s
  | t :: ts' => let* s1 := loop t s in runFrames ts' s1
  end.

(** The engine after [k] integrator calls with the fixed tick size. *)
Definition ticksOf (k : nat) (e : Engine) : Engine :=
  Nat.iter k (fun e' => Engine_update e' SIM_CONFIG.fixedDelta) e.

(** The integrator calls recorded in a trace. *)
Definition engineUpdates (tr : list Event) : list Q :=
  flat_map (fun ev => match ev with EngineUpdate d => [d] | _ => [] end) tr.

End WithEngine.

Arguments engine {Engine} _.
Arguments isRunning {Engine} _.
Arguments isPaused {Engine} _.
Arguments accumulator {Engine} _.
Arguments lastTime {Engine} _.
Arguments frameCount {Engine} _.
Arguments fps {Engine} _.
Arguments fpsLastTime {Engine} _.
Arguments tickCount {Engine} _.
Arguments onRender {Engine} _.
Arguments onReset {Engine} _.
Arguments trace {Engine} _.
Arguments EngineUpdate {Engine} _.
Arguments Render {Engine} _ _.
Arguments ResetCallback {Engine}.
Arguments RequestAnimationFrame {Engine}.
Arguments engineUpdates {Engine} _.
Arguments start {Engine} _.
Arguments pause {Engine} _.
Arguments resume {Engine} _ _.
Arguments togglePause {Engine} _ _.
Arguments reset {Engine} _.
Arguments init {Engine} _ _ _ _ _.
Arguments setEngine {Engine} _ _.
Arguments step {Engine} _ _.
Arguments loop {Engine} _ _ _.
Arguments runFrames {Engine} _ _ _.
Arguments physicsSteps {Engine} _ _.
Arguments tick {Engine} _ _ _.
Arguments engineUpdate {Engine} _ _ _.
Arguments incrTickCount {Engine} _.
Arguments setPaused {Engine} _ _.
Arguments emit {Engine} _ _.
Arguments render {Engine} _ _.
Arguments frameDelta {Engine} _ _.
Arguments setAccumulator {Engine} _ _.
Arguments pendingTicks {Engine} _.
Arguments ticksOf {Engine} _ _ _.

(** A tick count as a number. *)
Definition ofNat (k : nat) : Q := inject_Z (Z.of_nat k).

(** The time stamps of the frames that start at [t0] and are [ds] apart. *)
Fixpoint timestamps (t0 : Q) (ds : list Q) : list Q :=
  match ds with
  | [] => []
  | d :: ds' => (t0 + d) :: timestamps (t0 + d) ds'
  end.

(** A frame delta after the cap of [loop]. *)
Definition capped (d : Q) : Q :=
  let cap := SIM_CONFIG.fixedDelta * SIM_CONFIG.maxSubSteps in
  if JS.gtb d cap then cap else d.

(** The elapsed time [loop] feeds the accumulator for frame deltas [ds]. *)
Definition elapsed (ds : list Q) : Q :=
  fold_right (fun d acc => capped d + acc) 0 ds.

End Simulator.

(** ** Matter.js: the part of the library the sandbox relies on *)

Module Matter.

(** [body.collisionFilter]; Matter.js fills in [category: 1],
    [mask: 0xFFFFFFFF] and [group: 0] where the options are silent. *)
Record CollisionFilter : Type := {
  category : Z;
  mask : Z;
  group : Z
}.

Definition defaultFilter : CollisionFilter :=
  {| category := 1; mask := 4294967295; group := 0 |}.

Inductive Shape : Type :=
| Circle (radius : Q)
| Rectangle (width height : Q).

(** The fields of a rigid body the sandbox sets or reads. *)
Record Body : Type := {
  label : string;
  shape : Shape;
  position : Vector.t;
  velocity : Vector.t;
  force : Vector.t;
  torque : Q;
  mass : Q;
  isStatic : bool;
  friction : Q;
  frictionStatic : Q;
  frictionAir : Q;
  restitution : Q;
  density : Q;
  collisionFilter : CollisionFilter
}.

(** The options object [bodyOptions(label)] of Ragdoll.js builds. *)
Record BodyOptions : Type := {
  opt_label : string;
  opt_friction : Q;
  opt_frictionStatic : Q;
  opt_frictionAir : Q;
  opt_restitution : Q;
  opt_density : Q;
  opt_group : Z
}.

Section Factories.

(** Area of the regular polygon [Bodies.circle] builds for a radius. *)
Variable circleArea : Q -> Q.

Definition area (sh : Shape) : Q :=
  match sh with
  | Circle r => circleArea r
  | Rectangle w h => w * h
  end.

(** [Body.create]: a body at rest whose mass is density times area. *)
Definition create (px py : Q) (sh : Shape) (o : BodyOptions) : Body :=
  {| label := opt_label o;
     shape := sh;
     position := Vector.make px py;
     velocity := Vector.zero;
     force := Vector.zero;
     torque := 0;
     mass := opt_density o * area sh;
     isStatic := false;
     friction := opt_friction o;
     frictionStatic := opt_frictionStatic o;
     frictionAir := opt_frictionAir o;
     restitution := opt_restitution o;
     density := opt_density o;
     collisionFilter :=
       {| category := category defaultFilter; mask := mask defaultFilter;
          group := opt_group o |} |}.

Definition Bodies_circle (px py radius : Q) (o : BodyOptions) : Body :=
  create px py (Circle radius) o.

Definition Bodies_rectangle (px py width height : Q) (o : BodyOptions) : Body :=
  create px py (Rectangle width height) o.

End Factories.

(** [Body.setVelocity(body, velocity)]. *)
Definition Body_setVelocity (b : Body) (v : Vector.t) : Body :=
  {| label := label b; shape := shape b; position := position b;
     velocity := v;
     force := force b; torque := torque b; mass := mass b;
     isStatic := isStatic b; friction := friction b;
     frictionStatic := frictionStatic b; frictionAir := frictionAir b;
     restitution := restitution b; density := density b;
     collisionFilter := collisionFilter b |}.

(** [Body.applyForce(body, position, force)]: the force is added to the
    force accumulator of the body, its moment to the torque. *)
Definition Body_applyForce (b : Body) (from f : Vector.t) : Body :=
  let ox := Vector.x from - Vector.x (position b) in
  let oy := Vector.y from - Vector.y (position b) in
  {| label := label b; shape := shape b; position := position b;
     velocity := velocity b;
     force := Vector.make (Vector.x (force b) + Vector.x f)
                          (Vector.y (force b) + Vector.y f);
     torque := torque b + (ox * Vector.y f - oy * Vector.x f);
     mass := mass b;
     isStatic := isStatic b; friction := friction b;
     frictionStatic := frictionStatic b; frictionAir := frictionAir b;
     restitution := restitution b; density := density b;
     collisionFilter := collisionFilter b |}.

(** The fields of a body that no function of the sandbox writes once the
    body is created. *)
Definition fixedPart (b : Body) : string * Shape * Q * bool * Q * CollisionFilter :=
  (label b, shape b, mass b, isStatic b, density b, collisionFilter b).

(** [Detector.canCollide(filterA, filterB)]: an equal non-zero group decides
    (negative: never, positive: always); otherwise categories and masks do. *)
Definition Detector_canCollide (a b : CollisionFilter) : bool :=
  if Z.eqb (group a) (group b) && negb (Z.eqb (group a) 0)
  then Z.ltb 0 (group a)
  else negb (Z.eqb (Z.land (mask a) (category b)) 0)
       && negb (Z.eqb (Z.land (mask b) (category a)) 0).

End Matter.

(** ** physics/Ragdoll.js *)

Module Ragdoll.

Record Disc : Type := { radius : Q }.
Record Box : Type := { width : Q; height : Q }.

Record ConstraintSettings : Type := {
  stiffness : Q;
  damping : Q;
  angularStiffness : Q
}.

Record Physics : Type := {
  friction : Q;
  frictionStatic : Q;
  frictionAir : Q;
  restitution : Q;
  density : Q
}.

(** The shape of [RAGDOLL_CONFIG]. *)
Module Config.
Record t : Type := {
  scale : Q;
  head : Disc;
  torso : Box;
  pelvis : Box;
  upperArm : Box;
  lowerArm : Box;
  hand : Box;
  upperLeg : Box;
  lowerLeg : Box;
  foot : Box;
  constraints : ConstraintSettings;
  physics : Physics;
  collisionGroup : Z
}.
End Config.

(** The [options] argument: any subset of the keys of the configuration. *)
Module Options.
Record t : Type := {
  scale : option Q;
  head : option Disc;
  torso : option Box;
  pelvis : option Box;
  upperArm : option Box;
  lowerArm : option Box;
  hand : option Box;
  upperLeg : option Box;
  lowerLeg : option Box;
  foot : option Box;
  constraints : option ConstraintSettings;
  physics : option Physics;
  collisionGroup : option Z
}.

(** [{}] *)
Definition empty : t :=
  {| scale := None; head := None; torso := None; pelvis := None;
     upperArm := None; lowerArm := None; hand := None; upperLeg := None;
     lowerLeg := None; foot := None; constraints := None; physics := None;
     collisionGroup := None |}.
End Options.

Definition RAGDOLL_CONFIG : Config.t :=
  {| Config.scale := 1;
     Config.head := {| radius := 18 |};
     Config.torso := {| width := 28; height := 50 |};
     Config.pelvis := {| width := 24; height := 20 |};
     Config.upperArm := {| width := 10; height := 32 |};
     Config.lowerArm := {| width := 8; height := 28 |};
     Config.hand := {| width := 8; height := 8 |};
     Config.upperLeg := {| width := 12; height := 38 |};
     Config.lowerLeg := {| width := 10; height := 34 |};
     Config.foot := {| width := 16; height := 8 |};
     Config.constraints :=
       {| stiffness := 9 / 10; damping := 3 / 10; angularStiffness := 1 / 10 |};
     Config.physics :=
       {| friction := 8 / 10; frictionStatic := 9 / 10; frictionAir := 2 / 100;
          restitution := 1 / 10; density := 1 / 1000 |};
     Config.collisionGroup := (-1)%Z |}.

(** [{ ...RAGDOLL_CONFIG, ...options }]: a key of [options] replaces the
    whole value under that key. *)
Definition merge (c : Config.t) (o : Options.t) : Config.t :=
  {| Config.scale := default (Config.scale c) (Options.scale o);
     Config.head := default (Config.head c) (Options.head o);
     Config.torso := default (Config.torso c) (Options.torso o);
     Config.pelvis := default (Config.pelvis c) (Options.pelvis o);
     Config.upperArm := default (Config.upperArm c) (Options.upperArm o);
     Config.lowerArm := default (Config.lowerArm c) (Options.lowerArm o);
     Config.hand := default (Config.hand c) (Options.hand o);
     Config.upperLeg := default (Config.upperLeg c) (Options.upperLeg o);
     Config.lowerLeg := default (Config.lowerLeg c) (Options.lowerLeg o);
     Config.foot := default (Config.foot c) (Options.foot o);
     Config.constraints := default (Config.constraints c) (Options.constraints o);
     Config.physics := default (Config.physics c) (Options.physics o);
     Config.collisionGroup :=
       default (Config.collisionGroup c) (Options.collisionGroup o) |}.

(** The keys of the [bodies] object: the handles by which the other modules
    and the constraints name a segment. *)
Module Handle.
Inductive t : Type :=
| head | torso | pelvis
| leftUpperArm | leftLowerArm | leftHand
| rightUpperArm | rightLowerArm | rightHand
| leftUpperLeg | leftLowerLeg | leftFoot
| rightUpperLeg | rightLowerLeg | rightFoot.
End Handle.

(** The [bodies] object. *)
Module Bodies.
Record t : Type := {
  head : Matter.Body;
  torso : Matter.Body;
  pelvis : Matter.Body;
  leftUpperArm : Matter.Body;
  leftLowerArm : Matter.Body;
  leftHand : Matter.Body;
  rightUpperArm : Matter.Body;
  rightLowerArm : Matter.Body;
  rightHand : Matter.Body;
  leftUpperLeg : Matter.Body;
  leftLowerLeg : Matter.Body;
  leftFoot : Matter.Body;
  rightUpperLeg : Matter.Body;
  rightLowerLeg : Matter.Body;
  rightFoot : Matter.Body
}.

Definition get (h : Handle.t) (b : t) : Matter.Body :=
  match h with
  | Handle.head => head b
  | Handle.torso => torso b
  | Handle.pelvis => pelvis b
  | Handle.leftUpperArm => leftUpperArm b
  | Handle.leftLowerArm => leftLowerArm b
  | Handle.leftHand => leftHand b
  | Handle.rightUpperArm => rightUpperArm b
  | Handle.rightLowerArm => rightLowerArm b
  | Handle.rightHand => rightHand b
  | Handle.leftUpperLeg => leftUpperLeg b
  | Handle.leftLowerLeg => leftLowerLeg b
  | Handle.leftFoot => leftFoot b
  | Handle.rightUpperLeg => rightUpperLeg b
  | Handle.rightLowerLeg => rightLowerLeg b
  | Handle.rightFoot => rightFoot b
  end.

(** [Object.keys(bodies)], in the order the object literal lists them. *)
Definition keys : list Handle.t :=
  [ Handle.head; Handle.torso; Handle.pelvis;
    Handle.leftUpperArm; Handle.leftLowerArm; Handle.leftHand;
    Handle.rightUpperArm; Handle.rightLowerArm; Handle.rightHand;
    Handle.leftUpperLeg; Handle.leftLowerLeg; Handle.leftFoot;
    Handle.rightUpperLeg; Handle.rightLowerLeg; Handle.rightFoot ].

(** [Object.values(bodies)]. *)
Definition values (b : t) : list Matter.Body :=
  [ head b; torso b; pelvis b;
    leftUpperArm b; leftLowerArm b; leftHand b;
    rightUpperArm b; rightLowerArm b; rightHand b;
    leftUpperLeg b; leftLowerLeg b; leftFoot b;
    rightUpperLeg b; rightLowerLeg b; rightFoot b ].

(** [bodies.pelvis = p] and [bodies.torso = p], as the in-place writes to
    the two bodies the AI steers come out in a by-value record. *)
Definition setPelvis (p : Matter.Body) (b : t) : t :=
  {| head := head b; torso := torso b; pelvis := p;
     leftUpperArm := leftUpperArm b; leftLowerArm := leftLowerArm b;
     leftHand := leftHand b;
     rightUpperArm := rightUpperArm b; rightLowerArm := rightLowerArm b;
     rightHand := rightHand b;
     leftUpperLeg := leftUpperLeg b; leftLowerLeg := leftLowerLeg b;
     leftFoot := leftFoot b;
     rightUpperLeg := rightUpperLeg b; rightLowerLeg := rightLowerLeg b;
     rightFoot := rightFoot b |}.

Definition setTorso (p : Matter.Body) (b : t) : t :=
  {| head := head b; torso := p; pelvis := pelvis b;
     leftUpperArm := leftUpperArm b; leftLowerArm := leftLowerArm b;
     leftHand := leftHand b;
     rightUpperArm := rightUpperArm b; rightLowerArm := rightLowerArm b;
     rightHand := rightHand b;
     leftUpperLeg := leftUpperLeg b; leftLowerLeg := leftLowerLeg b;
     leftFoot := leftFoot b;
     rightUpperLeg := rightUpperLeg b; rightLowerLeg := rightLowerLeg b;
     rightFoot := rightFoot b |}.
End Bodies.

(** What [Constraint.create] is given: the two bodies (by handle), the two
    local anchor points and the spring settings. *)
Record Constraint : Type := {
  bodyA : Handle.t;
  bodyB : Handle.t;
  pointA : Vector.t;
  pointB : Vector.t;
  c_stiffness : Q;
  c_damping : Q;
  render_visible : bool
}.

(** The Matter.js composite of a ragdoll: a label, the bodies added to it
    (by handle) and the constraints. *)
Record Composite : Type := {
  composite_label : string;
  composite_bodies : list Handle.t;
  composite_constraints : list Constraint
}.

Record t : Type := {
  bodies : Bodies.t;
  constraints : list Constraint;
  composite : Composite;
  config : Config.t
}.

Definition setBodies (b : Bodies.t) (r : t) : t :=
  {| bodies := b; constraints := constraints r; composite := composite r;
     config := config r |}.

Section Create.

Variable circleArea : Q -> Q.

(** [createRagdoll(x, y, options = {})] *)
Definition createRagdoll (x y : Q) (options : Options.t) : JS.completion t :=
  let config := merge RAGDOLL_CONFIG options in
  let s := Config.scale config in
  let bodyOptions (label : string) : Matter.BodyOptions :=
    {| Matter.opt_label := label;
       Matter.opt_friction := friction (Config.physics config);
       Matter.opt_frictionStatic := frictionStatic (Config.physics config);
       Matter.opt_frictionAir := frictionAir (Config.physics config);
       Matter.opt_restitution := restitution (Config.physics config);
       Matter.opt_density := density (Config.physics config);
       Matter.opt_group := Config.collisionGroup config |} in
  let circle := Matter.Bodies_circle circleArea in
  let rectangle := Matter.Bodies_rectangle circleArea in
  let head_ := Config.head config in
  let torso_ := Config.torso config in
  let pelvis_ := Config.pelvis config in
  let upperArm := Config.upperArm config in
  let lowerArm := Config.lowerArm config in
  let hand := Config.hand config in
  let upperLeg := Config.upperLeg config in
  let lowerLeg := Config.lowerLeg config in
  let foot := Config.foot config in
  (* positions relative to torso centre *)
  let torsoY := y in
  let headY := torsoY - height torso_ * s / 2 - radius head_ * s - 4 * s in
  let pelvisY := torsoY + height torso_ * s / 2 + height pelvis_ * s / 2 in
  let shoulderY := torsoY - height torso_ * s / 2 + 8 * s in
  let shoulderOffsetX := width torso_ * s / 2 + 2 * s in
  let hipY := pelvisY + height pelvis_ * s / 2 in
  let hipOffsetX := width pelvis_ * s / 4 in
  (* bodies *)
  let head := circle x headY (radius head_ * s) (bodyOptions "head") in
  let torso :=
    rectangle x torsoY (width torso_ * s) (height torso_ * s)
      (bodyOptions "torso") in
  let pelvis :=
    rectangle x pelvisY (width pelvis_ * s) (height pelvis_ * s)
      (bodyOptions "pelvis") in
  let leftUpperArm :=
    rectangle (x - shoulderOffsetX - height upperArm * s / 2) shoulderY
      (height upperArm * s) (width upperArm * s)
      (bodyOptions "leftUpperArm") in
  let leftLowerArm :=
    rectangle
      (x - shoulderOffsetX - height upperArm * s - height lowerArm * s / 2)
      shoulderY
      (height lowerArm * s) (width lowerArm * s)
      (bodyOptions "leftLowerArm") in
  let leftHand :=
    rectangle
      (x - shoulderOffsetX - height upperArm * s - height lowerArm * s
       - width hand * s / 2)
      shoulderY
      (width hand * s) (height hand * s)
      (bodyOptions "leftHand") in
  let rightUpperArm :=
    rectangle (x + shoulderOffsetX + height upperArm * s / 2) shoulderY
      (height upperArm * s) (width upperArm * s)
      (bodyOptions "rightUpperArm") in
  let rightLowerArm :=
    rectangle
      (x + shoulderOffsetX + height upperArm * s + height lowerArm * s / 2)
      shoulderY
      (height lowerArm * s) (width lowerArm * s)
      (bodyOptions "rightLowerArm") in
  let rightHand :=
    rectangle
      (x + shoulderOffsetX + height upperArm * s + height lowerArm * s
       + width hand * s / 2)
      shoulderY
      (width hand * s) (height hand * s)
      (bodyOptions "rightHand") in
  let leftUpperLeg :=
    rectangle (x - hipOffsetX) (hipY + height upperLeg * s / 2)
      (width upperLeg * s) (height upperLeg * s)
      (bodyOptions "leftUpperLeg") in
  let leftLowerLeg :=
    rectangle (x - hipOffsetX)
      (hipY + height upperLeg * s + height lowerLeg * s / 2)
      (width lowerLeg * s) (height lowerLeg * s)
      (bodyOptions "leftLowerLeg") in
  let leftFoot :=
    rectangle (x - hipOffsetX + 4 * s)
      (hipY + height upperLeg * s + height lowerLeg * s + height foot * s / 2)
      (width foot * s) (height foot * s)
      (bodyOptions "leftFoot") in
  let rightUpperLeg :=
    rectangle (x + hipOffsetX) (hipY + height upperLeg * s / 2)
      (width upperLeg * s) (height upperLeg * s)
      (bodyOptions "rightUpperLeg") in
  let rightLowerLeg :=
    rectangle (x + hipOffsetX)
      (hipY + height upperLeg * s + height lowerLeg * s / 2)
      (width lowerLeg * s) (height lowerLeg * s)
      (bodyOptions "rightLowerLeg") in
  let rightFoot :=
    rectangle (x + hipOffsetX + 4 * s)
      (hipY + height upperLeg * s + height lowerLeg * s + height foot * s / 2)
      (width foot * s) (height foot * s)
      (bodyOptions "rightFoot") in
  let bodies :=
    {| Bodies.head := head; Bodies.torso := torso; Bodies.pelvis := pelvis;
       Bodies.leftUpperArm := leftUpperArm; Bodies.leftLowerArm := leftLowerArm;
       Bodies.leftHand := leftHand;
       Bodies.rightUpperArm := rightUpperArm;
       Bodies.rightLowerArm := rightLowerArm; Bodies.rightHand := rightHand;
       Bodies.leftUpperLeg := leftUpperLeg; Bodies.leftLowerLeg := leftLowerLeg;
       Bodies.leftFoot := leftFoot;
       Bodies.rightUpperLeg := rightUpperLeg;
       Bodies.rightLowerLeg := rightLowerLeg; Bodies.rightFoot := rightFoot |} in
  (* constraints *)
  let connect (a b : Handle.t) (pA pB : Vector.t) : Constraint :=
    {| bodyA := a; bodyB := b; pointA := pA; pointB := pB;
       c_stiffness := stiffness (Config.constraints config);
       c_damping := damping (Config.constraints config);
       render_visible := false |} in
  let pt := Vector.make in
  let constraints :=
    [ (* neck *)
      connect Handle.head Handle.torso
        (pt 0 (radius head_ * s)) (pt 0 (- height torso_ * s / 2));
      (* spine *)
      connect Handle.torso Handle.pelvis
        (pt 0 (height torso_ * s / 2)) (pt 0 (- height pelvis_ * s / 2));
      (* left shoulder *)
      connect Handle.torso Handle.leftUpperArm
        (pt (- width torso_ * s / 2) (- height torso_ * s / 2 + 8 * s))
        (pt (height upperArm * s / 2) 0);
      (* left elbow *)
      connect Handle.leftUpperArm Handle.leftLowerArm
        (pt (- height upperArm * s / 2) 0) (pt (height lowerArm * s / 2) 0);
      (* left wrist *)
      connect Handle.leftLowerArm Handle.leftHand
        (pt (- height lowerArm * s / 2) 0) (pt (width hand * s / 2) 0);
      (* right shoulder *)
      connect Handle.torso Handle.rightUpperArm
        (pt (width torso_ * s / 2) (- height torso_ * s / 2 + 8 * s))
        (pt (- height upperArm * s / 2) 0);
      (* right elbow *)
      connect Handle.rightUpperArm Handle.rightLowerArm
        (pt (height upperArm * s / 2) 0) (pt (- height lowerArm * s / 2) 0);
      (* right wrist *)
      connect Handle.rightLowerArm Handle.rightHand
        (pt (height lowerArm * s / 2) 0) (pt (- width hand * s / 2) 0);
      (* left hip *)
      connect Handle.pelvis Handle.leftUpperLeg
        (pt (- width pelvis_ * s / 4) (height pelvis_ * s / 2))
        (pt 0 (- height upperLeg * s / 2));
      (* left knee *)
      connect Handle.leftUpperLeg Handle.leftLowerLeg
        (pt 0 (height upperLeg * s / 2)) (pt 0 (- height lowerLeg * s / 2));
      (* left ankle *)
      connect Handle.leftLowerLeg Handle.leftFoot
        (pt 0 (height lowerLeg * s / 2)) (pt (-4 * s) (- height foot * s / 2));
      (* right hip *)
      connect Handle.pelvis Handle.rightUpperLeg
        (pt (width pelvis_ * s / 4) (height pelvis_ * s / 2))
        (pt 0 (- height upperLeg * s / 2));
      (* right knee *)
      connect Handle.rightUpperLeg Handle.rightLowerLeg
        (pt 0 (height upperLeg * s / 2)) (pt 0 (- height lowerLeg * s / 2));
      (* right ankle *)
      connect Handle.rightLowerLeg Handle.rightFoot
        (pt 0 (height lowerLeg * s / 2)) (pt (-4 * s) (- height foot * s / 2))
    ] in
  (* composite *)
  let composite :=
    {| composite_label := "ragdoll";
       composite_bodies := Bodies.keys;
       composite_constraints := constraints |} in
  JS.Normal
    {| bodies := bodies; constraints := constraints; composite := composite;
       config := config |}.

End Create.

End Ragdoll.

(** ** entities/Fighter.js *)

Module Fighter.

Record t : Type := {
  id : string;
  name : string;
  ragdoll : option Ragdoll.t;
  spawnPoint : Vector.t
}.

(** The [options] argument of [createFighter]. *)
Module Options.
Record t : Type := {
  id : option string;
  name : option string;
  ragdollConfig : option Ragdoll.Options.t
}.
End Options.

(** The fighter objects allocated so far, by address, and the Matter.js
    world.  A composite in the world is named by the address of the fighter
    whose ragdoll owns it. *)
Record Store : Type := {
  heap : list t;
  world : list nat
}.

Definition setRagdoll (r : option Ragdoll.t) (f : t) : t :=
  {| id := id f; name := name f; ragdoll := r; spawnPoint := spawnPoint f |}.

(** [s || d] on strings: the empty string is the falsy one. *)
Definition or_else (s : option string) (d : string) : string :=
  match s with
  | Some v => if String.eqb v "" then d else v
  | None => d
  end.

Section Create.

Variable circleArea : Q -> Q.

(** [createFighter(world, x, y, options = {})]; [stamp] stands for the
    string [`fighter_${Date.now()}`].  Returns the address of the new
    fighter. *)
Definition createFighter (st : Store) (x y : Q) (options : Options.t)
    (stamp : string) : JS.completion (nat * Store) :=
  let id := or_else (Options.id options) stamp in
  let name := or_else (Options.name options) "Fighter" in
  let* ragdoll :=
    Ragdoll.createRagdoll circleArea x y
      (default Ragdoll.Options.empty (Options.ragdollConfig options)) in
  let fighter :=
    {| id := id; name := name; ragdoll := Some ragdoll;
       spawnPoint := Vector.make x y |} in
  let address := length (heap st) in
  JS.Normal (address,
             {| heap := heap st ++ [fighter];
                world := world st ++ [address] |}).

(** [removeRagdoll(world, ragdoll)] of Ragdoll.js, for the ragdoll of the
    fighter at [address]. *)
Definition removeRagdoll (st : Store) (address : nat) : Store :=
  {| heap := heap st;
     world := List.filter (fun a => negb (Nat.eqb a address)) (world st) |}.

(** [removeFighter(world, fighter)] *)
Definition removeFighter (st : Store) (fighter : option nat) : Store :=
  match fighter with
  | None => st
  | Some address =>
      match heap st !! address with
      | Some f =>
          match ragdoll f with
          | Some _ => removeRagdoll st address
          | None => st
          end
      | None => st
      end
  end.

(** [respawnFighter(world, fighter, x, y)] *)
Definition respawnFighter (st : Store) (fighter : nat) (x y : Q)
    (stamp : string) : JS.completion (nat * Store) :=
  let st1 := removeFighter st (Some fighter) in
  match heap st1 !! fighter with
  | None => JS.Throw (JS.TypeError "Cannot read properties of undefined")
  | Some f =>
      createFighter st1 x y
        {| Options.id := Some (id f); Options.name := Some (name f);
           Options.ragdollConfig := None |} stamp
  end.

End Create.

(** The object a reference denotes, with its address; [None] for [null]
    and for an address nothing was allocated at. *)
Definition deref (h : list t) (fighter : option nat) : option (nat * t) :=
  match fighter with
  | None => None
  | Some address =>
      match h !! address with
      | Some f => Some (address, f)
      | None => None
      end
  end.

(** [fighter?.ragdoll], through the heap. *)
Definition ragdollOf (h : list t) (fighter : option nat) : option Ragdoll.t :=
  match deref h fighter with
  | Some (_, f) => ragdoll f
  | None => None
  end.

(** [fighter?.ragdoll?.bodies?.pelvis] *)
Definition pelvisOf (h : list t) (fighter : option nat) : option Matter.Body :=
  match ragdollOf h fighter with
  | Some r => Some (Ragdoll.Bodies.pelvis (Ragdoll.bodies r))
  | None => None
  end.

(** The segments of the fighter at an address, [Object.values] of the
    bodies of its ragdoll. *)
Definition segments (h : list t) (address : nat) : list Matter.Body :=
  match ragdollOf h (Some address) with
  | Some r => Ragdoll.Bodies.values (Ragdoll.bodies r)
  | None => []
  end.

(** The joints of the fighter at an address. *)
Definition joints (h : list t) (address : nat) : list Ragdoll.Constraint :=
  match ragdollOf h (Some address) with
  | Some r => Ragdoll.constraints r
  | None => []
  end.

End Fighter.

(** ** ai/AIBrain.js *)

Module AIBrain.

Inductive AIState : Type := IDLE | APPROACH.

(** The shape of [AI_CONFIG]. *)
Record Config : Type := {
  tickInterval : Q;
  approachDistance : Q;
  idleDistance : Q;
  moveForce : Q;
  maxVx : Q;
  idleDamping : Q;
  disabledDamping : Q
}.

Definition AI_CONFIG : Config :=
  {| tickInterval := 30;
     approachDistance := 150;
     idleDistance := 80;
     moveForce := 12 / 1000;
     maxVx := 4;
     idleDamping := 75 / 100;
     disabledDamping := 80 / 100 |}.

Record DebugState : Type := {
  vxA : Q;
  vxB : Q;
  forceApplied : Q
}.

(** An AI controller; [fighter] and [target] are addresses in the heap,
    [None] for [null]. *)
Record AI : Type := {
  fighter : option nat;
  target : option nat;
  state : AIState;
  enabled : bool;
  lastDistance : Q
}.

(** The module state: the [aiInstances] map in insertion order, whether the
    tick timer is set and has a callback, and [debugState]. *)
Record Module_ : Type := {
  aiInstances : list (string * AI);
  tickTimer : bool;
  tickCallback : bool;
  debugState : DebugState
}.

Definition setState (st : AIState) (ai : AI) : AI :=
  {| fighter := fighter ai; target := target ai; state := st;
     enabled := enabled ai; lastDistance := lastDistance ai |}.

Definition setLastDistance (d : Q) (ai : AI) : AI :=
  {| fighter := fighter ai; target := target ai; state := state ai;
     enabled := enabled ai; lastDistance := d |}.

Definition setEnabled (e : bool) (ai : AI) : AI :=
  {| fighter := fighter ai; target := target ai; state := state ai;
     enabled := e; lastDistance := lastDistance ai |}.

(** [Map.prototype.set]: an existing key keeps its place. *)
Fixpoint Map_set (k : string) (v : AI) (m : list (string * AI)) : list (string * AI) :=
  match m with
  | [] => [(k, v)]
  | (k', v') :: m' =>
      if String.eqb k k' then (k, v) :: m' else (k', v') :: Map_set k v m'
  end.

Fixpoint Map_get (k : string) (m : list (string * AI)) : option AI :=
  match m with
  | [] => None
  | (k', v') :: m' => if String.eqb k k' then Some v' else Map_get k m'
  end.

Definition Map_delete (k : string) (m : list (string * AI)) : list (string * AI) :=
  List.filter (fun kv => negb (String.eqb k (fst kv))) m.

Definition setInstances (m : list (string * AI)) (s : Module_) : Module_ :=
  {| aiInstances := m; tickTimer := tickTimer s;
     tickCallback := tickCallback s; debugState := debugState s |}.

(** [createAI(fighter, target)]: reading [fighter.id] raises on [null]. *)
Definition createAI (h : list Fighter.t) (fighter target : option nat)
    (s : Module_) : JS.completion (AI * Module_) :=
  let ai :=
    {| fighter := fighter; target := target; state := IDLE;
       enabled := true; lastDistance := 0 |} in
  match Fighter.deref h fighter with
  | None => JS.Throw (JS.TypeError "Cannot read properties of null")
  | Some (_, f) =>
      JS.Normal (ai, setInstances (Map_set (Fighter.id f) ai (aiInstances s)) s)
  end.

Definition removeAI (fighterId : string) (s : Module_) : Module_ :=
  setInstances (Map_delete fighterId (aiInstances s)) s.

Definition clearAllAI (s : Module_) : Module_ :=
  setInstances [] s.

Definition toggleAI (fighterId : string) (s : Module_) : bool * Module_ :=
  match Map_get fighterId (aiInstances s) with
  | Some ai =>
      let ai' := setEnabled (negb (enabled ai)) ai in
      (enabled ai', setInstances (Map_set fighterId ai' (aiInstances s)) s)
  | None => (false, s)
  end.

Definition getAIState (fighterId : string) (s : Module_) : option AI :=
  Map_get fighterId (aiInstances s).

Definition getAllAIStates (s : Module_) : list AI :=
  map snd (aiInstances s).

(** [clampHorizontalVelocity(body, maxVx)] *)
Definition clampHorizontalVelocity (body : Matter.Body) (maxVx : Q) : Matter.Body :=
  let vx := Vector.x (Matter.velocity body) in
  if JS.gtb (JS.Math_abs vx) maxVx then
    Matter.Body_setVelocity body
      (Vector.make (JS.Math_sign vx * maxVx) (Vector.y (Matter.velocity body)))
  else body.

(** [dampHorizontalVelocity(body, factor)] *)
Definition dampHorizontalVelocity (body : Matter.Body) (factor : Q) : Matter.Body :=
  Matter.Body_setVelocity body
    (Vector.make (Vector.x (Matter.velocity body) * factor)
                 (Vector.y (Matter.velocity body))).

(** The fighter at [address] with the pelvis and torso of its ragdoll
    replaced: how the writes to the two body objects show in the heap. *)
Definition writeBack (h : list Fighter.t) (address : nat) (f : Fighter.t)
    (r : Ragdoll.t) (pelvis torso : Matter.Body) : list Fighter.t :=
  <[ address :=
       Fighter.setRagdoll
         (Some (Ragdoll.setBodies
                  (Ragdoll.Bodies.setTorso torso
                     (Ragdoll.Bodies.setPelvis pelvis (Ragdoll.bodies r))) r)) f ]> h.

Section Tick.

Variable Math_sqrt : Q -> Q.

(** The configuration object is exported and mutable; the functions read it
    at every call. *)
Variable cfg : Config.

(** [getDistance(fighterA, fighterB)], between the torsos. *)
Definition getDistance (h : list Fighter.t) (fighterA fighterB : option nat) : Q :=
  match Fighter.ragdollOf h fighterA, Fighter.ragdollOf h fighterB with
  | Some ra, Some rb =>
      let posA := Matter.position (Ragdoll.Bodies.torso (Ragdoll.bodies ra)) in
      let posB := Matter.position (Ragdoll.Bodies.torso (Ragdoll.bodies rb)) in
      let dx := Vector.x posB - Vector.x posA in
      let dy := Vector.y posB - Vector.y posA in
      Math_sqrt (dx * dx + dy * dy)
  | _, _ => 0
  end.

(** The distance [processAITick] measures, between the two pelvis bodies. *)
Definition pelvisDistance (pelvis targetPelvis : Matter.Body) : Q :=
  let myPos := Matter.position pelvis in
  let targetPos := Matter.position targetPelvis in
  let dx := Vector.x targetPos - Vector.x myPos in
  let dy := Vector.y targetPos - Vector.y myPos in
  Math_sqrt (dx * dx + dy * dy).

(** The two-threshold state update of [processAITick]. *)
Definition nextState (distance : Q) (current : AIState) : AIState :=
  if JS.gtb distance (approachDistance cfg) then APPROACH
  else if JS.ltb distance (idleDistance cfg) then IDLE
  else current.

(** [processAITick(ai, index)] *)
Definition processAITick (ai : AI) (index : nat) (h : list Fighter.t)
    (dbg : DebugState) : AI * list Fighter.t * DebugState :=
  match Fighter.deref h (fighter ai), Fighter.ragdollOf h (target ai) with
  | Some (address, f), Some rt =>
      match Fighter.ragdoll f with
      | None => (ai, h, dbg)
      | Some r =>
          let pelvis := Ragdoll.Bodies.pelvis (Ragdoll.bodies r) in
          let torso := Ragdoll.Bodies.torso (Ragdoll.bodies r) in
          let dbg1 :=
            if Nat.eqb index 0
            then {| vxA := Vector.x (Matter.velocity pelvis); vxB := vxB dbg;
                    forceApplied := forceApplied dbg |}
            else {| vxA := vxA dbg; vxB := Vector.x (Matter.velocity pelvis);
                    forceApplied := forceApplied dbg |} in
          if negb (enabled ai) then
            let pelvis1 := dampHorizontalVelocity pelvis (disabledDamping cfg) in
            let torso1 := dampHorizontalVelocity torso (disabledDamping cfg) in
            (ai, writeBack h address f r pelvis1 torso1, dbg1)
          else
            let myPos := Matter.position pelvis in
            let targetPos := Matter.position (Ragdoll.Bodies.pelvis (Ragdoll.bodies rt)) in
            let dx := Vector.x targetPos - Vector.x myPos in
            let dy := Vector.y targetPos - Vector.y myPos in
            let distance := Math_sqrt (dx * dx + dy * dy) in
            let ai1 := setLastDistance distance ai in
            let ai2 := setState (nextState distance (state ai1)) ai1 in
            let '(pelvis1, torso1, dbg2) :=
              match state ai2 with
              | APPROACH =>
                  let direction := if JS.gtb dx 0 then 1 else -1 in
                  let force := moveForce cfg * direction in
                  (Matter.Body_applyForce pelvis (Matter.position pelvis)
                     (Vector.make force 0),
                   Matter.Body_applyForce torso (Matter.position torso)
                     (Vector.make (force * (5 / 10)) 0),
                   {| vxA := vxA dbg1; vxB := vxB dbg1; forceApplied := force |})
              | IDLE =>
                  (dampHorizontalVelocity pelvis (idleDamping cfg),
                   dampHorizontalVelocity torso (idleDamping cfg),
                   {| vxA := vxA dbg1; vxB := vxB dbg1; forceApplied := 0 |})
              end in
            let pelvis2 := clampHorizontalVelocity pelvis1 (maxVx cfg) in
            let torso2 := clampHorizontalVelocity torso1 (maxVx cfg) in
            (ai2, writeBack h address f r pelvis2 torso2, dbg2)
      end
  | _, _ => (ai, h, dbg)
  end.

(** [aiInstances.forEach(ai => { processAITick(ai, index); index++ })] *)
Fixpoint forEachAI (m : list (string * AI)) (index : nat) (h : list Fighter.t)
    (dbg : DebugState) : list (string * AI) * list Fighter.t * DebugState :=
  match m with
  | [] => ([], h, dbg)
  | (k, ai) :: m' =>
      let '(ai', h1, dbg1) := processAITick ai index h dbg in
      let '(m'', h2, dbg2) := forEachAI m' (S index) h1 dbg1 in
      ((k, ai') :: m'', h2, dbg2)
  end.

(** [processAllAI()]; the tick callback only refreshes the overlay. *)
Definition processAllAI (h : list Fighter.t) (s : Module_) : list Fighter.t * Module_ :=
  let '(m, h1, dbg1) := forEachAI (aiInstances s) 0 h (debugState s) in
  (h1, {| aiInstances := m; tickTimer := tickTimer s;
          tickCallback := tickCallback s; debugState := dbg1 |}).

End Tick.

(** [startAI(onTick = null)] *)
Definition startAI (onTick : bool) (s : Module_) : Module_ :=
  if tickTimer s then s
  else {| aiInstances := aiInstances s; tickTimer := true;
          tickCallback := onTick; debugState := debugState s |}.

Definition stopAI (s : Module_) : Module_ :=
  if tickTimer s
  then {| aiInstances := aiInstances s; tickTimer := false;
          tickCallback := false; debugState := debugState s |}
  else s.

Definition resetAI (s : Module_) : Module_ :=
  clearAllAI (stopAI s).

Definition initial : Module_ :=
  {| aiInstances := []; tickTimer := false; tickCallback := false;
     debugState := {| vxA := 0; vxB := 0; forceApplied := 0 |} |}.

End AIBrain.

(** ** ai/AIBrain.js, the earlier revision kept next to the current one

    It shares the controller object and the instance map with the current
    revision; the configuration, the velocity clamp and [processAITick]
    differ. *)

Module AIBrainV1.

Record Config : Type := {
  tickInterval : Q;
  approachDistance : Q;
  idleDistance : Q;
  moveForce : Q;
  maxVelocity : Q;
  brakingFactor : Q
}.

Definition AI_CONFIG : Config :=
  {| tickInterval := 50;
     approachDistance := 150;
     idleDistance := 80;
     moveForce := 8 / 1000;
     maxVelocity := 5;
     brakingFactor := 85 / 100 |}.

Section Tick.

Variable Math_sqrt : Q -> Q.
Variable cfg : Config.

(** [clampVelocity(body, maxVel)] *)
Definition clampVelocity (body : Matter.Body) (maxVel : Q) : Matter.Body :=
  let vx := Vector.x (Matter.velocity body) in
  let vy := Vector.y (Matter.velocity body) in
  let speed := Math_sqrt (vx * vx + vy * vy) in
  if JS.gtb speed maxVel then
    let scale := maxVel / speed in
    Matter.Body_setVelocity body (Vector.make (vx * scale) (vy * scale))
  else body.

Definition nextState (distance : Q) (current : AIBrain.AIState) : AIBrain.AIState :=
  if JS.gtb distance (approachDistance cfg) then AIBrain.APPROACH
  else if JS.ltb distance (idleDistance cfg) then AIBrain.IDLE
  else current.

(** [processAITick(ai)] *)
Definition processAITick (ai : AIBrain.AI) (h : list Fighter.t)
    : AIBrain.AI * list Fighter.t :=
  if negb (AIBrain.enabled ai) then (ai, h)
  else
    match Fighter.deref h (AIBrain.fighter ai),
          Fighter.ragdollOf h (AIBrain.target ai) with
    | Some (address, f), Some rt =>
        match Fighter.ragdoll f with
        | None => (ai, h)
        | Some r =>
            let pelvis := Ragdoll.Bodies.pelvis (Ragdoll.bodies r) in
            let torso := Ragdoll.Bodies.torso (Ragdoll.bodies r) in
            let myPos := Matter.position pelvis in
            let targetPos := Matter.position (Ragdoll.Bodies.pelvis (Ragdoll.bodies rt)) in
            let dx := Vector.x targetPos - Vector.x myPos in
            let dy := Vector.y targetPos - Vector.y myPos in
            let distance := Math_sqrt (dx * dx + dy * dy) in
            let ai1 := AIBrain.setLastDistance distance ai in
            let ai2 := AIBrain.setState (nextState distance (AIBrain.state ai1)) ai1 in
            let '(pelvis1, torso1) :=
              match AIBrain.state ai2 with
              | AIBrain.APPROACH =>
                  let direction := if JS.gtb dx 0 then 1 else -1 in
                  let force := moveForce cfg * direction in
                  (Matter.Body_applyForce pelvis (Matter.position pelvis)
                     (Vector.make force 0),
                   torso)
              | AIBrain.IDLE =>
                  (Matter.Body_setVelocity pelvis
                     (Vector.make (Vector.x (Matter.velocity pelvis) * brakingFactor cfg)
                                  (Vector.y (Matter.velocity pelvis))),
                   Matter.Body_setVelocity torso
                     (Vector.make (Vector.x (Matter.velocity torso) * brakingFactor cfg)
                                  (Vector.y (Matter.velocity torso))))
              end in
            let pelvis2 := clampVelocity pelvis1 (maxVelocity cfg) in
            let torso2 := clampVelocity torso1 (maxVelocity cfg) in
            (ai2, AIBrain.writeBack h address f r pelvis2 torso2)
        end
    | _, _ => (ai, h)
    end.

End Tick.

End AIBrainV1.

(** ** engine/ImpactTracker.js *)

Module ImpactTracker.

Module IMPACT_CONFIG.
Definition minImpact : Q := 50.
Definition threshold_small : Q := 100.
Definition threshold_medium : Q := 200.
Definition threshold_large : Q := 400.
Definition maxFloatingNumbers : nat := 20.
Definition floatDuration : Q := 1500.
Definition counterWindow : Q := 5000.
Definition ignoreStatic : bool := true.
Definition ignoreLabels : list string :=
  ["floor"; "ceiling"; "leftWall"; "rightWall"]%string.
End IMPACT_CONFIG.

(** A Matter.js collision pair; the [collision] member is not read. *)
Record Pair : Type := {
  bodyA : Matter.Body;
  bodyB : Matter.Body
}.

Definition includes (l : list string) (s : string) : bool :=
  existsb (String.eqb s) l.

Section Impact.

Variable Math_sqrt : Q -> Q.

(** The speed of [bodyA] relative to [bodyB]. *)
Definition relativeSpeed (pair : Pair) : Q :=
  let velA := Matter.velocity (bodyA pair) in
  let velB := Matter.velocity (bodyB pair) in
  let relVelX := Vector.x velA - Vector.x velB in
  let relVelY := Vector.y velA - Vector.y velB in
  Math_sqrt (relVelX * relVelX + relVelY * relVelY).

(** The combined mass [calculateImpact] uses: a mass of [0] counts as [1]. *)
Definition combinedMass (pair : Pair) : Q :=
  let massA := JS.or_else (Matter.mass (bodyA pair)) 1 in
  let massB := JS.or_else (Matter.mass (bodyB pair)) 1 in
  massA + massB.

(** [calculateImpact(pair)] *)
Definition calculateImpact (pair : Pair) : Q :=
  let velA := Matter.velocity (bodyA pair) in
  let velB := Matter.velocity (bodyB pair) in
  let relVelX := Vector.x velA - Vector.x velB in
  let relVelY := Vector.y velA - Vector.y velB in
  let relSpeed := Math_sqrt (relVelX * relVelX + relVelY * relVelY) in
  let massA := JS.or_else (Matter.mass (bodyA pair)) 1 in
  let massB := JS.or_else (Matter.mass (bodyB pair)) 1 in
  let combinedMass := massA + massB in
  let impact := relSpeed * combinedMass * 10 in
  impact.

End Impact.

(** [getImpactColor(impact)] *)
Definition getImpactColor (impact : Q) : string :=
  if JS.geb impact IMPACT_CONFIG.threshold_large then "#ef4444"
  else if JS.geb impact IMPACT_CONFIG.threshold_medium then "#fbbf24"
  else if JS.geb impact IMPACT_CONFIG.threshold_small then "#9ca3af"
  else "#6b7280".

(** [getCollisionPoint(pair)] *)
Definition getCollisionPoint (pair : Pair) : Vector.t :=
  Vector.make
    ((Vector.x (Matter.position (bodyA pair)) + Vector.x (Matter.position (bodyB pair))) / 2)
    ((Vector.y (Matter.position (bodyA pair)) + Vector.y (Matter.position (bodyB pair))) / 2).

(** [shouldIgnore(pair)] *)
Definition shouldIgnore (pair : Pair) : bool :=
  if IMPACT_CONFIG.ignoreStatic
     && (Matter.isStatic (bodyA pair) || Matter.isStatic (bodyB pair))
  then true
  else if includes IMPACT_CONFIG.ignoreLabels (Matter.label (bodyA pair)) then true
  else if includes IMPACT_CONFIG.ignoreLabels (Matter.label (bodyB pair)) then true
  else false.

End ImpactTracker.

(** ** index.js: spawning *)

Module Main.

(** [getArenaConfig()] of World.js. *)
Module ARENA.
Definition width : Q := 900.
Definition height : Q := 600.
End ARENA.

(** The module state of index.js together with the modules it drives. *)
Record State : Type := {
  store : Fighter.Store;
  fighterA : option nat;
  fighterB : option nat;
  ai : AIBrain.Module_
}.

Definition initial : State :=
  {| store := {| Fighter.heap := []; Fighter.world := [] |};
     fighterA := None; fighterB := None; ai := AIBrain.initial |}.

(** [getSpawnPositions()] *)
Definition getSpawnPositions : Vector.t * Vector.t :=
  let spawnY := ARENA.height / 2 - 50 in
  (Vector.make (ARENA.width * (3 / 10)) spawnY,
   Vector.make (ARENA.width * (7 / 10)) spawnY).

(** [{ collisionGroup: g }] *)
Definition groupOnly (g : Z) : Ragdoll.Options.t :=
  {| Ragdoll.Options.scale := None; Ragdoll.Options.head := None;
     Ragdoll.Options.torso := None; Ragdoll.Options.pelvis := None;
     Ragdoll.Options.upperArm := None; Ragdoll.Options.lowerArm := None;
     Ragdoll.Options.hand := None; Ragdoll.Options.upperLeg := None;
     Ragdoll.Options.lowerLeg := None; Ragdoll.Options.foot := None;
     Ragdoll.Options.constraints := None; Ragdoll.Options.physics := None;
     Ragdoll.Options.collisionGroup := Some g |}.

Section Spawn.

Variable circleArea : Q -> Q.

(** [spawnFighters()]; the call of [Renderer.setFighters] is left out. *)
Definition spawnFighters (s : State) : JS.completion State :=
  let '(a, b) := getSpawnPositions in
  let st1 :=
    match fighterA s with
    | Some _ => Fighter.removeFighter (store s) (fighterA s)
    | None => store s
    end in
  let st2 :=
    match fighterB s with
    | Some _ => Fighter.removeFighter st1 (fighterB s)
    | None => st1
    end in
  let ai1 := AIBrain.resetAI (ai s) in
  let* (fa, st3) :=
    Fighter.createFighter circleArea st2 (Vector.x a) (Vector.y a)
      {| Fighter.Options.id := Some "fighter_a"%string;
         Fighter.Options.name := Some "Fighter A"%string;
         Fighter.Options.ragdollConfig := Some (groupOnly (-1)) |}
      "fighter_"%string in
  let* (fb, st4) :=
    Fighter.createFighter circleArea st3 (Vector.x b) (Vector.y b)
      {| Fighter.Options.id := Some "fighter_b"%string;
         Fighter.Options.name := Some "Fighter B"%string;
         Fighter.Options.ragdollConfig := Some (groupOnly (-2)) |}
      "fighter_"%string in
  let* (_, ai2) := AIBrain.createAI (Fighter.heap st4) (Some fa) (Some fb) ai1 in
  let* (_, ai3) := AIBrain.createAI (Fighter.heap st4) (Some fb) (Some fa) ai2 in
  let ai4 := AIBrain.startAI true ai3 in
  JS.Normal {| store := st4; fighterA := Some fa; fighterB := Some fb; ai := ai4 |}.

End Spawn.

End Main.

(** ** BALANCE.md: damage calculation *)

Module Damage.

(** Modelled from the spec: the repository has no function that turns a
    collision impulse into damage and knockback; only BALANCE.md and section
    4.5 of the specification give the formulas.
    [impactScoreForDamage = collisionImpulse * weaponDamageScale * strengthMultiplier]. *)
Definition impactScoreForDamage (collisionImpulse weaponDamageScale strengthMultiplier : Q) : Q :=
  collisionImpulse * weaponDamageScale * strengthMultiplier.

(** Modelled from the spec: damage is the impact score less the armor
    defense, floored at zero. *)
Definition damage (collisionImpulse weaponDamageScale strengthMultiplier armorDefense : Q) : Q :=
  let raw :=
    impactScoreForDamage collisionImpulse weaponDamageScale strengthMultiplier
    - armorDefense in
  if JS.ltb raw 0 then 0 else raw.

(** Modelled from the spec:
    [knockback = collisionImpulse * knockbackScale * (1 - armorKnockbackReduction)]. *)
Definition knockback (collisionImpulse knockbackScale armorKnockbackReduction : Q) : Q :=
  collisionImpulse * knockbackScale * (1 - armorKnockbackReduction).

End Damage.

(** ** Sample values

    Stand-ins for the parameters and a few concrete states, on which the
    statements below are evaluated. *)

Module Sample.

(** An integrator that only counts its calls. *)
Definition Engine : Type := nat.
Definition Engine_update (e : Engine) (_ : Q) : Engine := S e.

(** The integer part of the square root: exact on integer squares. *)
Definition Math_sqrt (q : Q) : Q := inject_Z (Z.sqrt (Qfloor q)).

(** The area of the disc with pi taken as 355/113. *)
Definition circleArea (r : Q) : Q := 355 / 113 * r * r.

(** The simulator after [init] with an engine and both callbacks. *)
Definition initialised : Simulator.State Engine :=
  Simulator.init (Some 0%nat) true true 0 (Simulator.initial Engine).

(** The sandbox after [spawnFighters()]. *)
Definition spawned : Main.State :=
  match Main.spawnFighters circleArea Main.initial with
  | JS.Normal s => s
  | JS.Throw _ => Main.initial
  end.

(** Two fighters fifty pixels apart. *)
Definition closeHeap : list Fighter.t :=
  let none :=
    {| Fighter.Options.id := None; Fighter.Options.name := None;
       Fighter.Options.ragdollConfig := None |} in
  match Fighter.createFighter circleArea
          {| Fighter.heap := []; Fighter.world := [] |} 100 250 none "fighter_1" with
  | JS.Normal (_, st1) =>
      match Fighter.createFighter circleArea st1 150 250 none "fighter_2" with
      | JS.Normal (_, st2) => Fighter.heap st2
      | JS.Throw _ => []
      end
  | JS.Throw _ => []
  end.

(** A controller of the fighter at address 0 aimed at the one at address 1. *)
Definition controller (st : AIBrain.AIState) (on : bool) : AIBrain.AI :=
  {| AIBrain.fighter := Some 0%nat; AIBrain.target := Some 1%nat;
     AIBrain.state := st; AIBrain.enabled := on; AIBrain.lastDistance := 0 |}.

Definition noDebug : AIBrain.DebugState :=
  {| AIBrain.vxA := 0; AIBrain.vxB := 0; AIBrain.forceApplied := 0 |}.

(** A body of the given velocity and mass. *)
Definition moving (vx vy m : Q) : Matter.Body :=
  {| Matter.label := "segment"; Matter.shape := Matter.Rectangle 10 10;
     Matter.position := Vector.zero; Matter.velocity := Vector.make vx vy;
     Matter.force := Vector.zero; Matter.torque := 0; Matter.mass := m;
     Matter.isStatic := false; Matter.friction := 0; Matter.frictionStatic := 0;
     Matter.frictionAir := 0; Matter.restitution := 0; Matter.density := 0;
     Matter.collisionFilter := Matter.defaultFilter |}.

(** Options that set the density to [d] and the joint stiffness to [k]. *)
Definition tuned (d k : Q) : Ragdoll.Options.t :=
  {| Ragdoll.Options.scale := None; Ragdoll.Options.head := None;
     Ragdoll.Options.torso := None; Ragdoll.Options.pelvis := None;
     Ragdoll.Options.upperArm := None; Ragdoll.Options.lowerArm := None;
     Ragdoll.Options.hand := None; Ragdoll.Options.upperLeg := None;
     Ragdoll.Options.lowerLeg := None; Ragdoll.Options.foot := None;
     Ragdoll.Options.constraints :=
       Some {| Ragdoll.stiffness := k; Ragdoll.damping := 3 / 10;
               Ragdoll.angularStiffness := 1 / 10 |};
     Ragdoll.Options.physics :=
       Some {| Ragdoll.friction := 8 / 10; Ragdoll.frictionStatic := 9 / 10;
               Ragdoll.frictionAir := 2 / 100; Ragdoll.restitution := 1 / 10;
               Ragdoll.density := d |};
     Ragdoll.Options.collisionGroup := None |}.

End Sample.

(** ** Clients of Simulator.js

    The exported functions of the scheduler as one call each, so that a
    client is a list of calls. *)

Module Session.

Section WithEngine.

Variable Engine : Type.
Variable Engine_update : Engine -> Q -> Engine.

Inductive Call : Type :=
| Init (matterEngine : option Engine) (renderCallback resetCallback : bool) (now : Q)
| SetEngine (matterEngine : option Engine)
| Start
| Pause
| Resume (now : Q)
| TogglePause (now : Q)
| Step
| Reset
| Frame (currentTime : Q).

Definition perform (c : Call) (s : Simulator.State Engine)
    : JS.completion (Simulator.State Engine) :=
  match c with
  | Init e r rs now => JS.Normal (Simulator.init e r rs now s)
  | SetEngine e => JS.Normal (Simulator.setEngine e s)
  | Start => JS.Normal (Simulator.start s)
  | Pause => JS.Normal (Simulator.pause s)
  | Resume now => JS.Normal (Simulator.resume now s)
  | TogglePause now => JS.Normal (Simulator.togglePause now s).2
  | Step => JS.Normal (Simulator.step Engine_update s)
  | Reset => JS.Normal (Simulator.reset s)
  | Frame t => Simulator.loop Engine_update t s
  end.

(** Calls that leave an engine installed: every call but [init(null, ...)]
    and [setEngine(null)]. *)
Definition keepsEngine (c : Call) : bool :=
  match c with
  | Init None _ _ _ => false
  | SetEngine None => false
  | _ => true
  end.

Fixpoint performAll (cs : list Call) (s : Simulator.State Engine)
    : JS.completion (Simulator.State Engine) :=
  match cs with
  | [] => JS.Normal s
  | c :: cs' => let* s1 := perform c s in performAll cs' s1
  end.

End WithEngine.

Arguments Init {Engine} _ _ _ _.
Arguments SetEngine {Engine} _.
Arguments Start {Engine}.
Arguments Pause {Engine}.
Arguments Resume {Engine} _.
Arguments TogglePause {Engine} _.
Arguments Step {Engine}.
Arguments Reset {Engine}.
Arguments Frame {Engine} _.
Arguments keepsEngine {Engine} _.
Arguments perform {Engine} _ _ _.
Arguments performAll {Engine} _ _ _.

End Session.

(** ** ui/Controls.js *)

Module Controls.

(** What a [keydown] event carries for the handler. *)
Record KeyboardEvent : Type := {
  target_tagName : string;
  code : string
}.

Section WithEngine.

Variable Engine : Type.
Variable Engine_update : Engine -> Q -> Engine.

(** [updateUI()] only reads the simulator: the status text it shows. *)
Definition statusText (s : Simulator.State Engine) : string :=
  if negb (Simulator.getIsRunning Engine s) then "Stopped"
  else if Simulator.getIsPaused Engine s then "Paused"
  else "Running".

(** The label [updateUI()] gives the pause button. *)
Definition pauseLabel (s : Simulator.State Engine) : string :=
  if Simulator.getIsPaused Engine s then "Resume" else "Pause".

(** Whether [updateUI()] disables the start button. *)
Definition startDisabled (s : Simulator.State Engine) : bool :=
  Simulator.getIsRunning Engine s.

Definition handleStart (s : Simulator.State Engine) : Simulator.State Engine :=
  Simulator.start s.

(** [handlePause()]; [now] is the value [performance.now()] returns. *)
Definition handlePause (now : Q) (s : Simulator.State Engine)
    : Simulator.State Engine :=
  if negb (Simulator.getIsRunning Engine s) then Simulator.start s
  else (Simulator.togglePause now s).2.

Definition handleStep (s : Simulator.State Engine) : Simulator.State Engine :=
  let s1 :=
    if negb (Simulator.getIsRunning Engine s)
    then Simulator.pause (Simulator.start s)
    else s in
  Simulator.step Engine_update s1.

Definition handleReset (s : Simulator.State Engine) : Simulator.State Engine :=
  Simulator.reset s.

(** [handleKeydown(event)] *)
Definition handleKeydown (event : KeyboardEvent) (now : Q)
    (s : Simulator.State Engine) : Simulator.State Engine :=
  if String.eqb (target_tagName event) "INPUT"
     || String.eqb (target_tagName event) "TEXTAREA"
  then s
  else if String.eqb (code event) "Space" then
    if negb (Simulator.getIsRunning Engine s) then Simulator.start s
    else (Simulator.togglePause now s).2
  else if String.eqb (code event) "KeyN" then
    let s1 :=
      if negb (Simulator.getIsRunning Engine s)
      then Simulator.pause (Simulator.start s)
      else s in
    Simulator.step Engine_update s1
  else if String.eqb (code event) "KeyR" then Simulator.reset s
  else s.

End WithEngine.

Arguments statusText {Engine} _.
Arguments pauseLabel {Engine} _.
Arguments startDisabled {Engine} _.
Arguments handleStart {Engine} _.
Arguments handlePause {Engine} _ _.
Arguments handleStep {Engine} _ _.
Arguments handleReset {Engine} _.
Arguments handleKeydown {Engine} _ _ _ _.

End Controls.

(** ** engine/ImpactTracker.js: the module state and its handlers *)

Module ImpactState.

(** [Math.round]: to the nearest integer, halves upwards. *)
Definition Math_round (q : Q) : Q := inject_Z (Qfloor (q + 1 / 2)).

(** The class [FloatingNumber]. *)
Module FloatingNumber.

Record t : Type := {
  x : Q;
  y : Q;
  value : Q;
  color : string;
  createdAt : Q;
  opacity : Q;
  vy : Q
}.

(** [new FloatingNumber(x, y, value, color)]; [now] is the value
    [performance.now()] returns in the constructor. *)
Definition new (x y value : Q) (color : string) (now : Q) : t :=
  {| x := x; y := y; value := Math_round value; color := color;
     createdAt := now; opacity := 1; vy := - (15 / 10) |}.

(** [update(dt)]; [dt] is not read. *)
Definition update (now : Q) (fn : t) : t :=
  let y1 := y fn + vy fn in
  let age := now - createdAt fn in
  let progress := age / ImpactTracker.IMPACT_CONFIG.floatDuration in
  {| x := x fn; y := y1; value := value fn; color := color fn;
     createdAt := createdAt fn; opacity := 1 - progress; vy := vy fn |}.

Definition isExpired (now : Q) (fn : t) : bool :=
  JS.gtb (now - createdAt fn) ImpactTracker.IMPACT_CONFIG.floatDuration.

End FloatingNumber.

(** An entry of [impactHistory]. *)
Record HistoryEntry : Type := {
  time : Q;
  impact : Q
}.

Section Handlers.

Variable Engine : Type.
Variable Math_sqrt : Q -> Q.

(** The clock: [performance_now n] is what the [n]-th call of
    [performance.now()] returns, counting from 0. *)
Variable performance_now : nat -> Q.

(** The module state; [clock] counts the calls of [performance.now()] made
    so far. *)
Record State : Type := {
  floatingNumbers : list FloatingNumber.t;
  impactHistory : list HistoryEntry;
  showImpacts : bool;
  engine : option Engine;
  clock : nat
}.

Definition initial : State :=
  {| floatingNumbers := []; impactHistory := []; showImpacts := true;
     engine := None; clock := 0 |}.

(** The body of the [forEach] of [onCollisionStart], for one pair. *)
Definition onPair (s : State) (pair : ImpactTracker.Pair) : State :=
  if ImpactTracker.shouldIgnore pair then s
  else
    let impact := ImpactTracker.calculateImpact Math_sqrt pair in
    if JS.ltb impact ImpactTracker.IMPACT_CONFIG.minImpact then s
    else
      let point := ImpactTracker.getCollisionPoint pair in
      let color := ImpactTracker.getImpactColor impact in
      let '(numbers, n1) :=
        if (length (floatingNumbers s)
            <? ImpactTracker.IMPACT_CONFIG.maxFloatingNumbers)%nat
        then (floatingNumbers s
              ++ [FloatingNumber.new (Vector.x point) (Vector.y point) impact
                    color (performance_now (clock s))],
              S (clock s))
        else (floatingNumbers s, clock s) in
      let history :=
        impactHistory s ++ [{| time := performance_now n1; impact := impact |}] in
      let now := performance_now (S n1) in
      {| floatingNumbers := numbers;
         impactHistory :=
           List.filter
             (fun h => JS.ltb (now - time h)
                         ImpactTracker.IMPACT_CONFIG.counterWindow)
             history;
         showImpacts := showImpacts s;
         engine := engine s;
         clock := S (S n1) |}.

(** [onCollisionStart(event)], on the pairs of the event. *)
Definition onCollisionStart (pairs : list ImpactTracker.Pair) (s : State) : State :=
  if negb (showImpacts s) then s
  else fold_left onPair pairs s.

(** [initImpactTracker(matterEngine)] *)
Definition initImpactTracker (matterEngine : option Engine) (s : State) : State :=
  {| floatingNumbers := []; impactHistory := [];
     showImpacts := showImpacts s; engine := matterEngine; clock := clock s |}.

Definition destroyImpactTracker (s : State) : State :=
  {| floatingNumbers := []; impactHistory := [];
     showImpacts := showImpacts s; engine := None; clock := clock s |}.

(** [floatingNumbers.forEach(fn => fn.update(dt))]: one reading of the clock
    per number, starting with the [n]-th. *)
Fixpoint updateEach (l : list FloatingNumber.t) (n : nat)
    : list FloatingNumber.t * nat :=
  match l with
  | [] => ([], n)
  | fn :: l' =>
      let '(l1, n1) := updateEach l' (S n) in
      (FloatingNumber.update (performance_now n) fn :: l1, n1)
  end.

(** [floatingNumbers.filter(fn => !fn.isExpired())] *)
Fixpoint dropExpired (l : list FloatingNumber.t) (n : nat)
    : list FloatingNumber.t * nat :=
  match l with
  | [] => ([], n)
  | fn :: l' =>
      let '(l1, n1) := dropExpired l' (S n) in
      (if negb (FloatingNumber.isExpired (performance_now n) fn)
       then fn :: l1 else l1, n1)
  end.

(** [updateImpacts(dt)] *)
Definition updateImpacts (dt : Q) (s : State) : State :=
  let '(l1, n1) := updateEach (floatingNumbers s) (clock s) in
  let '(l2, n2) := dropExpired l1 n1 in
  {| floatingNumbers := l2; impactHistory := impactHistory s;
     showImpacts := showImpacts s; engine := engine s; clock := n2 |}.

Definition getFloatingNumbers (s : State) : list FloatingNumber.t :=
  floatingNumbers s.

(** [getImpactCount()] *)
Definition getImpactCount (s : State) : nat * State :=
  let now := performance_now (clock s) in
  (length
     (List.filter
        (fun h => JS.ltb (now - time h) ImpactTracker.IMPACT_CONFIG.counterWindow)
        (impactHistory s)),
   {| floatingNumbers := floatingNumbers s; impactHistory := impactHistory s;
      showImpacts := showImpacts s; engine := engine s; clock := S (clock s) |}).

(** [toggleImpactDisplay()] *)
Definition toggleImpactDisplay (s : State) : bool * State :=
  (negb (showImpacts s),
   {| floatingNumbers := floatingNumbers s; impactHistory := impactHistory s;
      showImpacts := negb (showImpacts s); engine := engine s;
      clock := clock s |}).

Definition isShowingImpacts (s : State) : bool := showImpacts s.

(** [setEngine(matterEngine)] *)
Definition setEngine (matterEngine : option Engine) (s : State) : State :=
  {| floatingNumbers := []; impactHistory := [];
     showImpacts := showImpacts s; engine := matterEngine; clock := clock s |}.

End Handlers.

Arguments floatingNumbers {Engine} _.
Arguments impactHistory {Engine} _.
Arguments showImpacts {Engine} _.
Arguments engine {Engine} _.
Arguments clock {Engine} _.
Arguments onPair {Engine} _ _ _ _.
Arguments onCollisionStart {Engine} _ _ _ _.
Arguments initImpactTracker {Engine} _ _.
Arguments destroyImpactTracker {Engine} _.
Arguments updateImpacts {Engine} _ _ _.
Arguments getFloatingNumbers {Engine} _.
Arguments getImpactCount {Engine} _ _.
Arguments toggleImpactDisplay {Engine} _.
Arguments isShowingImpacts {Engine} _.
Arguments setEngine {Engine} _ _.

End ImpactState.

(** ** engine/World.js: the arena *)

Module World.

Module ARENA.
Definition width : Q := 900.
Definition height : Q := 600.
Definition wallThickness : Q := 20.
Definition floorY : Q := 580.
Definition ceilingY : Q := 20.
End ARENA.

(** What [Bodies.rectangle(x, y, width, height, { isStatic: true, label })]
    is given for a wall.  Matter.js gives a static body an infinite mass;
    the sandbox never reads it. *)
Record Wall : Type := {
  label : string;
  isStatic : bool;
  position : Vector.t;
  width : Q;
  height : Q
}.

Record Bounds : Type := {
  floor : Wall;
  ceiling : Wall;
  leftWall : Wall;
  rightWall : Wall
}.

(** [createArenaBounds()] *)
Definition createArenaBounds : Bounds :=
  let width := ARENA.width in
  let height := ARENA.height in
  let wallThickness := ARENA.wallThickness in
  {| floor :=
       {| label := "floor"; isStatic := true;
          position := Vector.make (width / 2) (height - wallThickness / 2);
          width := width + wallThickness * 2; height := wallThickness |};
     ceiling :=
       {| label := "ceiling"; isStatic := true;
          position := Vector.make (width / 2) (wallThickness / 2);
          width := width + wallThickness * 2; height := wallThickness |};
     leftWall :=
       {| label := "leftWall"; isStatic := true;
          position := Vector.make (wallThickness / 2) (height / 2);
          width := wallThickness; height := height |};
     rightWall :=
       {| label := "rightWall"; isStatic := true;
          position := Vector.make (width - wallThickness / 2) (height / 2);
          width := wallThickness; height := height |} |}.

(** The bodies [createWorld()] adds to the world, in that order. *)
Definition walls (b : Bounds) : list Wall :=
  [floor b; ceiling b; leftWall b; rightWall b].

(** [wall.bounds.min] and [wall.bounds.max]. *)
Definition bounds_min (w : Wall) : Vector.t :=
  Vector.make (Vector.x (position w) - width w / 2)
              (Vector.y (position w) - height w / 2).

Definition bounds_max (w : Wall) : Vector.t :=
  Vector.make (Vector.x (position w) + width w / 2)
              (Vector.y (position w) + height w / 2).

End World.

(** ** Matter.js: the geometry of bodies and constraints as they are built,
    before any rotation *)

Module Geometry.

(** Half the extent of a shape along each axis.  For a circle this is the
    radius: the box of the disc, which contains the polygon Matter.js
    builds for it. *)
Definition halfExtent (sh : Matter.Shape) : Vector.t :=
  match sh with
  | Matter.Circle r => Vector.make r r
  | Matter.Rectangle w h => Vector.make (w / 2) (h / 2)
  end.

(** [body.bounds.min] and [body.bounds.max]. *)
Definition bounds_min (b : Matter.Body) : Vector.t :=
  Vector.make
    (Vector.x (Matter.position b) - Vector.x (halfExtent (Matter.shape b)))
    (Vector.y (Matter.position b) - Vector.y (halfExtent (Matter.shape b))).

Definition bounds_max (b : Matter.Body) : Vector.t :=
  Vector.make
    (Vector.x (Matter.position b) + Vector.x (halfExtent (Matter.shape b)))
    (Vector.y (Matter.position b) + Vector.y (halfExtent (Matter.shape b))).

(** [Constraint.pointAWorld(constraint)] and [Constraint.pointBWorld]: the
    anchor of a joint on each of its two segments, in world coordinates. *)
Definition pointAWorld (bodies : Ragdoll.Bodies.t) (c : Ragdoll.Constraint)
    : Vector.t :=
  let p := Matter.position (Ragdoll.Bodies.get (Ragdoll.bodyA c) bodies) in
  Vector.make (Vector.x p + Vector.x (Ragdoll.pointA c))
              (Vector.y p + Vector.y (Ragdoll.pointA c)).

Definition pointBWorld (bodies : Ragdoll.Bodies.t) (c : Ragdoll.Constraint)
    : Vector.t :=
  let p := Matter.position (Ragdoll.Bodies.get (Ragdoll.bodyB c) bodies) in
  Vector.make (Vector.x p + Vector.x (Ragdoll.pointB c))
              (Vector.y p + Vector.y (Ragdoll.pointB c)).

End Geometry.

(** ** physics/BalanceAssist.js: the angle helpers *)

Module BalanceAssist.

(** [Math.PI], the binary64 number nearest to pi. *)
Definition Math_PI : Q := 884279719003555 / 281474976710656.

Definition radToDeg (rad : Q) : Q := rad * (180 / Math_PI).

(** How many full turns the first loop of [normalizeAngle] still takes off. *)
Definition turnsAbove (angle : Q) : nat :=
  Z.to_nat (Qfloor (angle / (2 * Math_PI) + 1 / 2)).

(** [while (angle > Math.PI) angle -= 2 * Math.PI;] *)
Equations lower (angle : Q) : Q by wf (turnsAbove angle) lt :=
  lower angle with Qlt_le_dec Math_PI angle => {
    | left _ => lower (angle - 2 * Math_PI)
    | right _ => angle }.
Next Obligation.
  intros angle Hgt _.
  unfold turnsAbove.
  assert (Hpi : 0 < Math_PI) by reflexivity.
  set (q := angle / (2 * Math_PI) + 1 / 2).
  assert (Heq : (angle - 2 * Math_PI) / (2 * Math_PI) + 1 / 2
                == q + inject_Z (-1)).
  { unfold q. field. intros H0. rewrite H0 in Hpi. discriminate. }
  rewrite (Qfloor_comp _ _ Heq).
  assert (H1 : 1 <= q).
  { unfold q.
    assert (Hh : 1 / 2 <= angle / (2 * Math_PI)).
    { apply Qle_shift_div_l; [reflexivity|].
      assert (E : 1 / 2 * (2 * Math_PI) == Math_PI) by field.
      rewrite E. apply Qlt_le_weak. exact Hgt. }
    apply (Qle_trans _ (1 / 2 + 1 / 2)); [discriminate|].
    apply Qplus_le_l. exact Hh. }
  assert (Hpos : (1 <= Qfloor q)%Z).
  { change 1%Z with (Qfloor 1). apply Qfloor_resp_le. exact H1. }
  assert (Hfl : (Qfloor (q + inject_Z (-1)) = Qfloor q - 1)%Z).
  { destruct q as [n d]. unfold Qfloor, Qplus, inject_Z. cbn [Qnum Qden].
    rewrite Pos.mul_1_r, Z.mul_1_r.
    rewrite Z.div_add by discriminate. lia. }
  rewrite Hfl. lia.
Qed.

(** How many full turns the second loop still adds. *)
Definition turnsBelow (angle : Q) : nat :=
  Z.to_nat (Qfloor (- angle / (2 * Math_PI) + 1 / 2)).

(** [while (angle < -Math.PI) angle += 2 * Math.PI;] *)
Equations raise (angle : Q) : Q by wf (turnsBelow angle) lt :=
  raise angle with Qlt_le_dec angle (- Math_PI) => {
    | left _ => raise (angle + 2 * Math_PI)
    | right _ => angle }.
Next Obligation.
  intros angle Hlt _.
  unfold turnsBelow.
  assert (Hpi : 0 < Math_PI) by reflexivity.
  set (q := - angle / (2 * Math_PI) + 1 / 2).
  assert (Heq : - (angle + 2 * Math_PI) / (2 * Math_PI) + 1 / 2
                == q + inject_Z (-1)).
  { unfold q. field. intros H0. rewrite H0 in Hpi. discriminate. }
  rewrite (Qfloor_comp _ _ Heq).
  assert (H1 : 1 <= q).
  { unfold q.
    assert (Hh : 1 / 2 <= - angle / (2 * Math_PI)).
    { apply Qle_shift_div_l; [reflexivity|].
      assert (E : 1 / 2 * (2 * Math_PI) == Math_PI) by field.
      rewrite E. apply Qlt_le_weak. apply Qopp_lt_compat in Hlt.
      rewrite Qopp_involutive in Hlt. exact Hlt. }
    apply (Qle_trans _ (1 / 2 + 1 / 2)); [discriminate|].
    apply Qplus_le_l. exact Hh. }
  assert (Hpos : (1 <= Qfloor q)%Z).
  { change 1%Z with (Qfloor 1). apply Qfloor_resp_le. exact H1. }
  assert (Hfl : (Qfloor (q + inject_Z (-1)) = Qfloor q - 1)%Z).
  { destruct q as [n d]. unfold Qfloor, Qplus, inject_Z. cbn [Qnum Qden].
    rewrite Pos.mul_1_r, Z.mul_1_r.
    rewrite Z.div_add by discriminate. lia. }
  rewrite Hfl. lia.
Qed.

(** [normalizeAngle(angle)] *)
Definition normalizeAngle (angle : Q) : Q := raise (lower angle).

End BalanceAssist.

(** ** index.js: respawning *)

Module Sandbox.

Section Respawn.

Variable circleArea : Q -> Q.

(** [handleRespawn()], the T key. *)
Definition handleRespawn (s : Main.State) : JS.completion Main.State :=
  Main.spawnFighters circleArea s.

(** [init()] spawns once; then the T key is pressed [n] times. *)
Fixpoint respawns (n : nat) (s : Main.State) : JS.completion Main.State :=
  match n with
  | O => Main.spawnFighters circleArea s
  | S n' => let* s1 := respawns n' s in handleRespawn s1
  end.

End Respawn.

End Sandbox.

(** ** More sample values *)

Module Scenario.

(** A clock that advances 16 ms between two readings. *)
Definition clock (n : nat) : Q := Simulator.ofNat n * 16.

(** Two bodies that meet at a relative speed of 5 with a combined mass
    of 5. *)
Definition hit : ImpactTracker.Pair :=
  {| ImpactTracker.bodyA := Sample.moving 3 4 2;
     ImpactTracker.bodyB := Sample.moving 0 0 3 |}.

(** Two bodies that touch at a relative speed of 1. *)
Definition graze : ImpactTracker.Pair :=
  {| ImpactTracker.bodyA := Sample.moving 1 0 1;
     ImpactTracker.bodyB := Sample.moving 0 0 1 |}.

(** The impact display after an event with two hard collisions. *)
Definition tracker : ImpactState.State Sample.Engine :=
  ImpactState.onCollisionStart Sample.Math_sqrt clock [hit; hit]
    (ImpactState.initial Sample.Engine).

End Scenario.

(** * Properties *)

(** ** Comparisons on numbers *)

Lemma gtb_true (a b : Q) : JS.gtb a b = true <-> b < a.
Proof.
  unfold JS.gtb. rewrite negb_true_iff. split.
  - intros H. apply Qnot_le_lt. intros Hle. apply Qle_bool_iff in Hle. congruence.
  - intros H. destruct (Qle_bool a b) eqn:E; [|reflexivity].
    apply Qle_bool_iff in E. lra.
Qed.

Lemma gtb_false (a b : Q) : JS.gtb a b = false <-> a <= b.
Proof. unfold JS.gtb. rewrite negb_false_iff. apply Qle_bool_iff. Qed.

Lemma ltb_true (a b : Q) : JS.ltb a b = true <-> a < b.
Proof. unfold JS.ltb. apply (gtb_true b a). Qed.

Lemma ltb_false (a b : Q) : JS.ltb a b = false <-> b <= a.
Proof. unfold JS.ltb. apply (gtb_false b a). Qed.

Lemma eqb_positive (t : Q) : 0 < t -> JS.eqb t 0 = false.
Proof.
  intros H. unfold JS.eqb. destruct (Qeq_bool t 0) eqn:E; [|reflexivity].
  apply Qeq_bool_eq in E. lra.
Qed.

(** ** The fixed-step scheduler *)

Section SimulatorProperties.

Context {Engine : Type} (upd : Engine -> Q -> Engine).
Import Simulator.

Lemma ticksOf_S (k : nat) (e : Engine) :
  ticksOf upd (S k) e = ticksOf upd k (upd e SIM_CONFIG.fixedDelta).
Proof. unfold ticksOf. induction k; simpl in *; congruence. Qed.

Lemma ticksOf_add (k1 k2 : nat) (e : Engine) :
  ticksOf upd k2 (ticksOf upd k1 e) = ticksOf upd (k1 + k2) e.
Proof.
  revert e. induction k1 as [|k1 IH]; intros e; [reflexivity|].
  rewrite ticksOf_S. change (S k1 + k2)%nat with (S (k1 + k2)).
  rewrite ticksOf_S. apply IH.
Qed.

Lemma ofNat_S (k : nat) : ofNat (S k) == ofNat k + 1.
Proof.
  unfold ofNat. rewrite Nat2Z.inj_succ, <- Z.add_1_r, inject_Z_plus. reflexivity.
Qed.

Lemma ofNat_add (a b : nat) : ofNat (a + b) == ofNat a + ofNat b.
Proof. unfold ofNat. rewrite Nat2Z.inj_add, inject_Z_plus. reflexivity. Qed.

Lemma ofNat_nonneg (k : nat) : 0 <= ofNat k.
Proof.
  unfold ofNat. change 0 with (inject_Z 0). rewrite <- Zle_Qle. lia.
Qed.

Lemma ofNat_lt (a b : nat) : (a < b)%nat -> ofNat a + 1 <= ofNat b.
Proof.
  intros H. unfold ofNat. rewrite <- (inject_Z_plus _ 1), <- Zle_Qle. lia.
Qed.

Lemma fixedDelta_pos : 0 < SIM_CONFIG.fixedDelta.
Proof. reflexivity. Qed.

Lemma engineUpdates_app (a b : list (Event Engine)) :
  engineUpdates (a ++ b) = engineUpdates a ++ engineUpdates b.
Proof. unfold engineUpdates. apply flat_map_app. Qed.

(** The [while] loop returns whenever the engine is not [null]: it runs the
    integrator [k] times, takes [k] ticks off the accumulator and leaves less
    than one tick in it. *)
Lemma physicsSteps_drains (s : State Engine) :
  forall e, engine s = Some e ->
  exists k s', physicsSteps upd s = JS.Normal s' /\
    engine s' = Some (ticksOf upd k e) /\
    tickCount s' = (tickCount s + k)%nat /\
    accumulator s' + ofNat k * SIM_CONFIG.fixedDelta == accumulator s /\
    accumulator s' < SIM_CONFIG.fixedDelta /\
    (0 <= accumulator s -> 0 <= accumulator s') /\
    isRunning s' = isRunning s /\
    isPaused s' = isPaused s /\
    lastTime s' = lastTime s.
Proof.
  apply (physicsSteps_elim Engine upd
    (fun s r => forall e, engine s = Some e ->
       exists k s', r = JS.Normal s' /\
         engine s' = Some (ticksOf upd k e) /\
         tickCount s' = (tickCount s + k)%nat /\
         accumulator s' + ofNat k * SIM_CONFIG.fixedDelta == accumulator s /\
         accumulator s' < SIM_CONFIG.fixedDelta /\
         (0 <= accumulator s -> 0 <= accumulator s') /\
         isRunning s' = isRunning s /\
         isPaused s' = isPaused s /\
         lastTime s' = lastTime s)).
  - intros s0 Hlt _ e He. exists 0%nat, s0. split; [reflexivity|].
    cbn [ticksOf Nat.iter]. rewrite Nat.add_0_r.
    repeat split; try assumption; try reflexivity; try tauto.
    change (ofNat 0) with 0. lra.
  - intros s0 e0 Hge IH He0 _ e He.
    rewrite He0 in He. injection He as <-.
    destruct (IH (upd e0 SIM_CONFIG.fixedDelta) eq_refl)
      as (k & s' & Hr & Hen & Htk & Hacc & Hlt & Hnn & Hrun & Hp & Hlast).
    exists (S k), s'. split; [exact Hr|].
    rewrite ticksOf_S.
    cbn [tick incrTickCount setAccumulator engineUpdate accumulator tickCount
         isRunning isPaused lastTime] in *.
    repeat split; try assumption.
    + lia.
    + rewrite ofNat_S. lra.
    + intros H0. apply Hnn. lra.
  - intros s0 Hge He0 _ e He. congruence.
Qed.

Lemma capped_proper (a b : Q) : a == b -> capped a == capped b.
Proof.
  intros H. unfold capped, JS.gtb.
  destruct (Qle_bool a _) eqn:Ha; destruct (Qle_bool b _) eqn:Hb; cbn;
    try assumption; try reflexivity.
  - apply Qle_bool_iff in Ha. rewrite H in Ha. apply Qle_bool_iff in Ha. congruence.
  - apply Qle_bool_iff in Hb. rewrite <- H in Hb. apply Qle_bool_iff in Hb. congruence.
Qed.

Lemma capped_nonneg (d : Q) : 0 <= d -> 0 <= capped d.
Proof.
  intros H. unfold capped. destruct (JS.gtb d _); [|assumption]. discriminate.
Qed.

(** Time beyond five ticks in one frame is dropped. *)
Lemma capped_le (d : Q) :
  capped d <= SIM_CONFIG.fixedDelta * SIM_CONFIG.maxSubSteps /\
  (d <= SIM_CONFIG.fixedDelta * SIM_CONFIG.maxSubSteps -> capped d = d).
Proof.
  unfold capped. destruct (JS.gtb d _) eqn:E.
  - split; [apply Qle_refl|]. intros H. apply gtb_true in E. lra.
  - split; [|reflexivity]. apply gtb_false in E. exact E.
Qed.

(** One frame of a running, unpaused simulation. *)
Lemma loop_running (s : State Engine) (e : Engine) (t : Q) :
  isRunning s = true -> isPaused s = false -> engine s = Some e ->
  0 <= accumulator s ->
  let last := if JS.eqb (lastTime s) 0 then t else lastTime s in
  last <= t ->
  exists k s', loop upd t s = JS.Normal s' /\
    engine s' = Some (ticksOf upd k e) /\
    tickCount s' = (tickCount s + k)%nat /\
    accumulator s' + ofNat k * SIM_CONFIG.fixedDelta
      == accumulator s + capped (t - last) /\
    0 <= accumulator s' /\ accumulator s' < SIM_CONFIG.fixedDelta /\
    isRunning s' = true /\ isPaused s' = false /\ lastTime s' = t.
Proof.
  intros Hrun Hp He Hacc last Hle.
  unfold loop. rewrite Hrun. cbn [negb].
  unfold frameDelta. cbn [isPaused]. rewrite Hp. cbn [negb].
  fold last. fold (capped (t - last)).
  match goal with |- context [physicsSteps upd ?s1] => set (s1' := s1) end.
  destruct (physicsSteps_drains s1' e He)
    as (k & s' & Hr & Hen & Htk & Hac & Hlt & Hnn & Hrun' & Hp' & Hlast).
  rewrite Hr. cbn [JS.bind].
  exists k. eexists. split; [reflexivity|].
  assert (Hcap : 0 <= capped (t - last)) by (apply capped_nonneg; lra).
  unfold render.
  cbn [s1' setAccumulator accumulator isRunning isPaused lastTime tickCount] in *.
  destruct (onRender s');
    cbn [emit engine tickCount accumulator isRunning isPaused lastTime];
    repeat split; try assumption; try congruence; try (apply Hnn; lra).
Qed.

(** The frames that follow the time stamp [lastTime s], [ds] apart. *)
Lemma runFrames_elapsed (ds : list Q) :
  forall (s : State Engine) (e : Engine),
  isRunning s = true -> isPaused s = false -> engine s = Some e ->
  0 < lastTime s ->
  0 <= accumulator s -> accumulator s < SIM_CONFIG.fixedDelta ->
  Forall (Qle 0) ds ->
  exists k s', runFrames upd (timestamps (lastTime s) ds) s = JS.Normal s' /\
    engine s' = Some (ticksOf upd k e) /\
    tickCount s' = (tickCount s + k)%nat /\
    accumulator s' + ofNat k * SIM_CONFIG.fixedDelta
      == accumulator s + elapsed ds /\
    0 <= accumulator s' /\ accumulator s' < SIM_CONFIG.fixedDelta.
Proof.
  induction ds as [|d ds IH]; intros s e Hrun Hp He Hlast Hacc Hlt Hds.
  - exists 0%nat, s. cbn [timestamps runFrames elapsed fold_right ticksOf Nat.iter].
    change (ofNat 0) with 0. rewrite Nat.add_0_r.
    repeat split; try assumption; try reflexivity. lra.
  - inversion Hds as [|d' ds' Hd Hds']; subst.
    cbn [timestamps runFrames].
    pose proof (loop_running s e (lastTime s + d) Hrun Hp He Hacc) as Hloop.
    cbn zeta in Hloop. rewrite (eqb_positive _ Hlast) in Hloop.
    destruct Hloop
      as (k1 & s1 & Hr1 & He1 & Ht1 & Ha1 & Hn1 & Hl1 & Hrun1 & Hp1 & Hlast1);
      [lra|].
    rewrite Hr1. cbn [JS.bind]. rewrite <- Hlast1.
    destruct (IH s1 (ticksOf upd k1 e) Hrun1 Hp1 He1)
      as (k2 & s2 & Hr2 & He2 & Ht2 & Ha2 & Hn2 & Hl2);
      try assumption.
    { rewrite Hlast1. lra. }
    exists (k1 + k2)%nat, s2. split; [exact Hr2|].
    rewrite ticksOf_add in He2.
    assert (Hc : capped (lastTime s + d - lastTime s) == capped d)
      by (apply capped_proper; ring).
    cbn [elapsed fold_right]. fold (elapsed ds).
    rewrite ofNat_add.
    repeat split; try assumption; [lia|].
    rewrite Hc in Ha1. lra.
Qed.

Lemma start_stopped (s : State Engine) :
  isRunning s = false ->
  isRunning (start s) = true /\ isPaused (start s) = false /\
  engine (start s) = engine s /\ accumulator (start s) = 0 /\
  lastTime (start s) = 0 /\ tickCount (start s) = tickCount s.
Proof. intros H. unfold start. rewrite H. cbn. repeat split. Qed.

(** From [start()]: the first frame only records its time stamp. *)
Lemma runFrames_start (s : State Engine) (e : Engine) (t0 : Q) (ds : list Q) :
  isRunning s = false -> engine s = Some e -> 0 < t0 -> Forall (Qle 0) ds ->
  exists k s', runFrames upd (t0 :: timestamps t0 ds) (start s) = JS.Normal s' /\
    engine s' = Some (ticksOf upd k e) /\
    tickCount s' = (tickCount s + k)%nat /\
    accumulator s' + ofNat k * SIM_CONFIG.fixedDelta == elapsed ds /\
    0 <= accumulator s' /\ accumulator s' < SIM_CONFIG.fixedDelta.
Proof.
  intros Hrun He Ht0 Hds.
  destruct (start_stopped s Hrun) as (Sr & Sp & Se & Sa & Sl & St).
  cbn [runFrames].
  pose proof (loop_running (start s) e t0 Sr Sp) as Hloop.
  rewrite Se, Sa, Sl in Hloop.
  cbn zeta in Hloop. change (JS.eqb 0 0) with true in Hloop. cbn iota in Hloop.
  destruct (Hloop He)
    as (k1 & s1 & Hr1 & He1 & Ht1 & Ha1 & Hn1 & Hl1 & Hrun1 & Hp1 & Hlast1);
    [lra|lra|].
  rewrite Hr1. cbn [JS.bind]. rewrite <- Hlast1.
  assert (Hc0 : capped (t0 - t0) == 0).
  { rewrite (capped_proper (t0 - t0) 0) by ring. reflexivity. }
  assert (Hk1 : k1 = 0%nat).
  { destruct k1 as [|k1]; [reflexivity|exfalso].
    rewrite ofNat_S in Ha1. rewrite Hc0 in Ha1.
    pose proof (ofNat_nonneg k1). pose proof fixedDelta_pos. nra. }
  subst k1. change (ofNat 0) with 0 in Ha1. cbn [ticksOf Nat.iter] in He1.
  destruct (runFrames_elapsed ds s1 e Hrun1 Hp1 He1)
    as (k2 & s2 & Hr2 & He2 & Ht2 & Ha2 & Hn2 & Hl2);
    try assumption.
  { rewrite Hlast1. exact Ht0. }
  exists k2, s2. split; [exact Hr2|].
  repeat split; try assumption; [lia|].
  rewrite Hc0 in Ha1. lra.
Qed.

(** A remainder below one tick fixes the number of ticks. *)
Lemma ticks_unique (a1 a2 : Q) (k1 k2 : nat) :
  0 <= a1 -> a1 < SIM_CONFIG.fixedDelta ->
  0 <= a2 -> a2 < SIM_CONFIG.fixedDelta ->
  a1 + ofNat k1 * SIM_CONFIG.fixedDelta == a2 + ofNat k2 * SIM_CONFIG.fixedDelta ->
  k1 = k2.
Proof.
  intros H1 H1' H2 H2' Heq.
  pose proof fixedDelta_pos as Hfd.
  destruct (Nat.lt_trichotomy k1 k2) as [Hlt|[Heq'|Hgt]];
    [exfalso| exact Heq' |exfalso].
  - pose proof (ofNat_lt _ _ Hlt). nra.
  - pose proof (ofNat_lt _ _ Hgt). nra.
Qed.

Lemma ticks_floor (a total : Q) (k : nat) :
  0 <= a -> a < SIM_CONFIG.fixedDelta ->
  a + ofNat k * SIM_CONFIG.fixedDelta == total ->
  k = Z.to_nat (Qfloor (total / SIM_CONFIG.fixedDelta)).
Proof.
  intros H0 H1 Heq.
  pose proof fixedDelta_pos as Hfd.
  set (q := total / SIM_CONFIG.fixedDelta).
  assert (Hq : q * SIM_CONFIG.fixedDelta == total).
  { unfold q. field. lra. }
  assert (Hle : ofNat k <= q) by nra.
  assert (Hlt : q < ofNat k + 1) by nra.
  assert (Hfl : Qfloor q = Z.of_nat k).
  { pose proof (Qfloor_le q) as F1. pose proof (Qlt_floor q) as F2.
    assert (A : (Z.of_nat k <= Qfloor q)%Z).
    { rewrite <- (Qfloor_Z (Z.of_nat k)). apply Qfloor_resp_le. exact Hle. }
    assert (B : (Qfloor q < Z.of_nat k + 1)%Z).
    { rewrite Zlt_Qlt. rewrite inject_Z_plus. fold (ofNat k).
      change (inject_Z 1) with 1. lra. }
    lia. }
  rewrite Hfl. lia.
Qed.


End SimulatorProperties.

(** The cap at work: 200 ms arriving as one frame count for five ticks,
    the same 200 ms arriving as four frames for twelve. *)
Example stall_loses_time :
  (exists s1,
     Simulator.runFrames Sample.Engine_update
       (1000 :: Simulator.timestamps 1000 [200]%Q)
       (Simulator.start Sample.initialised) = JS.Normal s1 /\
     Simulator.tickCount s1 = 5%nat) /\
  (exists s2,
     Simulator.runFrames Sample.Engine_update
       (1000 :: Simulator.timestamps 1000 [50; 50; 50; 50]%Q)
       (Simulator.start Sample.initialised) = JS.Normal s2 /\
     Simulator.tickCount s2 = 12%nat).
Proof. split; eexists; (split; [vm_compute; reflexivity | reflexivity]). Qed.

Section StepProperties.

Context {Engine : Type} (upd : Engine -> Q -> Engine).
Import Simulator.

(** C6. On a non-null engine [step] calls the integrator exactly once, with
    the fixed tick size, adds one to the tick counter and leaves the
    accumulator as it was, whatever it holds. *)
Theorem step_single_tick (s : State Engine) (e : Engine) :
  engine s = Some e ->
  engine (step upd s) = Some (upd e SIM_CONFIG.fixedDelta) /\
  engineUpdates (trace (step upd s))
  = engineUpdates (trace s) ++ [SIM_CONFIG.fixedDelta] /\
  tickCount (step upd s) = S (tickCount s) /\
  accumulator (step upd s) = accumulator s.
Proof.
  intros He. unfold step. rewrite He. cbn zeta.
  set (s1 := if negb (isPaused s) then pause s else s).
  assert (Hs1 : trace s1 = trace s /\ tickCount s1 = tickCount s
                /\ accumulator s1 = accumulator s).
  { unfold s1, pause. destruct (isPaused s), (isRunning s); cbn; auto. }
  destruct Hs1 as (Htr & Htk & Hac).
  unfold render. cbn [incrTickCount engineUpdate onRender].
  destruct (onRender s1);
    cbn [emit incrTickCount engineUpdate engine trace tickCount accumulator];
    rewrite ?engineUpdates_app, Htr, Htk, Hac;
    change (engineUpdates [EngineUpdate (Engine:=Engine) SIM_CONFIG.fixedDelta])
      with [SIM_CONFIG.fixedDelta];
    try match goal with
        | |- context [engineUpdates [Render ?a ?b]] =>
            change (engineUpdates [Render a b]) with (@nil Q)
        end;
    rewrite ?app_nil_r; auto.
Qed.

(** C10, as the code has it.  On a non-null engine [step] keeps [isRunning];
    when the simulation is running it is paused afterwards; when it is
    stopped [pause()] does nothing and [isPaused] stays as it was.  In no
    case is the simulation left running and unpaused. *)
Theorem step_pauses_when_running (s : State Engine) (e : Engine) :
  engine s = Some e ->
  isRunning (step upd s) = isRunning s /\
  (isRunning s = true -> isPaused (step upd s) = true) /\
  (isRunning s = false -> isPaused (step upd s) = isPaused s) /\
  isRunning (step upd s) && negb (isPaused (step upd s)) = false.
Proof.
  intros He. unfold step. rewrite He. unfold render, pause.
  destruct (isPaused s) eqn:P, (isRunning s) eqn:R, (onRender s) eqn:O;
    cbn; rewrite ?P, ?R, ?O; cbn; rewrite ?P, ?R, ?O; repeat split; congruence.
Qed.

End StepProperties.


Lemma step_single_tick_witness :
  Simulator.engine (Simulator.step Sample.Engine_update Sample.initialised)
  = Some (Sample.Engine_update 0%nat Simulator.SIM_CONFIG.fixedDelta) /\
  Simulator.engineUpdates
    (Simulator.trace (Simulator.step Sample.Engine_update Sample.initialised))
  = Simulator.engineUpdates (Simulator.trace Sample.initialised)
    ++ [Simulator.SIM_CONFIG.fixedDelta] /\
  Simulator.tickCount (Simulator.step Sample.Engine_update Sample.initialised)
  = S (Simulator.tickCount Sample.initialised) /\
  Simulator.accumulator (Simulator.step Sample.Engine_update Sample.initialised)
  = Simulator.accumulator Sample.initialised.
Proof.
  apply (step_single_tick Sample.Engine_update Sample.initialised 0%nat).
  reflexivity.
Defined.

(** C10 as stated fails in the stopped state: after [init], with a non-null
    engine and before [start()], [step] runs its tick and the simulator is
    not paused afterwards. *)
Lemma step_on_stopped_not_paused :
  Simulator.engine Sample.initialised = Some 0%nat /\
  Simulator.isRunning Sample.initialised = false /\
  Simulator.isPaused (Simulator.step Sample.Engine_update Sample.initialised)
  = false /\
  Simulator.tickCount (Simulator.step Sample.Engine_update Sample.initialised)
  = 1%nat.
Proof. repeat split. Qed.

Lemma step_pauses_when_running_witness :
  let s := Simulator.start Sample.initialised in
  Simulator.isRunning (Simulator.step Sample.Engine_update s)
  = Simulator.isRunning s /\
  (Simulator.isRunning s = true ->
   Simulator.isPaused (Simulator.step Sample.Engine_update s) = true) /\
  (Simulator.isRunning s = false ->
   Simulator.isPaused (Simulator.step Sample.Engine_update s)
   = Simulator.isPaused s) /\
  Simulator.isRunning (Simulator.step Sample.Engine_update s)
  && negb (Simulator.isPaused (Simulator.step Sample.Engine_update s)) = false.
Proof.
  apply (step_pauses_when_running Sample.Engine_update
           (Simulator.start Sample.initialised) 0%nat).
  reflexivity.
Defined.

(** ** The AI decision engine *)

Lemma deref_Some (h : list Fighter.t) (f : option nat) (a : nat) (fo : Fighter.t) :
  Fighter.deref h f = Some (a, fo) -> f = Some a /\ h !! a = Some fo.
Proof.
  unfold Fighter.deref. destruct f as [a'|]; [|discriminate].
  destruct (h !! a') eqn:E; [|discriminate]. intros [= <- <-]. auto.
Qed.

Lemma pelvisOf_Some (h : list Fighter.t) (f : option nat) (p : Matter.Body) :
  Fighter.pelvisOf h f = Some p ->
  exists a fo r,
    Fighter.deref h f = Some (a, fo) /\ Fighter.ragdoll fo = Some r /\
    Ragdoll.Bodies.pelvis (Ragdoll.bodies r) = p.
Proof.
  unfold Fighter.pelvisOf, Fighter.ragdollOf.
  destruct (Fighter.deref h f) as [[a fo]|]; [|discriminate].
  destruct (Fighter.ragdoll fo) as [r|] eqn:E; [|discriminate].
  intros [= <-]. exists a, fo, r. auto.
Qed.

Lemma pelvisOf_ragdollOf (h : list Fighter.t) (f : option nat) (p : Matter.Body) :
  Fighter.pelvisOf h f = Some p ->
  exists r, Fighter.ragdollOf h f = Some r /\
            Ragdoll.Bodies.pelvis (Ragdoll.bodies r) = p.
Proof.
  unfold Fighter.pelvisOf.
  destruct (Fighter.ragdollOf h f) as [r|]; [|discriminate].
  intros [= <-]. exists r. auto.
Qed.

(** The two-threshold update, for any pair of thresholds. *)
Lemma nextState_cases (cfg : AIBrain.Config) (d : Q) (st : AIBrain.AIState) :
  (AIBrain.approachDistance cfg < d ->
   AIBrain.nextState cfg d st = AIBrain.APPROACH) /\
  (d < AIBrain.idleDistance cfg -> d <= AIBrain.approachDistance cfg ->
   AIBrain.nextState cfg d st = AIBrain.IDLE) /\
  (AIBrain.idleDistance cfg <= d -> d <= AIBrain.approachDistance cfg ->
   AIBrain.nextState cfg d st = st).
Proof.
  unfold AIBrain.nextState. repeat split.
  - intros H. apply gtb_true in H. rewrite H. reflexivity.
  - intros H1 H2. apply gtb_false in H2. apply ltb_true in H1.
    rewrite H2, H1. reflexivity.
  - intros H1 H2. apply gtb_false in H2. apply ltb_false in H1.
    rewrite H2, H1. reflexivity.
Qed.

Lemma nextStateV1_cases (cfg : AIBrainV1.Config) (d : Q) (st : AIBrain.AIState) :
  (AIBrainV1.approachDistance cfg < d ->
   AIBrainV1.nextState cfg d st = AIBrain.APPROACH) /\
  (d < AIBrainV1.idleDistance cfg -> d <= AIBrainV1.approachDistance cfg ->
   AIBrainV1.nextState cfg d st = AIBrain.IDLE) /\
  (AIBrainV1.idleDistance cfg <= d -> d <= AIBrainV1.approachDistance cfg ->
   AIBrainV1.nextState cfg d st = st).
Proof.
  unfold AIBrainV1.nextState. repeat split.
  - intros H. apply gtb_true in H. rewrite H. reflexivity.
  - intros H1 H2. apply gtb_false in H2. apply ltb_true in H1.
    rewrite H2, H1. reflexivity.
  - intros H1 H2. apply gtb_false in H2. apply ltb_false in H1.
    rewrite H2, H1. reflexivity.
Qed.

(** What an evaluation of an enabled controller writes to the controller. *)
Lemma processAITick_enabled (sq : Q -> Q) (cfg : AIBrain.Config)
    (ai : AIBrain.AI) (index : nat) (h : list Fighter.t)
    (dbg : AIBrain.DebugState) (p tp : Matter.Body) :
  AIBrain.enabled ai = true ->
  Fighter.pelvisOf h (AIBrain.fighter ai) = Some p ->
  Fighter.pelvisOf h (AIBrain.target ai) = Some tp ->
  let d := AIBrain.pelvisDistance sq p tp in
  let ai' := (AIBrain.processAITick sq cfg ai index h dbg).1.1 in
  AIBrain.lastDistance ai' = d /\
  AIBrain.state ai' = AIBrain.nextState cfg d (AIBrain.state ai).
Proof.
  intros He Hp Ht. cbn zeta.
  apply pelvisOf_Some in Hp. destruct Hp as (a & fo & r & Hd & Hr & <-).
  apply pelvisOf_ragdollOf in Ht. destruct Ht as (rt & Ht & <-).
  unfold AIBrain.processAITick. rewrite Hd, Ht, Hr, He. cbn [negb].
  fold (AIBrain.pelvisDistance sq (Ragdoll.Bodies.pelvis (Ragdoll.bodies r))
          (Ragdoll.Bodies.pelvis (Ragdoll.bodies rt))).
  set (d := AIBrain.pelvisDistance _ _ _).
  cbn [AIBrain.setLastDistance AIBrain.setState AIBrain.state].
  destruct (AIBrain.nextState cfg d (AIBrain.state ai)) eqn:E; cbn; auto.
Qed.

Lemma processAITickV1_enabled (sq : Q -> Q) (cfg : AIBrainV1.Config)
    (ai : AIBrain.AI) (h : list Fighter.t) (p tp : Matter.Body) :
  AIBrain.enabled ai = true ->
  Fighter.pelvisOf h (AIBrain.fighter ai) = Some p ->
  Fighter.pelvisOf h (AIBrain.target ai) = Some tp ->
  let d := AIBrain.pelvisDistance sq p tp in
  let ai' := (AIBrainV1.processAITick sq cfg ai h).1 in
  AIBrain.lastDistance ai' = d /\
  AIBrain.state ai' = AIBrainV1.nextState cfg d (AIBrain.state ai).
Proof.
  intros He Hp Ht. cbn zeta.
  apply pelvisOf_Some in Hp. destruct Hp as (a & fo & r & Hd & Hr & <-).
  apply pelvisOf_ragdollOf in Ht. destruct Ht as (rt & Ht & <-).
  unfold AIBrainV1.processAITick. rewrite Hd, Ht, Hr, He. cbn [negb].
  fold (AIBrain.pelvisDistance sq (Ragdoll.Bodies.pelvis (Ragdoll.bodies r))
          (Ragdoll.Bodies.pelvis (Ragdoll.bodies rt))).
  set (d := AIBrain.pelvisDistance _ _ _).
  cbn [AIBrain.setLastDistance AIBrain.setState AIBrain.state].
  destruct (AIBrainV1.nextState cfg d (AIBrain.state ai)) eqn:E; cbn; auto.
Qed.

(** C2. An enabled controller whose fighter and target both have a pelvis
    measures the pelvis-to-pelvis distance and records it.  Beyond
    [approachDistance] (150) the state becomes APPROACH; below [idleDistance]
    (80) it becomes IDLE; from 80 to 150, bounds included, it stays what it
    was, so a fighter in APPROACH stays in APPROACH as long as the distance
    is at least 80.  Both revisions of AIBrain.js behave so. *)
Theorem ai_hysteresis (Math_sqrt : Q -> Q) (h : list Fighter.t)
    (ai : AIBrain.AI) (index : nat) (dbg : AIBrain.DebugState)
    (pelvis targetPelvis : Matter.Body) :
  AIBrain.enabled ai = true ->
  Fighter.pelvisOf h (AIBrain.fighter ai) = Some pelvis ->
  Fighter.pelvisOf h (AIBrain.target ai) = Some targetPelvis ->
  let distance := AIBrain.pelvisDistance Math_sqrt pelvis targetPelvis in
  let hysteresis (after : AIBrain.AI) :=
    AIBrain.lastDistance after = distance /\
    (150 < distance -> AIBrain.state after = AIBrain.APPROACH) /\
    (distance < 80 -> AIBrain.state after = AIBrain.IDLE) /\
    (80 <= distance -> distance <= 150 ->
     AIBrain.state after = AIBrain.state ai) /\
    (AIBrain.state ai = AIBrain.APPROACH -> 80 <= distance ->
     AIBrain.state after = AIBrain.APPROACH) in
  hysteresis
    (AIBrain.processAITick Math_sqrt AIBrain.AI_CONFIG ai index h dbg).1.1 /\
  hysteresis
    (AIBrainV1.processAITick Math_sqrt AIBrainV1.AI_CONFIG ai h).1.
Proof.
  intros He Hp Ht distance hysteresis.
  destruct (processAITick_enabled Math_sqrt AIBrain.AI_CONFIG ai index h dbg
              pelvis targetPelvis He Hp Ht) as [Hd Hs].
  destruct (processAITickV1_enabled Math_sqrt AIBrainV1.AI_CONFIG ai h
              pelvis targetPelvis He Hp Ht) as [Hd1 Hs1].
  fold distance in Hd, Hs, Hd1, Hs1.
  destruct (nextState_cases AIBrain.AI_CONFIG distance (AIBrain.state ai))
    as (Ha & Hi & Hk).
  destruct (nextStateV1_cases AIBrainV1.AI_CONFIG distance (AIBrain.state ai))
    as (Ha1 & Hi1 & Hk1).
  cbn [AIBrain.approachDistance AIBrain.idleDistance AIBrain.AI_CONFIG
       AIBrainV1.approachDistance AIBrainV1.idleDistance AIBrainV1.AI_CONFIG]
    in Ha, Hi, Hk, Ha1, Hi1, Hk1.
  split; unfold hysteresis.
  - rewrite Hs. repeat split.
    + exact Hd.
    + exact Ha.
    + intros H. apply Hi; lra.
    + exact Hk.
    + intros Hst H80. destruct (Qlt_le_dec 150 distance) as [Hgt|Hle].
      * apply Ha. exact Hgt.
      * rewrite Hk by assumption. exact Hst.
  - rewrite Hs1. repeat split.
    + exact Hd1.
    + exact Ha1.
    + intros H. apply Hi1; lra.
    + exact Hk1.
    + intros Hst H80. destruct (Qlt_le_dec 150 distance) as [Hgt|Hle].
      * apply Ha1. exact Hgt.
      * rewrite Hk1 by assumption. exact Hst.
Qed.

Lemma ai_hysteresis_witness :
  let h := Fighter.heap (Main.store Sample.spawned) in
  let ai := Sample.controller AIBrain.IDLE true in
  exists pelvis targetPelvis,
    Fighter.pelvisOf h (AIBrain.fighter ai) = Some pelvis /\
    Fighter.pelvisOf h (AIBrain.target ai) = Some targetPelvis /\
    150 < AIBrain.pelvisDistance Sample.Math_sqrt pelvis targetPelvis /\
    AIBrain.state
      (AIBrain.processAITick Sample.Math_sqrt AIBrain.AI_CONFIG ai 0 h
         Sample.noDebug).1.1 = AIBrain.APPROACH /\
    AIBrain.state
      (AIBrainV1.processAITick Sample.Math_sqrt AIBrainV1.AI_CONFIG ai h).1
    = AIBrain.APPROACH.
Proof.
  intros h ai.
  eexists. eexists.
  split; [reflexivity|]. split; [reflexivity|].
  split; [reflexivity|].
  edestruct (ai_hysteresis Sample.Math_sqrt h ai 0 Sample.noDebug)
    as [(_ & Ha & _) (_ & Ha1 & _)];
    [reflexivity | reflexivity | reflexivity | ].
  split; [apply Ha | apply Ha1]; reflexivity.
Defined.

Lemma clampHorizontalVelocity_y (b : Matter.Body) (m : Q) :
  Vector.y (Matter.velocity (AIBrain.clampHorizontalVelocity b m))
  = Vector.y (Matter.velocity b).
Proof.
  unfold AIBrain.clampHorizontalVelocity. destruct (JS.gtb _ _); reflexivity.
Qed.

Lemma writeBack_lookup (h : list Fighter.t) (a : nat) (fo : Fighter.t)
    (r : Ragdoll.t) (p t : Matter.Body) :
  h !! a = Some fo ->
  Fighter.ragdollOf (AIBrain.writeBack h a fo r p t) (Some a)
  = Some (Ragdoll.setBodies
            (Ragdoll.Bodies.setTorso t
               (Ragdoll.Bodies.setPelvis p (Ragdoll.bodies r))) r).
Proof.
  intros H. unfold Fighter.ragdollOf, Fighter.deref, AIBrain.writeBack.
  rewrite list_lookup_insert_eq by (eapply lookup_lt_Some; eassumption).
  reflexivity.
Qed.

Lemma writeBack_other (h : list Fighter.t) (a : nat) (fo : Fighter.t)
    (r : Ragdoll.t) (p t : Matter.Body) (a' : nat) :
  a' <> a ->
  Fighter.ragdollOf (AIBrain.writeBack h a fo r p t) (Some a')
  = Fighter.ragdollOf h (Some a').
Proof.
  intros H. unfold Fighter.ragdollOf, Fighter.deref, AIBrain.writeBack.
  rewrite list_lookup_insert_ne by congruence. reflexivity.
Qed.

Lemma ragdollOf_Some (h : list Fighter.t) (a : nat) (r : Ragdoll.t) :
  Fighter.ragdollOf h (Some a) = Some r ->
  exists fo, Fighter.deref h (Some a) = Some (a, fo) /\ h !! a = Some fo /\
             Fighter.ragdoll fo = Some r.
Proof.
  unfold Fighter.ragdollOf, Fighter.deref.
  destruct (h !! a) as [fo|]; [|discriminate].
  intros H. exists fo. auto.
Qed.



(** The earlier revision differs on both counts.  A disabled controller
    returns before any damping. *)
Lemma processAITickV1_disabled (sq : Q -> Q) (cfg : AIBrainV1.Config)
    (ai : AIBrain.AI) (h : list Fighter.t) :
  AIBrain.enabled ai = false ->
  AIBrainV1.processAITick sq cfg ai h = (ai, h).
Proof. intros He. unfold AIBrainV1.processAITick. rewrite He. reflexivity. Qed.

(** In IDLE it applies the same horizontal damping (factor 0.85), then a
    clamp of the speed. *)
Lemma processAITickV1_idle (sq : Q -> Q) (h : list Fighter.t) (ai : AIBrain.AI)
    (a : nat) (r rt : Ragdoll.t) :
  AIBrain.enabled ai = true ->
  AIBrain.fighter ai = Some a ->
  Fighter.ragdollOf h (Some a) = Some r ->
  Fighter.ragdollOf h (AIBrain.target ai) = Some rt ->
  let out := AIBrainV1.processAITick sq AIBrainV1.AI_CONFIG ai h in
  AIBrain.state out.1 = AIBrain.IDLE ->
  let settle (b : Matter.Body) :=
    AIBrainV1.clampVelocity sq (AIBrain.dampHorizontalVelocity b (85 / 100)) 5 in
  exists r',
    Fighter.ragdollOf out.2 (Some a) = Some r' /\
    Ragdoll.Bodies.pelvis (Ragdoll.bodies r')
    = settle (Ragdoll.Bodies.pelvis (Ragdoll.bodies r)) /\
    Ragdoll.Bodies.torso (Ragdoll.bodies r')
    = settle (Ragdoll.Bodies.torso (Ragdoll.bodies r)).
Proof.
  intros He Hf Hr Ht out Hidle settle.
  apply ragdollOf_Some in Hr. destruct Hr as (fo & Hd & Hl & Hr).
  unfold out, AIBrainV1.processAITick in *.
  rewrite He, Hf, Hd, Ht, Hr in *. cbn [negb] in *.
  match type of Hidle with context [AIBrainV1.nextState ?c ?d ?s] =>
    destruct (AIBrainV1.nextState c d s) eqn:E end;
    cbn [AIBrain.setState AIBrain.state fst snd] in *; [|discriminate].
  rewrite writeBack_lookup by assumption.
  eexists. split; [reflexivity|]. split; reflexivity.
Qed.

(** That clamp scales both components: a body falling at 10 leaves
    [clampVelocity] falling at 5. *)
Example clampVelocity_scales_vertical :
  Vector.y (Matter.velocity
              (AIBrainV1.clampVelocity Sample.Math_sqrt (Sample.moving 0 10 1) 5))
  == 5.
Proof. reflexivity. Qed.

(** ** The ragdoll builder and the collision groups *)

(** The names of the fifteen segments, in the order of the [bodies] object. *)
Lemma createRagdoll_segments (circleArea : Q -> Q) (x y : Q)
    (options : Ragdoll.Options.t) :
  exists r,
    Ragdoll.createRagdoll circleArea x y options = JS.Normal r /\
    Ragdoll.config r = Ragdoll.merge Ragdoll.RAGDOLL_CONFIG options /\
    map Matter.label (Ragdoll.Bodies.values (Ragdoll.bodies r))
    = [ "head"; "torso"; "pelvis";
        "leftUpperArm"; "leftLowerArm"; "leftHand";
        "rightUpperArm"; "rightLowerArm"; "rightHand";
        "leftUpperLeg"; "leftLowerLeg"; "leftFoot";
        "rightUpperLeg"; "rightLowerLeg"; "rightFoot" ]%string /\
    Forall (fun b =>
              Matter.collisionFilter b
              = {| Matter.category := 1; Matter.mask := 4294967295;
                   Matter.group := Ragdoll.Config.collisionGroup (Ragdoll.config r) |}
              /\ Matter.density b
                 = Ragdoll.density (Ragdoll.Config.physics (Ragdoll.config r))
              /\ Matter.isStatic b = false)
           (Ragdoll.Bodies.values (Ragdoll.bodies r)).
Proof.
  eexists. split; [reflexivity|].
  split; [reflexivity|]. split; [reflexivity|].
  cbn [Ragdoll.Bodies.values Ragdoll.bodies Ragdoll.Bodies.head
       Ragdoll.Bodies.torso Ragdoll.Bodies.pelvis
       Ragdoll.Bodies.leftUpperArm Ragdoll.Bodies.leftLowerArm
       Ragdoll.Bodies.leftHand Ragdoll.Bodies.rightUpperArm
       Ragdoll.Bodies.rightLowerArm Ragdoll.Bodies.rightHand
       Ragdoll.Bodies.leftUpperLeg Ragdoll.Bodies.leftLowerLeg
       Ragdoll.Bodies.leftFoot Ragdoll.Bodies.rightUpperLeg
       Ragdoll.Bodies.rightLowerLeg Ragdoll.Bodies.rightFoot].
  repeat constructor.
Qed.

(** The fourteen joints, by the segments they connect. *)
Lemma createRagdoll_joints (circleArea : Q -> Q) (x y : Q)
    (options : Ragdoll.Options.t) :
  exists r,
    Ragdoll.createRagdoll circleArea x y options = JS.Normal r /\
    map (fun c => (Ragdoll.bodyA c, Ragdoll.bodyB c)) (Ragdoll.constraints r)
    = [ (Ragdoll.Handle.head, Ragdoll.Handle.torso);
        (Ragdoll.Handle.torso, Ragdoll.Handle.pelvis);
        (Ragdoll.Handle.torso, Ragdoll.Handle.leftUpperArm);
        (Ragdoll.Handle.leftUpperArm, Ragdoll.Handle.leftLowerArm);
        (Ragdoll.Handle.leftLowerArm, Ragdoll.Handle.leftHand);
        (Ragdoll.Handle.torso, Ragdoll.Handle.rightUpperArm);
        (Ragdoll.Handle.rightUpperArm, Ragdoll.Handle.rightLowerArm);
        (Ragdoll.Handle.rightLowerArm, Ragdoll.Handle.rightHand);
        (Ragdoll.Handle.pelvis, Ragdoll.Handle.leftUpperLeg);
        (Ragdoll.Handle.leftUpperLeg, Ragdoll.Handle.leftLowerLeg);
        (Ragdoll.Handle.leftLowerLeg, Ragdoll.Handle.leftFoot);
        (Ragdoll.Handle.pelvis, Ragdoll.Handle.rightUpperLeg);
        (Ragdoll.Handle.rightUpperLeg, Ragdoll.Handle.rightLowerLeg);
        (Ragdoll.Handle.rightLowerLeg, Ragdoll.Handle.rightFoot) ] /\
    Forall (fun c =>
              Ragdoll.c_stiffness c
              = Ragdoll.stiffness
                  (Ragdoll.Config.constraints
                     (Ragdoll.merge Ragdoll.RAGDOLL_CONFIG options)))
           (Ragdoll.constraints r) /\
    Ragdoll.composite_bodies (Ragdoll.composite r) = Ragdoll.Bodies.keys /\
    Ragdoll.composite_constraints (Ragdoll.composite r) = Ragdoll.constraints r.
Proof.
  eexists. split; [reflexivity|].
  split; [reflexivity|]. split; [|split; reflexivity].
  cbn [Ragdoll.constraints]. repeat constructor.
Qed.

Lemma fixedPart_clampH (b : Matter.Body) (k : Q) :
  Matter.fixedPart (AIBrain.clampHorizontalVelocity b k) = Matter.fixedPart b.
Proof.
  unfold AIBrain.clampHorizontalVelocity. destruct (JS.gtb _ _); reflexivity.
Qed.

Lemma fixedPart_clampV (sq : Q -> Q) (b : Matter.Body) (k : Q) :
  Matter.fixedPart (AIBrainV1.clampVelocity sq b k) = Matter.fixedPart b.
Proof.
  unfold AIBrainV1.clampVelocity. destruct (JS.gtb _ _); reflexivity.
Qed.

(** Writing back a pelvis and a torso that kept their fixed part changes no
    segment's fixed part and no joint, at any address. *)
Lemma writeBack_topology (h : list Fighter.t) (a : nat) (fo : Fighter.t)
    (r : Ragdoll.t) (p t : Matter.Body) (a' : nat) :
  h !! a = Some fo -> Fighter.ragdoll fo = Some r ->
  Matter.fixedPart p = Matter.fixedPart (Ragdoll.Bodies.pelvis (Ragdoll.bodies r)) ->
  Matter.fixedPart t = Matter.fixedPart (Ragdoll.Bodies.torso (Ragdoll.bodies r)) ->
  let h' := AIBrain.writeBack h a fo r p t in
  map Matter.fixedPart (Fighter.segments h' a')
  = map Matter.fixedPart (Fighter.segments h a') /\
  Fighter.joints h' a' = Fighter.joints h a' /\
  length h' = length h.
Proof.
  intros Hl Hr Hp Ht h'.
  split; [|split].
  - unfold Fighter.segments. destruct (decide (a' = a)) as [->|Hne].
    + unfold h'. rewrite writeBack_lookup by assumption.
      unfold Fighter.ragdollOf, Fighter.deref. rewrite Hl, Hr.
      cbn. rewrite Hp, Ht. reflexivity.
    + unfold h'. rewrite writeBack_other by assumption. reflexivity.
  - unfold Fighter.joints. destruct (decide (a' = a)) as [->|Hne].
    + unfold h'. rewrite writeBack_lookup by assumption.
      unfold Fighter.ragdollOf, Fighter.deref. rewrite Hl, Hr. reflexivity.
    + unfold h'. rewrite writeBack_other by assumption. reflexivity.
  - unfold h', AIBrain.writeBack. apply length_insert.
Qed.

(** An AI evaluation rewrites velocities and forces only. *)
Lemma processAITick_topology (sq : Q -> Q) (cfg : AIBrain.Config)
    (ai : AIBrain.AI) (index : nat) (h : list Fighter.t)
    (dbg : AIBrain.DebugState) (a' : nat) :
  let h' := (AIBrain.processAITick sq cfg ai index h dbg).1.2 in
  map Matter.fixedPart (Fighter.segments h' a')
  = map Matter.fixedPart (Fighter.segments h a') /\
  Fighter.joints h' a' = Fighter.joints h a' /\
  length h' = length h.
Proof.
  cbn zeta. unfold AIBrain.processAITick.
  destruct (Fighter.deref h (AIBrain.fighter ai)) as [[a fo]|] eqn:Hd; [|cbn; auto].
  destruct (Fighter.ragdollOf h (AIBrain.target ai)) as [rt|]; [|cbn; auto].
  destruct (Fighter.ragdoll fo) as [r|] eqn:Hr; [|cbn; auto].
  apply deref_Some in Hd. destruct Hd as [_ Hl].
  destruct (AIBrain.enabled ai); cbn [negb].
  - match goal with |- context [AIBrain.nextState ?c ?d ?s] =>
      destruct (AIBrain.nextState c d s) end;
    cbn [AIBrain.setState AIBrain.state fst snd];
    apply writeBack_topology; try assumption;
    rewrite fixedPart_clampH; reflexivity.
  - cbn [fst snd]. apply writeBack_topology; try assumption; reflexivity.
Qed.

Lemma processAITickV1_topology (sq : Q -> Q) (cfg : AIBrainV1.Config)
    (ai : AIBrain.AI) (h : list Fighter.t) (a' : nat) :
  let h' := (AIBrainV1.processAITick sq cfg ai h).2 in
  map Matter.fixedPart (Fighter.segments h' a')
  = map Matter.fixedPart (Fighter.segments h a') /\
  Fighter.joints h' a' = Fighter.joints h a' /\
  length h' = length h.
Proof.
  cbn zeta. unfold AIBrainV1.processAITick.
  destruct (AIBrain.enabled ai); cbn [negb]; [|cbn; auto].
  destruct (Fighter.deref h (AIBrain.fighter ai)) as [[a fo]|] eqn:Hd; [|cbn; auto].
  destruct (Fighter.ragdollOf h (AIBrain.target ai)) as [rt|]; [|cbn; auto].
  destruct (Fighter.ragdoll fo) as [r|] eqn:Hr; [|cbn; auto].
  apply deref_Some in Hd. destruct Hd as [_ Hl].
  match goal with |- context [AIBrainV1.nextState ?c ?d ?s] =>
      destruct (AIBrainV1.nextState c d s) end;
    cbn [AIBrain.setState AIBrain.state fst snd];
    apply writeBack_topology; try assumption;
    rewrite fixedPart_clampV; reflexivity.
Qed.



Lemma removeFighter_heap (st : Fighter.Store) (f : option nat) :
  Fighter.heap (Fighter.removeFighter st f) = Fighter.heap st.
Proof.
  unfold Fighter.removeFighter. destruct f as [a|]; [|reflexivity].
  destruct (Fighter.heap st !! a) as [fo|]; [|reflexivity].
  destruct (Fighter.ragdoll fo); reflexivity.
Qed.

Lemma createFighter_returns (circleArea : Q -> Q) (st : Fighter.Store)
    (x y : Q) (o : Fighter.Options.t) (stamp : string) :
  exists r fo,
    Ragdoll.createRagdoll circleArea x y
      (default Ragdoll.Options.empty (Fighter.Options.ragdollConfig o))
    = JS.Normal r /\
    Fighter.createFighter circleArea st x y o stamp
    = JS.Normal (length (Fighter.heap st),
                 {| Fighter.heap := Fighter.heap st ++ [fo];
                    Fighter.world := Fighter.world st ++ [length (Fighter.heap st)] |}) /\
    Fighter.ragdoll fo = Some r /\
    Fighter.id fo = Fighter.or_else (Fighter.Options.id o) stamp.
Proof.
  destruct (createRagdoll_segments circleArea x y
              (default Ragdoll.Options.empty (Fighter.Options.ragdollConfig o)))
    as (r & Hr & _).
  exists r. eexists. split; [exact Hr|].
  unfold Fighter.createFighter. rewrite Hr. cbn [JS.bind].
  split; [reflexivity|]. split; reflexivity.
Qed.

Lemma canCollide_same_negative (p q : Matter.Body) (g : Z) :
  (g < 0)%Z ->
  Matter.group (Matter.collisionFilter p) = g ->
  Matter.group (Matter.collisionFilter q) = g ->
  Matter.Detector_canCollide (Matter.collisionFilter p) (Matter.collisionFilter q)
  = false.
Proof.
  intros Hg Hp Hq. unfold Matter.Detector_canCollide. rewrite Hp, Hq.
  rewrite Z.eqb_refl. cbn [andb].
  destruct (Z.eqb_spec g 0) as [->|_]; [lia|]. cbn [negb].
  apply Z.ltb_ge. lia.
Qed.

Lemma canCollide_distinct_groups (p q : Matter.Body) (g1 g2 : Z) :
  g1 <> g2 ->
  Matter.collisionFilter p
  = {| Matter.category := 1; Matter.mask := 4294967295; Matter.group := g1 |} ->
  Matter.collisionFilter q
  = {| Matter.category := 1; Matter.mask := 4294967295; Matter.group := g2 |} ->
  Matter.Detector_canCollide (Matter.collisionFilter p) (Matter.collisionFilter q)
  = true.
Proof.
  intros Hne Hp Hq. unfold Matter.Detector_canCollide. rewrite Hp, Hq.
  cbn [Matter.group Matter.mask Matter.category].
  destruct (Z.eqb_spec g1 g2) as [E|_]; [contradiction|]. reflexivity.
Qed.

Lemma spawnFighters_returns (circleArea : Q -> Q) (s : Main.State) :
  exists s' ra rb,
    Main.spawnFighters circleArea s = JS.Normal s' /\
    Main.fighterA s' = Some (length (Fighter.heap (Main.store s))) /\
    Main.fighterB s' = Some (S (length (Fighter.heap (Main.store s)))) /\
    Fighter.ragdollOf (Fighter.heap (Main.store s'))
      (Some (length (Fighter.heap (Main.store s)))) = Some ra /\
    Fighter.ragdollOf (Fighter.heap (Main.store s'))
      (Some (S (length (Fighter.heap (Main.store s))))) = Some rb /\
    Ragdoll.createRagdoll circleArea
      (Vector.x Main.getSpawnPositions.1) (Vector.y Main.getSpawnPositions.1)
      (Main.groupOnly (-1)) = JS.Normal ra /\
    Ragdoll.createRagdoll circleArea
      (Vector.x Main.getSpawnPositions.2) (Vector.y Main.getSpawnPositions.2)
      (Main.groupOnly (-2)) = JS.Normal rb.
Proof.
  unfold Main.spawnFighters, Main.getSpawnPositions.
  cbn [Vector.x Vector.y].
  set (st2 := match Main.fighterB s with Some _ => _ | None => _ end).
  assert (Hh : Fighter.heap st2 = Fighter.heap (Main.store s)).
  { unfold st2. destruct (Main.fighterB s), (Main.fighterA s);
      rewrite ?removeFighter_heap; reflexivity. }
  set (oa := {| Fighter.Options.id := Some "fighter_a"%string;
                Fighter.Options.name := _; Fighter.Options.ragdollConfig := _ |}).
  set (ob := {| Fighter.Options.id := Some "fighter_b"%string;
                Fighter.Options.name := _; Fighter.Options.ragdollConfig := _ |}).
  destruct (createFighter_returns circleArea st2 (Main.ARENA.width * (3 / 10))
              (Main.ARENA.height / 2 - 50) oa "fighter_")
    as (ra & fa & Hra & Hfa & Hfar & _).
  rewrite Hfa. cbn [JS.bind].
  match goal with |- context [Fighter.createFighter circleArea ?st] =>
    set (st3 := st) end.
  destruct (createFighter_returns circleArea st3 (Main.ARENA.width * (7 / 10))
              (Main.ARENA.height / 2 - 50) ob "fighter_")
    as (rb & fb & Hrb & Hfb & Hfbr & _).
  rewrite Hfb. cbn [JS.bind].
  cbn [st3 Fighter.heap].
  set (h0 := Fighter.heap st2) in *.
  assert (La : ((h0 ++ [fa]) ++ [fb]) !! length h0 = Some fa).
  { rewrite lookup_app_l by (rewrite length_app; cbn; lia).
    apply list_lookup_middle. reflexivity. }
  assert (Lb : ((h0 ++ [fa]) ++ [fb]) !! length (h0 ++ [fa]) = Some fb).
  { apply list_lookup_middle. reflexivity. }
  unfold AIBrain.createAI at 1. unfold Fighter.deref at 1. rewrite La. cbn [JS.bind].
  unfold AIBrain.createAI at 1. unfold Fighter.deref at 1. rewrite Lb. cbn [JS.bind].
  eexists. exists ra, rb. split; [reflexivity|].
  cbn [Main.fighterA Main.fighterB Main.store Fighter.heap].
  rewrite <- Hh. fold h0.
  assert (Hlen : length (h0 ++ [fa]) = S (length h0))
    by (rewrite length_app; cbn; lia).
  rewrite Hlen in *.
  split; [reflexivity|]. split; [reflexivity|].
  unfold Fighter.ragdollOf, Fighter.deref. rewrite La, Lb.
  repeat split; assumption.
Qed.

Lemma segments_of (h : list Fighter.t) (a : nat) (r : Ragdoll.t) :
  Fighter.ragdollOf h (Some a) = Some r ->
  Fighter.segments h a = Ragdoll.Bodies.values (Ragdoll.bodies r).
Proof. intros H. unfold Fighter.segments. rewrite H. reflexivity. Qed.

Lemma map_collisionFilter (l l' : list Matter.Body) :
  map Matter.fixedPart l = map Matter.fixedPart l' ->
  map Matter.collisionFilter l = map Matter.collisionFilter l'.
Proof.
  intros H. apply (f_equal (map snd)) in H.
  rewrite !map_map in H. exact H.
Qed.

(** C9 as stated fails on the count only: fighter A as [spawnFighters]
    builds it has fifteen segments, not fourteen, each in group -1. *)
Lemma spawned_fighter_fifteen_segments :
  let h := Fighter.heap (Main.store Sample.spawned) in
  Main.fighterA Sample.spawned = Some 0%nat /\
  length (Fighter.segments h 0) = 15%nat /\
  length (Fighter.segments h 0) <> 14%nat /\
  Forall (fun p => Matter.group (Matter.collisionFilter p) = (-1)%Z)
         (Fighter.segments h 0).
Proof.
  cbn zeta. split; [reflexivity|]. split; [reflexivity|].
  split; [discriminate|]. vm_compute. repeat constructor.
Qed.

(** C9, as the code has it.  Every one of the fifteen segments of a ragdoll
    carries the collision group of its
    configuration, which is the group given in the options (-1 when none is
    given).  [spawnFighters] builds fighter A with group -1 and fighter B
    with group -2: under the rule of Matter.js' detector no two segments of
    one fighter can collide, and every segment of one can collide with every
    segment of the other.  An AI evaluation changes no collision filter. *)
Theorem collision_groups (circleArea Math_sqrt : Q -> Q) :
  (forall (x y : Q) (options : Ragdoll.Options.t),
     exists r,
       Ragdoll.createRagdoll circleArea x y options = JS.Normal r /\
       Ragdoll.Config.collisionGroup (Ragdoll.config r)
       = default (-1)%Z (Ragdoll.Options.collisionGroup options) /\
       length (Ragdoll.Bodies.values (Ragdoll.bodies r)) = 15%nat /\
       Forall (fun b =>
                 Matter.group (Matter.collisionFilter b)
                 = Ragdoll.Config.collisionGroup (Ragdoll.config r))
              (Ragdoll.Bodies.values (Ragdoll.bodies r))) /\
  (forall s : Main.State,
     exists s' a b,
       Main.spawnFighters circleArea s = JS.Normal s' /\
       Main.fighterA s' = Some a /\ Main.fighterB s' = Some b /\
       let h := Fighter.heap (Main.store s') in
       length (Fighter.segments h a) = 15%nat /\
       length (Fighter.segments h b) = 15%nat /\
       Forall (fun p => Matter.group (Matter.collisionFilter p) = (-1)%Z)
              (Fighter.segments h a) /\
       Forall (fun p => Matter.group (Matter.collisionFilter p) = (-2)%Z)
              (Fighter.segments h b) /\
       (forall p q, In p (Fighter.segments h a) -> In q (Fighter.segments h a) ->
          Matter.Detector_canCollide (Matter.collisionFilter p)
            (Matter.collisionFilter q) = false) /\
       (forall p q, In p (Fighter.segments h b) -> In q (Fighter.segments h b) ->
          Matter.Detector_canCollide (Matter.collisionFilter p)
            (Matter.collisionFilter q) = false) /\
       (forall p q, In p (Fighter.segments h a) -> In q (Fighter.segments h b) ->
          Matter.Detector_canCollide (Matter.collisionFilter p)
            (Matter.collisionFilter q) = true /\
          Matter.Detector_canCollide (Matter.collisionFilter q)
            (Matter.collisionFilter p) = true)) /\
  (forall (cfg : AIBrain.Config) (ai : AIBrain.AI) (index : nat)
          (h : list Fighter.t) (dbg : AIBrain.DebugState) (address : nat),
     map Matter.collisionFilter
       (Fighter.segments
          (AIBrain.processAITick Math_sqrt cfg ai index h dbg).1.2 address)
     = map Matter.collisionFilter (Fighter.segments h address)).
Proof.
  split; [|split].
  - intros x y options.
    destruct (createRagdoll_segments circleArea x y options)
      as (r & Hr & Hc & _ & Hall).
    exists r. split; [exact Hr|]. split; [rewrite Hc; reflexivity|].
    split; [reflexivity|].
    eapply Forall_impl; [exact Hall|]. cbn beta. intros b (Hb & _).
    rewrite Hb. reflexivity.
  - intros s.
    destruct (spawnFighters_returns circleArea s)
      as (s' & ra & rb & Hs & Ha & Hb & Hra & Hrb & Hca & Hcb).
    exists s', (length (Fighter.heap (Main.store s))),
           (S (length (Fighter.heap (Main.store s)))).
    split; [exact Hs|]. split; [exact Ha|]. split; [exact Hb|].
    cbn zeta.
    rewrite (segments_of _ _ _ Hra), (segments_of _ _ _ Hrb).
    destruct (createRagdoll_segments circleArea
                (Vector.x Main.getSpawnPositions.1) (Vector.y Main.getSpawnPositions.1)
                (Main.groupOnly (-1))) as (ra' & Hra' & Hcfa & _ & Halla).
    rewrite Hca in Hra'. injection Hra' as <-.
    destruct (createRagdoll_segments circleArea
                (Vector.x Main.getSpawnPositions.2) (Vector.y Main.getSpawnPositions.2)
                (Main.groupOnly (-2))) as (rb' & Hrb' & Hcfb & _ & Hallb).
    rewrite Hcb in Hrb'. injection Hrb' as <-.
    rewrite Hcfa in Halla. rewrite Hcfb in Hallb.
    cbn [Ragdoll.merge Ragdoll.Config.collisionGroup Main.groupOnly
         Ragdoll.Options.collisionGroup default] in Halla, Hallb.
    rewrite List.Forall_forall in Halla, Hallb.
    split; [reflexivity|]. split; [reflexivity|].
    split; [|split; [|split; [|split]]].
    + apply List.Forall_forall. intros p Hp. destruct (Halla p Hp) as (E & _).
      rewrite E. reflexivity.
    + apply List.Forall_forall. intros p Hp. destruct (Hallb p Hp) as (E & _).
      rewrite E. reflexivity.
    + intros p q Hp Hq. destruct (Halla p Hp) as (Ep & _).
      destruct (Halla q Hq) as (Eq & _).
      apply (canCollide_same_negative p q (-1));
        [lia | rewrite Ep | rewrite Eq]; reflexivity.
    + intros p q Hp Hq. destruct (Hallb p Hp) as (Ep & _).
      destruct (Hallb q Hq) as (Eq & _).
      apply (canCollide_same_negative p q (-2));
        [lia | rewrite Ep | rewrite Eq]; reflexivity.
    + intros p q Hp Hq.
      destruct (Halla p Hp) as (Ep & _). destruct (Hallb q Hq) as (Eq & _).
      split.
      * apply (canCollide_distinct_groups p q (-1) (-2));
          [lia | exact Ep | exact Eq].
      * apply (canCollide_distinct_groups q p (-2) (-1));
          [lia | exact Eq | exact Ep].
  - intros cfg ai index h dbg address.
    apply map_collisionFilter.
    apply (processAITick_topology Math_sqrt cfg ai index h dbg address).
Qed.

(** ** Impact scoring *)

(** C3.  The impact score is the relative speed of the two bodies times
    their combined mass times 10, where a body of mass 0 counts as mass 1
    (for non-zero masses the combined mass is their sum); a pair of relative
    speed 10 and combined mass 2 scores 200. *)
Theorem impact_score (Math_sqrt : Q -> Q) (pair : ImpactTracker.Pair) :
  let speed := ImpactTracker.relativeSpeed Math_sqrt pair in
  let combinedMass := ImpactTracker.combinedMass pair in
  let massA := Matter.mass (ImpactTracker.bodyA pair) in
  let massB := Matter.mass (ImpactTracker.bodyB pair) in
  ImpactTracker.calculateImpact Math_sqrt pair = speed * combinedMass * 10 /\
  (~ massA == 0 -> ~ massB == 0 -> combinedMass = massA + massB) /\
  (speed == 10 -> combinedMass == 2 ->
   ImpactTracker.calculateImpact Math_sqrt pair == 200).
Proof.
  cbn zeta. split; [reflexivity|]. split.
  - intros Ha Hb. unfold ImpactTracker.combinedMass, JS.or_else, JS.eqb.
    destruct (Qeq_bool (Matter.mass (ImpactTracker.bodyA pair)) 0) eqn:Ea.
    { apply Qeq_bool_eq in Ea. contradiction. }
    destruct (Qeq_bool (Matter.mass (ImpactTracker.bodyB pair)) 0) eqn:Eb.
    { apply Qeq_bool_eq in Eb. contradiction. }
    reflexivity.
  - intros Hs Hm.
    change (ImpactTracker.calculateImpact Math_sqrt pair)
      with (ImpactTracker.relativeSpeed Math_sqrt pair
            * ImpactTracker.combinedMass pair * 10).
    rewrite Hs, Hm. reflexivity.
Qed.

Lemma impact_score_witness :
  let pair :=
    {| ImpactTracker.bodyA := Sample.moving 10 0 1;
       ImpactTracker.bodyB := Sample.moving 0 0 1 |} in
  ImpactTracker.relativeSpeed Sample.Math_sqrt pair == 10 /\
  ImpactTracker.combinedMass pair == 2 /\
  ImpactTracker.calculateImpact Sample.Math_sqrt pair == 200.
Proof.
  intros pair. split; [reflexivity|]. split; [reflexivity|].
  apply (impact_score Sample.Math_sqrt pair); reflexivity.
Defined.

(** ** Damage and knockback *)

(** C4.  Damage is impulse times weapon damage scale times strength
    multiplier, less the armor defense, and zero when that is negative;
    knockback is impulse times knockback scale times one minus the armor
    knockback reduction.  Impulse 500, scales 1.0, strength multiplier 1.0,
    defense 3 and reduction 0.9 give damage 497 and knockback 50. *)
Theorem damage_formula :
  (forall impulse weaponDamageScale strengthMultiplier armorDefense : Q,
     let score := impulse * weaponDamageScale * strengthMultiplier in
     Damage.impactScoreForDamage impulse weaponDamageScale strengthMultiplier
     = score /\
     (armorDefense <= score ->
      Damage.damage impulse weaponDamageScale strengthMultiplier armorDefense
      = score - armorDefense) /\
     (score < armorDefense ->
      Damage.damage impulse weaponDamageScale strengthMultiplier armorDefense
      = 0) /\
     0 <= Damage.damage impulse weaponDamageScale strengthMultiplier armorDefense) /\
  (forall impulse knockbackScale armorKnockbackReduction : Q,
     Damage.knockback impulse knockbackScale armorKnockbackReduction
     = impulse * knockbackScale * (1 - armorKnockbackReduction)) /\
  Damage.damage 500 1 1 3 == 497 /\
  Damage.knockback 500 1 (9 / 10) == 50.
Proof.
  split; [|split; [|split]]; try reflexivity.
  intros impulse w sm d score. unfold Damage.damage.
  fold score. change (Damage.impactScoreForDamage impulse w sm) with score.
  split; [reflexivity|].
  destruct (JS.ltb (score - d) 0) eqn:E.
  - apply ltb_true in E. repeat split.
    + intros H. lra.
    + lra.
  - apply ltb_false in E. repeat split.
    + intros H. lra.
    + exact E.
Qed.

Lemma damage_formula_witness :
  Damage.damage 500 1 1 3 == 497 /\ Damage.knockback 500 1 (9 / 10) == 50.
Proof. split; apply damage_formula. Defined.

(** ** Construction and configuration *)

(** C5 as stated fails: with a density of -1 and a joint stiffness of 0 the
    builder returns a ragdoll, and so does the fighter constructor. *)
Lemma invalid_configuration_accepted :
  let options := Sample.tuned (-1) 0 in
  let config := Ragdoll.merge Ragdoll.RAGDOLL_CONFIG options in
  Ragdoll.density (Ragdoll.Config.physics config) <= 0 /\
  Ragdoll.stiffness (Ragdoll.Config.constraints config) <= 0 /\
  JS.returns (Ragdoll.createRagdoll Sample.circleArea 270 250 options) /\
  ~ JS.throws (Ragdoll.createRagdoll Sample.circleArea 270 250 options) /\
  JS.returns
    (Fighter.createFighter Sample.circleArea
       {| Fighter.heap := []; Fighter.world := [] |} 270 250
       {| Fighter.Options.id := None; Fighter.Options.name := None;
          Fighter.Options.ragdollConfig := Some options |} "fighter_").
Proof.
  cbn zeta. split; [discriminate|]. split; [discriminate|].
  split; [eexists; reflexivity|].
  split; [intros [e He]; discriminate He|].
  eexists; reflexivity.
Qed.

(** C5, as the code has it.  Nothing is validated at construction.  The
    builder returns a ragdoll for every options object and hands the density
    and the joint stiffness of the merged configuration, whatever their
    sign, to every segment and every joint; the fighter constructor returns
    for every input; [createAI] takes no thresholds: given a fighter it
    returns an enabled controller in IDLE.  The shipped defaults are valid:
    density and stiffness are positive and [idleDistance] is below
    [approachDistance]. *)
Theorem construction_unvalidated (circleArea : Q -> Q) :
  (forall (x y : Q) (options : Ragdoll.Options.t),
     exists r,
       Ragdoll.createRagdoll circleArea x y options = JS.Normal r /\
       Ragdoll.config r = Ragdoll.merge Ragdoll.RAGDOLL_CONFIG options /\
       Forall (fun b =>
                 Matter.density b
                 = Ragdoll.density (Ragdoll.Config.physics (Ragdoll.config r)))
              (Ragdoll.Bodies.values (Ragdoll.bodies r)) /\
       Forall (fun c =>
                 Ragdoll.c_stiffness c
                 = Ragdoll.stiffness (Ragdoll.Config.constraints (Ragdoll.config r)))
              (Ragdoll.constraints r)) /\
  (forall (st : Fighter.Store) (x y : Q) (o : Fighter.Options.t) (stamp : string),
     JS.returns (Fighter.createFighter circleArea st x y o stamp)) /\
  (forall (h : list Fighter.t) (fighter target : option nat) (s : AIBrain.Module_),
     match Fighter.deref h fighter with
     | Some _ =>
         exists ai s',
           AIBrain.createAI h fighter target s = JS.Normal (ai, s') /\
           AIBrain.state ai = AIBrain.IDLE /\ AIBrain.enabled ai = true
     | None => JS.throws (AIBrain.createAI h fighter target s)
     end) /\
  0 < Ragdoll.density (Ragdoll.Config.physics Ragdoll.RAGDOLL_CONFIG) /\
  0 < Ragdoll.stiffness (Ragdoll.Config.constraints Ragdoll.RAGDOLL_CONFIG) /\
  AIBrain.idleDistance AIBrain.AI_CONFIG
  < AIBrain.approachDistance AIBrain.AI_CONFIG /\
  AIBrainV1.idleDistance AIBrainV1.AI_CONFIG
  < AIBrainV1.approachDistance AIBrainV1.AI_CONFIG.
Proof.
  split; [|split; [|split; [|repeat split]]].
  - intros x y options.
    destruct (createRagdoll_segments circleArea x y options)
      as (r & Hr & Hc & _ & Hall).
    destruct (createRagdoll_joints circleArea x y options)
      as (r' & Hr' & _ & Hst & _).
    rewrite Hr in Hr'. injection Hr' as <-.
    exists r. split; [exact Hr|]. split; [exact Hc|]. split.
    + eapply Forall_impl; [exact Hall|]. cbn beta. intros b (_ & Hb & _). exact Hb.
    + rewrite Hc. exact Hst.
  - intros st x y o stamp.
    destruct (createFighter_returns circleArea st x y o stamp)
      as (r & fo & _ & Hf & _).
    eexists. exact Hf.
  - intros h fighter target s. unfold AIBrain.createAI.
    destruct (Fighter.deref h fighter) as [[a f]|].
    + eexists. eexists. split; [reflexivity|]. split; reflexivity.
    + eexists. reflexivity.
Qed.

(** ** The scheduler under arbitrary clients *)

Ltac sim_fields :=
  cbn [Simulator.init Simulator.setEngine Simulator.setPaused
       Simulator.setLastTime Simulator.emit Simulator.engineUpdate
       Simulator.incrTickCount Simulator.isPaused Simulator.isRunning
       Simulator.accumulator Simulator.trace Simulator.tickCount
       Simulator.engine Simulator.lastTime Simulator.onRender
       Simulator.onReset].

Ltac inv_done :=
  repeat split; try assumption; try reflexivity; try discriminate;
  try lia; try (intuition congruence).

Section SessionProperties.

Context {Engine : Type} (upd : Engine -> Q -> Engine).
Import Simulator.

Lemma engineUpdates_repeat (k : nat) :
  engineUpdates (repeat (@EngineUpdate Engine SIM_CONFIG.fixedDelta) k)
  = repeat SIM_CONFIG.fixedDelta k.
Proof.
  induction k as [|k IH]; [reflexivity|].
  change (repeat (@EngineUpdate Engine SIM_CONFIG.fixedDelta) (S k))
    with ([@EngineUpdate Engine SIM_CONFIG.fixedDelta]
          ++ repeat (EngineUpdate SIM_CONFIG.fixedDelta) k).
  rewrite engineUpdates_app, IH. reflexivity.
Qed.

(** Whenever the [while] loop returns, it has run the integrator [k] times
    with the fixed tick size and done nothing else. *)
Lemma physicsSteps_normal (s : State Engine) :
  forall s', physicsSteps upd s = JS.Normal s' ->
  exists k,
    tickCount s' = (tickCount s + k)%nat /\
    accumulator s' + ofNat k * SIM_CONFIG.fixedDelta == accumulator s /\
    accumulator s' < SIM_CONFIG.fixedDelta /\
    (k = 0%nat \/ 0 <= accumulator s') /\
    trace s' = trace s ++ repeat (EngineUpdate SIM_CONFIG.fixedDelta) k /\
    isRunning s' = isRunning s /\ isPaused s' = isPaused s /\
    lastTime s' = lastTime s /\ onRender s' = onRender s /\
    onReset s' = onReset s /\
    (k = 0%nat -> s' = s) /\
    (engine s = None -> k = 0%nat).
Proof.
  apply (physicsSteps_elim Engine upd
    (fun s r => forall s', r = JS.Normal s' ->
       exists k,
         tickCount s' = (tickCount s + k)%nat /\
         accumulator s' + ofNat k * SIM_CONFIG.fixedDelta == accumulator s /\
         accumulator s' < SIM_CONFIG.fixedDelta /\
         (k = 0%nat \/ 0 <= accumulator s') /\
         trace s' = trace s ++ repeat (EngineUpdate SIM_CONFIG.fixedDelta) k /\
         isRunning s' = isRunning s /\ isPaused s' = isPaused s /\
         lastTime s' = lastTime s /\ onRender s' = onRender s /\
         onReset s' = onReset s /\
         (k = 0%nat -> s' = s) /\
         (engine s = None -> k = 0%nat))).
  - intros s0 Hlt _ s' [= <-]. exists 0%nat.
    rewrite Nat.add_0_r. cbn [repeat]. rewrite app_nil_r.
    change (ofNat 0) with 0.
    repeat split; try reflexivity; try assumption; try tauto. lra.
  - intros s0 e0 Hge IH He0 _ s' Hr.
    destruct (IH s' Hr)
      as (k & Htk & Hacc & Hlt & Hk & Htr & Hrun & Hp & Hlast & Hor & Hos & _ & _).
    exists (S k).
    cbn [tick incrTickCount setAccumulator engineUpdate accumulator tickCount
         isRunning isPaused lastTime trace onRender onReset] in *.
    repeat split; try assumption.
    + lia.
    + rewrite ofNat_S. lra.
    + right. destruct Hk as [-> | Hk]; [|exact Hk].
      change (ofNat 0) with 0 in Hacc. lra.
    + rewrite Htr, <- app_assoc. reflexivity.
    + discriminate.
    + congruence.
  - intros s0 Hge He0 _ s' Hr. discriminate.
Qed.

(** On a [null] engine the [while] loop raises as soon as one tick is due,
    and returns at once otherwise. *)
Lemma physicsSteps_null (s : State Engine) :
  engine s = None ->
  (SIM_CONFIG.fixedDelta <= accumulator s ->
     physicsSteps upd s = JS.Throw (JS.TypeError "Cannot read properties of null")) /\
  (accumulator s < SIM_CONFIG.fixedDelta -> physicsSteps upd s = JS.Normal s).
Proof.
  apply (physicsSteps_elim Engine upd
    (fun s r => engine s = None ->
       (SIM_CONFIG.fixedDelta <= accumulator s ->
          r = JS.Throw (JS.TypeError "Cannot read properties of null")) /\
       (accumulator s < SIM_CONFIG.fixedDelta -> r = JS.Normal s))).
  - intros s0 Hlt _ _. split; [intros H; lra | reflexivity].
  - intros s0 e0 Hge _ He0 _ Hn. congruence.
  - intros s0 Hge _ _ _. split; [reflexivity | intros H; lra].
Qed.

(** X1.  A frame of a paused simulation integrates nothing: the engine, the
    tick count and the accumulator stay as they are and no integrator call is
    made, also on a [null] engine; the frame still records its time stamp,
    renders when a render callback is installed and schedules the next
    frame. *)
Theorem paused_frame_integrates_nothing (s : State Engine) (t : Q) :
  isRunning s = true -> isPaused s = true ->
  exists s', loop upd t s = JS.Normal s' /\
    engine s' = engine s /\
    tickCount s' = tickCount s /\
    accumulator s' = accumulator s /\
    engineUpdates (trace s') = engineUpdates (trace s) /\
    lastTime s' = t /\
    isRunning s' = true /\ isPaused s' = true /\
    trace s' =
      trace s
      ++ (if onRender s
          then [Render (engine s)
                  {| info_fps := fps s'; info_tickCount := tickCount s;
                     info_isPaused := true; info_isRunning := true |}]
          else [])
      ++ [RequestAnimationFrame].
Proof.
  intros Hrun Hp. unfold loop. rewrite Hrun. cbn [negb].
  unfold frameDelta. cbn [isPaused]. rewrite Hp. cbn [negb JS.bind].
  eexists. split; [reflexivity|].
  unfold render. cbn [onRender isPaused].
  destruct (onRender s);
    cbn [emit engine tickCount accumulator isRunning isPaused lastTime trace fps];
    rewrite ?engineUpdates_app, ?Hrun, ?Hp; cbn [engineUpdates flat_map];
    rewrite ?app_nil_r, <- ?app_assoc; repeat split; reflexivity.
Qed.

Lemma trace_frame (s s1 : State Engine) (k : nat) :
  trace s1 = trace s ++ repeat (EngineUpdate SIM_CONFIG.fixedDelta) k ->
  forall p,
  engineUpdates (trace (emit RequestAnimationFrame (render p s1)))
  = engineUpdates (trace s) ++ repeat SIM_CONFIG.fixedDelta k.
Proof.
  intros Htr p. unfold render.
  destruct (onRender s1); cbn [emit trace];
    rewrite ?engineUpdates_app, Htr, engineUpdates_app, engineUpdates_repeat;
    cbn [engineUpdates flat_map]; rewrite ?app_nil_r; reflexivity.
Qed.

(** What one frame does whenever it returns. *)
Lemma loop_normal (s s' : State Engine) (t : Q) :
  loop upd t s = JS.Normal s' ->
  exists k,
    tickCount s' = (tickCount s + k)%nat /\
    engineUpdates (trace s')
      = engineUpdates (trace s) ++ repeat SIM_CONFIG.fixedDelta k /\
    isRunning s' = isRunning s /\ isPaused s' = isPaused s /\
    (accumulator s < SIM_CONFIG.fixedDelta ->
       accumulator s' < SIM_CONFIG.fixedDelta /\ (k <= 5)%nat).
Proof.
  unfold loop. destruct (isRunning s) eqn:Hrun; cbn [negb].
  - unfold frameDelta. cbn [isPaused].
    destruct (isPaused s) eqn:Hp; cbn [negb JS.bind].
    + intros [= <-]. exists 0%nat. rewrite Nat.add_0_r.
      rewrite (trace_frame s _ 0) by (cbn; now rewrite app_nil_r).
      unfold render. cbn [onRender tickCount isRunning isPaused accumulator].
      destruct (onRender s);
        cbn [emit tickCount isRunning isPaused accumulator];
        repeat split; try assumption; try reflexivity; try lia; congruence.
    + match goal with |- context [physicsSteps upd ?s1] => set (s1' := s1) end.
      destruct (physicsSteps upd s1') as [s2|err] eqn:Hps; cbn [JS.bind];
        [|discriminate].
      intros [= <-].
      destruct (physicsSteps_normal s1' s2 Hps)
        as (k & Htk & Hacc & Hlt & Hk & Htr & Hrun' & Hp' & _).
      exists k.
      rewrite (trace_frame s s2 k) by exact Htr.
      set (last := if JS.eqb (lastTime s) 0 then t else lastTime s) in *.
      fold (capped (t - last)) in s1'.
      pose proof (capped_le (t - last)) as [Hcap _].
      unfold render.
      cbn [s1' setAccumulator accumulator isRunning isPaused tickCount] in *.
      assert (Hfive : accumulator s < SIM_CONFIG.fixedDelta -> (k <= 5)%nat).
      { intros Ha. destruct Hk as [-> | Hk]; [lia|].
        destruct (le_lt_dec k 5) as [Hle | Hgt]; [exact Hle|exfalso].
        pose proof (ofNat_lt 5 k Hgt) as H6.
        change (ofNat 5) with 5 in H6.
        unfold SIM_CONFIG.maxSubSteps in Hcap.
        pose proof fixedDelta_pos as Hfd.
        nra. }
      destruct (onRender s2);
        cbn [emit tickCount isRunning isPaused accumulator];
        repeat split; try assumption; try congruence; auto.
  - intros [= <-]. exists 0%nat. rewrite Nat.add_0_r.
    cbn [repeat]. rewrite app_nil_r.
    repeat split; try reflexivity; try tauto; try lia.
Qed.

(** X3.  A frame never runs more than [maxSubSteps] = 5 integrator calls,
    however late it comes, provided less than one tick was left over from
    the frame before. *)
Theorem frame_at_most_five_ticks (s s' : State Engine) (t : Q) :
  accumulator s < SIM_CONFIG.fixedDelta ->
  loop upd t s = JS.Normal s' ->
  (tickCount s' <= tickCount s + 5)%nat /\
  (length (engineUpdates (trace s'))
     <= length (engineUpdates (trace s)) + 5)%nat /\
  accumulator s' < SIM_CONFIG.fixedDelta.
Proof.
  intros Hacc Hl.
  destruct (loop_normal s s' t Hl) as (k & Htk & Htr & _ & _ & H).
  destruct (H Hacc) as [Hlt Hk].
  rewrite Htk, Htr, length_app, repeat_length.
  repeat split; try assumption; lia.
Qed.

Lemma Forall_repeat_eq (x : Q) (k : nat) : Forall (fun d => d = x) (repeat x k).
Proof. induction k; cbn; constructor; auto. Qed.

(** One call keeps what the scheduler promises. *)
Lemma perform_invariant (c : Session.Call Engine) (s s' : State Engine) :
  Session.perform upd c s = JS.Normal s' ->
  ((isPaused s = true -> isRunning s = true) /\
   accumulator s < SIM_CONFIG.fixedDelta /\
   Forall (fun d => d = SIM_CONFIG.fixedDelta) (engineUpdates (trace s)) /\
   (tickCount s <= length (engineUpdates (trace s)))%nat) ->
  (isPaused s' = true -> isRunning s' = true) /\
  accumulator s' < SIM_CONFIG.fixedDelta /\
  Forall (fun d => d = SIM_CONFIG.fixedDelta) (engineUpdates (trace s')) /\
  (tickCount s' <= length (engineUpdates (trace s')))%nat.
Proof.
  intros Hc (Hpr & Hacc & Hall & Htk).
  destruct c as [e r rs now | e | | | now | now | | | t]; cbn [Session.perform] in Hc.
  - injection Hc as <-. sim_fields. inv_done.
  - injection Hc as <-. sim_fields. inv_done.
  - injection Hc as <-. unfold start.
    destruct (isRunning s) eqn:Hrun; [inv_done|].
    sim_fields. rewrite engineUpdates_app. cbn [engineUpdates flat_map].
    rewrite app_nil_r. inv_done.
  - injection Hc as <-. unfold pause.
    destruct (isRunning s) eqn:Hrun; cbn [negb]; sim_fields; inv_done.
  - injection Hc as <-. unfold resume.
    destruct (isRunning s) eqn:Hrun; cbn [negb]; sim_fields; inv_done.
  - injection Hc as <-. unfold togglePause, pause, resume. cbn [snd].
    destruct (isPaused s) eqn:Hp, (isRunning s) eqn:Hrun; cbn [negb];
      sim_fields; rewrite ?Hp, ?Hrun; inv_done.
  - injection Hc as <-. unfold step.
    destruct (engine s) as [e|]; [|inv_done].
    unfold render, pause.
    destruct (isPaused s) eqn:Hp, (isRunning s) eqn:Hrun; cbn [negb];
      sim_fields; destruct (onRender s); sim_fields;
      rewrite ?engineUpdates_app; cbn [engineUpdates flat_map];
      rewrite ?app_nil_r, ?Hp, ?Hrun;
      (split; [intuition congruence|];
       split; [assumption|];
       split; [apply Forall_app; split; [assumption | repeat constructor]|];
       rewrite length_app; cbn [length]; lia).
  - injection Hc as <-. unfold reset. cbn [onReset].
    destruct (onReset s); sim_fields;
      rewrite ?engineUpdates_app; cbn [engineUpdates flat_map];
      rewrite ?app_nil_r; inv_done.
  - destruct (loop_normal s s' t Hc) as (k & Htk' & Htr & Hrun & Hp & H).
    destruct (H Hacc) as [Hlt _].
    rewrite Htr, Htk', length_app, repeat_length, Hrun, Hp.
    repeat split; try assumption.
    + apply Forall_app. split; [assumption | apply Forall_repeat_eq].
    + lia.
Qed.

(** X2.  Whatever a client calls, in whatever order and with whatever time
    stamps, as long as no call raises: the simulator is never paused without
    running, less than one tick is left in the accumulator, the integrator
    has only ever been called with the fixed tick size, and the tick counter
    never exceeds the number of integrator calls made. *)
Theorem scheduler_invariants (cs : list (Session.Call Engine)) (s' : State Engine) :
  Session.performAll upd cs (initial Engine) = JS.Normal s' ->
  (isPaused s' = true -> isRunning s' = true) /\
  accumulator s' < SIM_CONFIG.fixedDelta /\
  Forall (fun d => d = SIM_CONFIG.fixedDelta) (engineUpdates (trace s')) /\
  (tickCount s' <= length (engineUpdates (trace s')))%nat.
Proof.
  assert (Hgen : forall cs (s s' : State Engine),
    Session.performAll upd cs s = JS.Normal s' ->
    ((isPaused s = true -> isRunning s = true) /\
     accumulator s < SIM_CONFIG.fixedDelta /\
     Forall (fun d => d = SIM_CONFIG.fixedDelta) (engineUpdates (trace s)) /\
     (tickCount s <= length (engineUpdates (trace s)))%nat) ->
    (isPaused s' = true -> isRunning s' = true) /\
    accumulator s' < SIM_CONFIG.fixedDelta /\
    Forall (fun d => d = SIM_CONFIG.fixedDelta) (engineUpdates (trace s')) /\
    (tickCount s' <= length (engineUpdates (trace s')))%nat).
  { clear cs s'. induction cs as [|c cs IH]; intros s s' H Hinv.
    - injection H as <-. exact Hinv.
    - cbn [Session.performAll] in H.
      destruct (Session.perform upd c s) as [s1|err] eqn:Hc; cbn [JS.bind] in H;
        [|discriminate].
      apply (IH s1 s' H). apply (perform_invariant c s s1 Hc Hinv). }
  intros H. apply (Hgen cs _ s' H).
  cbn. repeat split; try discriminate; try constructor. 
Qed.

(** X4.  A running, unpaused simulator whose engine is [null] raises in the
    frame in which the first tick falls due, and only then: a frame that
    leaves less than one tick in the accumulator returns normally. *)
Theorem null_engine_frame_raises_when_tick_due (s : State Engine) (t : Q) :
  isRunning s = true -> isPaused s = false -> engine s = None ->
  let last := if JS.eqb (lastTime s) 0 then t else lastTime s in
  (SIM_CONFIG.fixedDelta <= accumulator s + capped (t - last) ->
     loop upd t s = JS.Throw (JS.TypeError "Cannot read properties of null")) /\
  (accumulator s + capped (t - last) < SIM_CONFIG.fixedDelta ->
     exists s', loop upd t s = JS.Normal s' /\
       accumulator s' = accumulator s + capped (t - last) /\
       tickCount s' = tickCount s /\
       engineUpdates (trace s') = engineUpdates (trace s)).
Proof.
  intros Hrun Hp He last.
  unfold loop. rewrite Hrun. cbn [negb].
  unfold frameDelta. cbn [isPaused]. rewrite Hp. cbn [negb].
  fold last. fold (capped (t - last)).
  match goal with |- context [physicsSteps upd ?s1] => set (s1' := s1) end.
  destruct (physicsSteps_null s1' He) as [Hthrow Hret].
  cbn [s1' setAccumulator accumulator] in Hthrow, Hret.
  split.
  - intros H. rewrite (Hthrow H). reflexivity.
  - intros H. rewrite (Hret H). cbn [JS.bind].
    eexists. split; [reflexivity|].
    unfold render. cbn [s1' setAccumulator onRender].
    destruct (onRender s); cbn [emit accumulator tickCount trace];
      rewrite ?engineUpdates_app; cbn [engineUpdates flat_map];
      rewrite ?app_nil_r; repeat split; reflexivity.
Qed.


(** Frames of a paused simulation leave the physics as it is. *)
Lemma runFrames_paused (ts : list Q) :
  forall s : State Engine,
  isRunning s = true -> isPaused s = true ->
  exists s', runFrames upd ts s = JS.Normal s' /\
    engine s' = engine s /\ tickCount s' = tickCount s /\
    accumulator s' = accumulator s /\
    engineUpdates (trace s') = engineUpdates (trace s) /\
    isRunning s' = true /\ isPaused s' = true.
Proof.
  induction ts as [|t ts IH]; intros s Hrun Hp.
  - exists s. repeat split; auto.
  - cbn [runFrames].
    assert (H : exists s1, loop upd t s = JS.Normal s1 /\
      engine s1 = engine s /\ tickCount s1 = tickCount s /\
      accumulator s1 = accumulator s /\
      engineUpdates (trace s1) = engineUpdates (trace s) /\
      isRunning s1 = true /\ isPaused s1 = true).
    { unfold loop. rewrite Hrun. cbn [negb].
      unfold frameDelta. cbn [isPaused]. rewrite Hp. cbn [negb JS.bind].
      eexists. split; [reflexivity|].
      unfold render. cbn [onRender isPaused].
      destruct (onRender s);
        cbn [emit engine tickCount accumulator isRunning isPaused trace];
        rewrite ?engineUpdates_app; cbn [engineUpdates flat_map];
        rewrite ?app_nil_r; repeat split; auto. }
    destruct H as (s1 & Hl & He & Htk & Hacc & Htr & Hrun1 & Hp1).
    rewrite Hl. cbn [JS.bind].
    destruct (IH s1 Hrun1 Hp1) as (s' & Hr & He' & Htk' & Hacc' & Htr' & Hrun' & Hp').
    exists s'. repeat split; try assumption; congruence.
Qed.

(** X6.  Time spent paused is never integrated.  Pause a running simulation,
    let any number of frames go by, resume at time [now] and take a frame at
    [t]: the frame integrates the capped time since [now] only, on top of
    what the accumulator held when the simulation was paused. *)
Theorem paused_time_is_discarded (s : State Engine) (e : Engine)
    (ts : list Q) (now t : Q) :
  isRunning s = true -> isPaused s = false -> engine s = Some e ->
  0 <= accumulator s -> 0 < now -> now <= t ->
  exists s1 k s2,
    runFrames upd ts (pause s) = JS.Normal s1 /\
    loop upd t (resume now s1) = JS.Normal s2 /\
    engine s2 = Some (ticksOf upd k e) /\
    tickCount s2 = (tickCount s + k)%nat /\
    accumulator s2 + ofNat k * SIM_CONFIG.fixedDelta
      == accumulator s + capped (t - now) /\
    0 <= accumulator s2 /\ accumulator s2 < SIM_CONFIG.fixedDelta.
Proof.
  intros Hrun Hp He Hacc Hnow Hle.
  assert (Hps : pause s = setPaused true s).
  { unfold pause. rewrite Hrun. reflexivity. }
  destruct (runFrames_paused ts (pause s)) as
    (s1 & Hr & He1 & Htk1 & Hacc1 & _ & Hrun1 & Hp1).
  { rewrite Hps. exact Hrun. }
  { rewrite Hps. reflexivity. }
  rewrite Hps in He1, Htk1, Hacc1.
  cbn [setPaused engine tickCount accumulator] in He1, Htk1, Hacc1.
  assert (Hres : resume now s1 = setLastTime _ now (setPaused false s1)).
  { unfold resume. rewrite Hrun1. reflexivity. }
  destruct (loop_running upd (resume now s1) e t) as
    (k & s2 & Hl & He2 & Htk2 & Hacc2 & Hnn & Hlt & _).
  - rewrite Hres. exact Hrun1.
  - rewrite Hres. reflexivity.
  - rewrite Hres. cbn [setLastTime setPaused engine]. congruence.
  - rewrite Hres. cbn [setLastTime setPaused accumulator]. rewrite Hacc1. exact Hacc.
  - rewrite Hres. cbn [setLastTime setPaused lastTime].
    rewrite (eqb_positive now Hnow). exact Hle.
  - exists s1, k, s2. rewrite Hres in *.
    cbn [setLastTime setPaused lastTime tickCount accumulator] in *.
    rewrite (eqb_positive now Hnow) in Hacc2.
    repeat split; try assumption; try congruence;
      try (rewrite Hacc2, Hacc1; reflexivity).
Qed.

(** One frame on a non-null engine returns and leaves an engine installed. *)
Lemma loop_returns (s : State Engine) (e : Engine) (t : Q) :
  engine s = Some e ->
  exists s' e', loop upd t s = JS.Normal s' /\ engine s' = Some e'.
Proof.
  intros He. unfold loop. destruct (isRunning s); cbn [negb].
  - unfold frameDelta. cbn [isPaused].
    destruct (isPaused s); cbn [negb JS.bind].
    + eexists. exists e. split; [reflexivity|].
      unfold render. cbn [onRender]. destruct (onRender s); exact He.
    + match goal with |- context [physicsSteps upd ?s1] => set (s1' := s1) end.
      destruct (physicsSteps_drains upd s1' e He) as (k & s2 & Hr & He2 & _).
      rewrite Hr. cbn [JS.bind]. eexists. exists (ticksOf upd k e).
      split; [reflexivity|].
      unfold render. destruct (onRender s2); exact He2.
  - exists s, e. split; [reflexivity | exact He].
Qed.

(** X7.  With an engine installed, nothing a client does can make the
    scheduler raise: any sequence of calls and frames that never installs a
    [null] engine runs to its end, and an engine is still installed then. *)
Theorem no_raise_with_engine (cs : list (Session.Call Engine)) :
  forall (s : State Engine) (e : Engine),
  engine s = Some e ->
  forallb Session.keepsEngine cs = true ->
  exists s' e', Session.performAll upd cs s = JS.Normal s' /\
    engine s' = Some e'.
Proof.
  induction cs as [|c cs IH]; intros s e He Hk.
  - exists s, e. split; [reflexivity | exact He].
  - cbn [forallb] in Hk. apply andb_true_iff in Hk as [Hc Hcs].
    assert (H1 : exists s1 e1,
      Session.perform upd c s = JS.Normal s1 /\ engine s1 = Some e1).
    { destruct c as [[e0|] r rs now | [e0|] | | | now | now | | | t];
        cbn [Session.keepsEngine] in Hc; try discriminate;
        cbn [Session.perform].
      - eexists. exists e0. split; reflexivity.
      - eexists. exists e0. split; reflexivity.
      - eexists. exists e. split; [reflexivity|].
        unfold start. destruct (isRunning s); exact He.
      - eexists. exists e. split; [reflexivity|].
        unfold pause. destruct (isRunning s); exact He.
      - eexists. exists e. split; [reflexivity|].
        unfold resume. destruct (isRunning s); exact He.
      - eexists. exists e. split; [reflexivity|].
        unfold togglePause, pause, resume. cbn [snd].
        destruct (isPaused s), (isRunning s); exact He.
      - eexists. exists (upd e SIM_CONFIG.fixedDelta). split; [reflexivity|].
        unfold step. rewrite He. unfold render, pause.
        destruct (isPaused s), (isRunning s); cbn [negb]; sim_fields;
          destruct (onRender s); reflexivity.
      - eexists. exists e. split; [reflexivity|].
        unfold reset. cbn [onReset]. destruct (onReset s); exact He.
      - apply (loop_returns s e t He). }
    destruct H1 as (s1 & e1 & Hp & He1).
    cbn [Session.performAll]. rewrite Hp. cbn [JS.bind].
    apply (IH s1 e1 He1 Hcs).
Qed.

End SessionProperties.

Lemma paused_frame_integrates_nothing_witness :
  let s := Simulator.pause (Simulator.start Sample.initialised) in
  exists s', Simulator.loop Sample.Engine_update 1000 s = JS.Normal s' /\
    Simulator.engine s' = Simulator.engine s /\
    Simulator.tickCount s' = Simulator.tickCount s /\
    Simulator.accumulator s' = Simulator.accumulator s /\
    Simulator.engineUpdates (Simulator.trace s')
    = Simulator.engineUpdates (Simulator.trace s) /\
    Simulator.lastTime s' = 1000 /\
    Simulator.isRunning s' = true /\ Simulator.isPaused s' = true /\
    Simulator.trace s' =
      Simulator.trace s
      ++ (if Simulator.onRender s
          then [Simulator.Render (Simulator.engine s)
                  {| Simulator.info_fps := Simulator.fps s';
                     Simulator.info_tickCount := Simulator.tickCount s;
                     Simulator.info_isPaused := true;
                     Simulator.info_isRunning := true |}]
          else [])
      ++ [Simulator.RequestAnimationFrame].
Proof.
  apply (paused_frame_integrates_nothing Sample.Engine_update
           (Simulator.pause (Simulator.start Sample.initialised)) 1000);
    reflexivity.
Defined.

Lemma frame_at_most_five_ticks_witness :
  let s := Simulator.setLastTime _ 1000 (Simulator.start Sample.initialised) in
  exists s', Simulator.loop Sample.Engine_update 2000 s = JS.Normal s' /\
    (Simulator.tickCount s' <= Simulator.tickCount s + 5)%nat /\
    (length (Simulator.engineUpdates (Simulator.trace s'))
       <= length (Simulator.engineUpdates (Simulator.trace s)) + 5)%nat /\
    Simulator.accumulator s' < Simulator.SIM_CONFIG.fixedDelta.
Proof.
  eexists. split; [vm_compute; reflexivity|].
  apply (frame_at_most_five_ticks Sample.Engine_update
           (Simulator.setLastTime _ 1000 (Simulator.start Sample.initialised))
           _ 2000).
  - reflexivity.
  - vm_compute. reflexivity.
Defined.

Lemma scheduler_invariants_witness :
  exists s',
    Session.performAll Sample.Engine_update
      [Session.Init (Some 0%nat) true true 0; Session.Start;
       Session.Frame 1000; Session.Frame 1100; Session.Pause; Session.Step;
       Session.Frame 1150; Session.Resume 1200; Session.Frame 1250;
       Session.Reset; Session.Step]
      (Simulator.initial Sample.Engine) = JS.Normal s' /\
    (Simulator.isPaused s' = true -> Simulator.isRunning s' = true) /\
    Simulator.accumulator s' < Simulator.SIM_CONFIG.fixedDelta /\
    Forall (fun d => d = Simulator.SIM_CONFIG.fixedDelta)
      (Simulator.engineUpdates (Simulator.trace s')) /\
    (Simulator.tickCount s'
       <= length (Simulator.engineUpdates (Simulator.trace s')))%nat.
Proof.
  eexists. split; [vm_compute; reflexivity|].
  apply (scheduler_invariants Sample.Engine_update
    [Session.Init (Some 0%nat) true true 0; Session.Start;
     Session.Frame 1000; Session.Frame 1100; Session.Pause; Session.Step;
     Session.Frame 1150; Session.Resume 1200; Session.Frame 1250;
     Session.Reset; Session.Step]).
  vm_compute. reflexivity.
Defined.

Lemma null_engine_frame_raises_when_tick_due_witness :
  let s :=
    Simulator.setLastTime _ 1000
      (Simulator.start
         (Simulator.init None true true 0 (Simulator.initial Sample.Engine))) in
  let last :=
    if JS.eqb (Simulator.lastTime s) 0 then 1100 else Simulator.lastTime s in
  (Simulator.SIM_CONFIG.fixedDelta
     <= Simulator.accumulator s + Simulator.capped (1100 - last) ->
     Simulator.loop Sample.Engine_update 1100 s
     = JS.Throw (JS.TypeError "Cannot read properties of null")) /\
  (Simulator.accumulator s + Simulator.capped (1100 - last)
     < Simulator.SIM_CONFIG.fixedDelta ->
     exists s', Simulator.loop Sample.Engine_update 1100 s = JS.Normal s' /\
       Simulator.accumulator s'
       = Simulator.accumulator s + Simulator.capped (1100 - last) /\
       Simulator.tickCount s' = Simulator.tickCount s /\
       Simulator.engineUpdates (Simulator.trace s')
       = Simulator.engineUpdates (Simulator.trace s)).
Proof.
  apply (null_engine_frame_raises_when_tick_due Sample.Engine_update
    (Simulator.setLastTime _ 1000
       (Simulator.start
          (Simulator.init None true true 0 (Simulator.initial Sample.Engine))))
    1100); reflexivity.
Defined.

Lemma paused_time_is_discarded_witness :
  let s := Simulator.setLastTime _ 1000 (Simulator.start Sample.initialised) in
  exists s1 k s2,
    Simulator.runFrames Sample.Engine_update [1100; 1200]%Q (Simulator.pause s)
    = JS.Normal s1 /\
    Simulator.loop Sample.Engine_update 5020 (Simulator.resume 5000 s1)
    = JS.Normal s2 /\
    Simulator.engine s2
    = Some (Simulator.ticksOf Sample.Engine_update k 0%nat) /\
    Simulator.tickCount s2 = (Simulator.tickCount s + k)%nat /\
    Simulator.accumulator s2 + Simulator.ofNat k * Simulator.SIM_CONFIG.fixedDelta
      == Simulator.accumulator s + Simulator.capped (5020 - 5000) /\
    0 <= Simulator.accumulator s2 /\
    Simulator.accumulator s2 < Simulator.SIM_CONFIG.fixedDelta.
Proof.
  apply (paused_time_is_discarded Sample.Engine_update
    (Simulator.setLastTime _ 1000 (Simulator.start Sample.initialised))
    0%nat [1100; 1200]%Q 5000 5020); try reflexivity; discriminate.
Defined.

Lemma no_raise_with_engine_witness :
  exists s' e',
    Session.performAll Sample.Engine_update
      [Session.Start; Session.Frame 1000; Session.Frame 3000;
       Session.TogglePause 3010; Session.Frame 3020; Session.Step;
       Session.SetEngine (Some 7%nat); Session.Reset; Session.Start;
       Session.Frame 4000; Session.Frame 4100]
      Sample.initialised = JS.Normal s' /\
    Simulator.engine s' = Some e'.
Proof.
  apply (no_raise_with_engine Sample.Engine_update
    [Session.Start; Session.Frame 1000; Session.Frame 3000;
     Session.TogglePause 3010; Session.Frame 3020; Session.Step;
     Session.SetEngine (Some 7%nat); Session.Reset; Session.Start;
     Session.Frame 4000; Session.Frame 4100]
    Sample.initialised 0%nat); reflexivity.
Defined.

(** ** The control panel *)

Section ControlsProperties.

Context {Engine : Type} (upd : Engine -> Q -> Engine).
Import Simulator.

(** X8.  The Step button on an installed engine: whatever state the
    simulator is in, stopped, running or paused, it ends up running and
    paused (the status display reads Paused) after exactly one integrator
    call with the fixed tick size and one more tick counted. *)
Theorem handleStep_single_tick_paused (s : State Engine) (e : Engine) :
  engine s = Some e ->
  let s' := Controls.handleStep upd s in
  isRunning s' = true /\ isPaused s' = true /\
  Controls.statusText s' = "Paused" /\
  engine s' = Some (upd e SIM_CONFIG.fixedDelta) /\
  tickCount s' = S (tickCount s) /\
  engineUpdates (trace s')
  = engineUpdates (trace s) ++ [SIM_CONFIG.fixedDelta].
Proof.
  intros He. unfold Controls.handleStep, Controls.statusText, getIsRunning,
    getIsPaused, step, start, pause, render.
  destruct (isRunning s) eqn:Hrun, (isPaused s) eqn:Hp; cbn [negb];
    sim_fields; rewrite ?He, ?Hrun, ?Hp; cbn [negb]; sim_fields;
    rewrite ?Hrun, ?Hp; cbn [negb]; sim_fields;
    destruct (onRender s); sim_fields;
    rewrite ?engineUpdates_app; cbn [engineUpdates flat_map];
    rewrite ?app_nil_r, ?Hrun, ?Hp; cbn [negb];
    repeat split; reflexivity.
Qed.

(** X9.  The Pause button cycles the status display: a running simulation
    becomes paused, and a paused or stopped one becomes running; the
    simulator is never left stopped. *)
Theorem handlePause_cycles_status (now : Q) (s : State Engine) :
  isRunning (Controls.handlePause now s) = true /\
  Controls.statusText (Controls.handlePause now s)
  = (if isRunning s && negb (isPaused s) then "Paused" else "Running") /\
  tickCount (Controls.handlePause now s) = tickCount s /\
  engine (Controls.handlePause now s) = engine s.
Proof.
  unfold Controls.handlePause, Controls.statusText, getIsRunning, getIsPaused,
    togglePause, start, pause, resume.
  destruct (isRunning s) eqn:Hrun, (isPaused s) eqn:Hp; cbn [negb andb snd];
    rewrite ?Hrun, ?Hp; cbn [negb]; sim_fields; rewrite ?Hrun, ?Hp;
    repeat split; reflexivity.
Qed.


End ControlsProperties.

Lemma handleStep_single_tick_paused_witness :
  let s' := Controls.handleStep Sample.Engine_update Sample.initialised in
  Simulator.isRunning s' = true /\ Simulator.isPaused s' = true /\
  Controls.statusText s' = "Paused" /\
  Simulator.engine s'
  = Some (Sample.Engine_update 0%nat Simulator.SIM_CONFIG.fixedDelta) /\
  Simulator.tickCount s' = S (Simulator.tickCount Sample.initialised) /\
  Simulator.engineUpdates (Simulator.trace s')
  = Simulator.engineUpdates (Simulator.trace Sample.initialised)
    ++ [Simulator.SIM_CONFIG.fixedDelta].
Proof.
  apply (handleStep_single_tick_paused Sample.Engine_update Sample.initialised
           0%nat).
  reflexivity.
Defined.
(** ** The AI controllers *)

Lemma clampHorizontalVelocity_bound (b : Matter.Body) (m : Q) :
  0 <= m ->
  Qabs (Vector.x (Matter.velocity (AIBrain.clampHorizontalVelocity b m))) <= m.
Proof.
  intros Hm. unfold AIBrain.clampHorizontalVelocity.
  destruct (JS.gtb _ _) eqn:E.
  - cbn [Matter.Body_setVelocity Matter.velocity Vector.x].
    unfold JS.Math_sign.
    destruct (JS.gtb (Vector.x (Matter.velocity b)) 0);
      [|destruct (JS.ltb (Vector.x (Matter.velocity b)) 0)];
      apply Qabs_Qle_condition; split; lra.
  - apply gtb_false in E. exact E.
Qed.

Lemma clampHorizontalVelocity_rest (b : Matter.Body) (m : Q) :
  Matter.force (AIBrain.clampHorizontalVelocity b m) = Matter.force b /\
  Matter.torque (AIBrain.clampHorizontalVelocity b m) = Matter.torque b /\
  Matter.position (AIBrain.clampHorizontalVelocity b m) = Matter.position b.
Proof.
  unfold AIBrain.clampHorizontalVelocity. destruct (JS.gtb _ _); auto.
Qed.

Lemma clampHorizontalVelocity_applyForce (b : Matter.Body) (p f : Vector.t)
    (m : Q) :
  Matter.velocity (AIBrain.clampHorizontalVelocity (Matter.Body_applyForce b p f) m)
  = Matter.velocity (AIBrain.clampHorizontalVelocity b m).
Proof.
  unfold AIBrain.clampHorizontalVelocity.
  cbn [Matter.Body_applyForce Matter.velocity].
  destruct (JS.gtb _ _); reflexivity.
Qed.

(** X11.  After the evaluation of an enabled controller the pelvis and the
    torso of its fighter move horizontally no faster than [maxVx], whatever
    the thresholds, the forces and the speeds before, as long as [maxVx] is
    not negative. *)
Theorem ai_tick_clamps_horizontal_speed (Math_sqrt : Q -> Q)
    (cfg : AIBrain.Config) (h : list Fighter.t) (ai : AIBrain.AI)
    (index : nat) (dbg : AIBrain.DebugState) (a : nat) (r rt : Ragdoll.t) :
  AIBrain.enabled ai = true ->
  AIBrain.fighter ai = Some a ->
  Fighter.ragdollOf h (Some a) = Some r ->
  Fighter.ragdollOf h (AIBrain.target ai) = Some rt ->
  0 <= AIBrain.maxVx cfg ->
  let out := AIBrain.processAITick Math_sqrt cfg ai index h dbg in
  exists r',
    Fighter.ragdollOf out.1.2 (Some a) = Some r' /\
    Qabs (Vector.x (Matter.velocity (Ragdoll.Bodies.pelvis (Ragdoll.bodies r'))))
      <= AIBrain.maxVx cfg /\
    Qabs (Vector.x (Matter.velocity (Ragdoll.Bodies.torso (Ragdoll.bodies r'))))
      <= AIBrain.maxVx cfg.
Proof.
  intros He Hf Hr Ht Hm out.
  apply ragdollOf_Some in Hr. destruct Hr as (fo & Hd & Hl & Hr).
  unfold out, AIBrain.processAITick.
  rewrite Hf, Hd, Ht, Hr, He. cbn [negb].
  match goal with |- context [AIBrain.nextState ?c ?d ?s] =>
    destruct (AIBrain.nextState c d s) end;
    cbn [AIBrain.setState AIBrain.state fst snd];
    rewrite writeBack_lookup by assumption;
    (eexists; split; [reflexivity|]);
    cbn [Ragdoll.setBodies Ragdoll.bodies Ragdoll.Bodies.setTorso
         Ragdoll.Bodies.setPelvis Ragdoll.Bodies.pelvis Ragdoll.Bodies.torso];
    split; apply clampHorizontalVelocity_bound; exact Hm.
Qed.

Lemma ai_tick_clamps_horizontal_speed_witness :
  let h := Fighter.heap (Main.store Sample.spawned) in
  let ai := Sample.controller AIBrain.IDLE true in
  let out :=
    AIBrain.processAITick Sample.Math_sqrt AIBrain.AI_CONFIG ai 0 h
      Sample.noDebug in
  exists r',
    Fighter.ragdollOf out.1.2 (Some 0%nat) = Some r' /\
    Qabs (Vector.x (Matter.velocity (Ragdoll.Bodies.pelvis (Ragdoll.bodies r'))))
      <= AIBrain.maxVx AIBrain.AI_CONFIG /\
    Qabs (Vector.x (Matter.velocity (Ragdoll.Bodies.torso (Ragdoll.bodies r'))))
      <= AIBrain.maxVx AIBrain.AI_CONFIG.
Proof.
  intros h ai out.
  edestruct (ai_tick_clamps_horizontal_speed Sample.Math_sqrt AIBrain.AI_CONFIG
               h ai 0 Sample.noDebug 0) as (r' & H);
    [reflexivity | reflexivity | reflexivity | reflexivity | discriminate | ].
  exists r'. exact H.
Defined.

(** X12.  An evaluation that ends in APPROACH pushes the fighter towards its
    target: [moveForce] is added to the horizontal force on the pelvis and
    half of it to the torso, pointing right when the target's pelvis lies to
    the right and left otherwise; no vertical force and no torque is added,
    and the velocity is only clamped, not damped. *)
Theorem ai_approach_pushes_toward_target (Math_sqrt : Q -> Q)
    (cfg : AIBrain.Config) (h : list Fighter.t) (ai : AIBrain.AI)
    (index : nat) (dbg : AIBrain.DebugState) (a : nat) (r rt : Ragdoll.t) :
  AIBrain.enabled ai = true ->
  AIBrain.fighter ai = Some a ->
  Fighter.ragdollOf h (Some a) = Some r ->
  Fighter.ragdollOf h (AIBrain.target ai) = Some rt ->
  let out := AIBrain.processAITick Math_sqrt cfg ai index h dbg in
  AIBrain.state out.1.1 = AIBrain.APPROACH ->
  let pelvis := Ragdoll.Bodies.pelvis (Ragdoll.bodies r) in
  let torso := Ragdoll.Bodies.torso (Ragdoll.bodies r) in
  let dx :=
    Vector.x (Matter.position (Ragdoll.Bodies.pelvis (Ragdoll.bodies rt)))
    - Vector.x (Matter.position pelvis) in
  let push := AIBrain.moveForce cfg * (if JS.gtb dx 0 then 1 else -1) in
  exists r',
    Fighter.ragdollOf out.1.2 (Some a) = Some r' /\
    let pelvis' := Ragdoll.Bodies.pelvis (Ragdoll.bodies r') in
    let torso' := Ragdoll.Bodies.torso (Ragdoll.bodies r') in
    Vector.x (Matter.force pelvis') = Vector.x (Matter.force pelvis) + push /\
    Vector.x (Matter.force torso')
    = Vector.x (Matter.force torso) + push * (5 / 10) /\
    Vector.y (Matter.force pelvis') == Vector.y (Matter.force pelvis) /\
    Vector.y (Matter.force torso') == Vector.y (Matter.force torso) /\
    Matter.torque pelvis' == Matter.torque pelvis /\
    Matter.torque torso' == Matter.torque torso /\
    Matter.velocity pelvis'
    = Matter.velocity (AIBrain.clampHorizontalVelocity pelvis (AIBrain.maxVx cfg)) /\
    Matter.velocity torso'
    = Matter.velocity (AIBrain.clampHorizontalVelocity torso (AIBrain.maxVx cfg)) /\
    AIBrain.forceApplied out.2 = push /\
    (0 <= AIBrain.moveForce cfg -> 0 <= push * dx).
Proof.
  intros He Hf Hr Ht out Hst pelvis torso dx push.
  apply ragdollOf_Some in Hr. destruct Hr as (fo & Hd & Hl & Hr).
  subst out. unfold AIBrain.processAITick in Hst |- *.
  rewrite Hf, Hd, Ht, Hr, He in Hst |- *. cbn [negb] in Hst |- *.
  fold pelvis torso in Hst |- *. fold dx in Hst |- *.
  match type of Hst with context [AIBrain.nextState ?c ?d ?s] =>
    destruct (AIBrain.nextState c d s) end;
    cbn [AIBrain.setState AIBrain.state fst snd] in *; [discriminate|].
  rewrite writeBack_lookup by assumption.
  eexists. split; [reflexivity|].
  cbn [Ragdoll.setBodies Ragdoll.bodies Ragdoll.Bodies.setTorso
       Ragdoll.Bodies.setPelvis Ragdoll.Bodies.pelvis Ragdoll.Bodies.torso].
  fold push.
  destruct (clampHorizontalVelocity_rest
              (Matter.Body_applyForce pelvis (Matter.position pelvis)
                 (Vector.make push 0)) (AIBrain.maxVx cfg)) as (Hpf & Hpt & _).
  destruct (clampHorizontalVelocity_rest
              (Matter.Body_applyForce torso (Matter.position torso)
                 (Vector.make (push * (5 / 10)) 0)) (AIBrain.maxVx cfg))
    as (Htf & Htt & _).
  rewrite Hpf, Hpt, Htf, Htt.
  cbn [Matter.Body_applyForce Matter.force Matter.torque Vector.x Vector.y].
  repeat (split; [first [reflexivity | ring
                         | apply clampHorizontalVelocity_applyForce]|]).
  intros Hmf. unfold push.
  destruct (JS.gtb dx 0) eqn:E.
  - apply gtb_true in E. nra.
  - apply gtb_false in E. nra.
Qed.

Lemma ai_approach_pushes_toward_target_witness :
  let h := Fighter.heap (Main.store Sample.spawned) in
  let ai := Sample.controller AIBrain.IDLE true in
  let out :=
    AIBrain.processAITick Sample.Math_sqrt AIBrain.AI_CONFIG ai 0 h
      Sample.noDebug in
  exists r r',
    Fighter.ragdollOf h (Some 0%nat) = Some r /\
    AIBrain.state out.1.1 = AIBrain.APPROACH /\
    Fighter.ragdollOf out.1.2 (Some 0%nat) = Some r' /\
    Vector.x (Matter.force (Ragdoll.Bodies.pelvis (Ragdoll.bodies r')))
    = Vector.x (Matter.force (Ragdoll.Bodies.pelvis (Ragdoll.bodies r)))
      + AIBrain.moveForce AIBrain.AI_CONFIG * 1 /\
    AIBrain.forceApplied out.2 = AIBrain.moveForce AIBrain.AI_CONFIG * 1.
Proof.
  intros h ai out.
  eexists.
  edestruct (ai_approach_pushes_toward_target Sample.Math_sqrt AIBrain.AI_CONFIG
               h ai 0 Sample.noDebug 0)
    as (r' & Hr' & Hpx & _ & _ & _ & _ & _ & _ & _ & Hfa & _);
    [reflexivity | reflexivity | reflexivity | reflexivity | reflexivity | ].
  exists r'. split; [reflexivity|]. split; [reflexivity|].
  split; [exact Hr'|]. split; [exact Hpx | exact Hfa].
Defined.
Lemma map_insert_same {A B : Type} (g : A -> B) (h : list A) :
  forall (a : nat) (fo x : A),
  h !! a = Some fo -> g x = g fo -> map g (<[a := x]> h) = map g h.
Proof.
  induction h as [|y h IH]; intros a fo x Hl Hg; [reflexivity|].
  destruct a as [|a].
  - cbn in Hl. injection Hl as ->.
    change (<[0%nat := x]> (fo :: h)) with (x :: h).
    cbn [map]. rewrite Hg. reflexivity.
  - change (<[S a := x]> (y :: h)) with (y :: <[a := x]> h).
    change ((y :: h) !! S a) with (h !! a) in Hl.
    cbn [map]. rewrite (IH a fo x Hl Hg). reflexivity.
Qed.

(** Writing back a pelvis and a torso that agree with the old ones under
    [g] changes no segment under [g], at any address. *)
Lemma writeBack_segments {B : Type} (g : Matter.Body -> B) (h : list Fighter.t)
    (a : nat) (fo : Fighter.t) (r : Ragdoll.t) (p t : Matter.Body) (a' : nat) :
  h !! a = Some fo -> Fighter.ragdoll fo = Some r ->
  g p = g (Ragdoll.Bodies.pelvis (Ragdoll.bodies r)) ->
  g t = g (Ragdoll.Bodies.torso (Ragdoll.bodies r)) ->
  map g (Fighter.segments (AIBrain.writeBack h a fo r p t) a')
  = map g (Fighter.segments h a').
Proof.
  intros Hl Hr Hp Ht.
  unfold Fighter.segments. destruct (decide (a' = a)) as [->|Hne].
  - rewrite writeBack_lookup by assumption.
    unfold Fighter.ragdollOf, Fighter.deref. rewrite Hl, Hr.
    cbn. rewrite Hp, Ht. reflexivity.
  - rewrite writeBack_other by assumption. reflexivity.
Qed.

Lemma ragdollOf_None_pelvisOf (h : list Fighter.t) (f : option nat) :
  Fighter.pelvisOf h f = None <-> Fighter.ragdollOf h f = None.
Proof.
  unfold Fighter.pelvisOf. destruct (Fighter.ragdollOf h f); split;
    intros; congruence.
Qed.

(** X13.  An evaluation touches nothing but the velocity and the force of
    the fighter it controls: every other fighter object is left as it is,
    no fighter is added or removed, no segment of any fighter changes its
    position, and no fighter changes its id, name or spawn point.  When the
    controlled fighter or the target has no pelvis, the evaluation does
    nothing at all. *)
Theorem ai_tick_touches_only_own_fighter (Math_sqrt : Q -> Q)
    (cfg : AIBrain.Config) (ai : AIBrain.AI) (index : nat)
    (h : list Fighter.t) (dbg : AIBrain.DebugState) :
  let out := AIBrain.processAITick Math_sqrt cfg ai index h dbg in
  length out.1.2 = length h /\
  (forall a' : nat, AIBrain.fighter ai <> Some a' -> out.1.2 !! a' = h !! a') /\
  (forall a' : nat,
     map Matter.position (Fighter.segments out.1.2 a')
     = map Matter.position (Fighter.segments h a')) /\
  map (fun f => (Fighter.id f, Fighter.name f, Fighter.spawnPoint f)) out.1.2
  = map (fun f => (Fighter.id f, Fighter.name f, Fighter.spawnPoint f)) h /\
  (Fighter.pelvisOf h (AIBrain.fighter ai) = None \/
   Fighter.pelvisOf h (AIBrain.target ai) = None -> out = (ai, h, dbg)).
Proof.
  cbn zeta. unfold AIBrain.processAITick.
  destruct (Fighter.deref h (AIBrain.fighter ai)) as [[a fo]|] eqn:Hd.
  2:{ cbn [fst snd]. repeat split; auto. }
  destruct (Fighter.ragdollOf h (AIBrain.target ai)) as [rt|] eqn:Ht.
  2:{ cbn [fst snd]. repeat split; auto. }
  destruct (Fighter.ragdoll fo) as [r|] eqn:Hr.
  2:{ cbn [fst snd]. repeat split; auto. }
  pose proof Hd as Hd0.
  apply deref_Some in Hd. destruct Hd as [Hf Hl].
  assert (Hpel : Fighter.pelvisOf h (AIBrain.fighter ai) <> None).
  { unfold Fighter.pelvisOf, Fighter.ragdollOf. rewrite Hd0, Hr. discriminate. }
  assert (Htgt : Fighter.pelvisOf h (AIBrain.target ai) <> None).
  { unfold Fighter.pelvisOf. rewrite Ht. discriminate. }
  assert (Hgen : forall p t,
    Matter.position p = Matter.position (Ragdoll.Bodies.pelvis (Ragdoll.bodies r)) ->
    Matter.position t = Matter.position (Ragdoll.Bodies.torso (Ragdoll.bodies r)) ->
    let h' := AIBrain.writeBack h a fo r p t in
    length h' = length h /\
    (forall a' : nat, AIBrain.fighter ai <> Some a' -> h' !! a' = h !! a') /\
    (forall a' : nat,
       map Matter.position (Fighter.segments h' a')
       = map Matter.position (Fighter.segments h a')) /\
    map (fun f => (Fighter.id f, Fighter.name f, Fighter.spawnPoint f)) h'
    = map (fun f => (Fighter.id f, Fighter.name f, Fighter.spawnPoint f)) h).
  { intros p t Hp Hq h'. unfold h'. split; [|split; [|split]].
    - unfold AIBrain.writeBack. apply length_insert.
    - intros a' Hne. unfold AIBrain.writeBack.
      apply list_lookup_insert_ne. congruence.
    - intros a'. apply writeBack_segments; assumption.
    - unfold AIBrain.writeBack. apply (map_insert_same _ h a fo); [exact Hl|].
      reflexivity. }
  destruct (AIBrain.enabled ai); cbn [negb].
  - match goal with |- context [AIBrain.nextState ?c ?d ?s] =>
      destruct (AIBrain.nextState c d s) end;
      cbn [AIBrain.setState AIBrain.state fst snd];
      (split; [|split; [|split; [|split]]]);
      try (apply Hgen;
           rewrite (proj2 (proj2 (clampHorizontalVelocity_rest _ _)));
           reflexivity);
      intros [H|H]; contradiction.
  - cbn [fst snd].
    (split; [|split; [|split; [|split]]]);
      try (apply Hgen; reflexivity);
      intros [H|H]; contradiction.
Qed.

Lemma processAITick_positions (sq : Q -> Q) (cfg : AIBrain.Config)
    (ai : AIBrain.AI) (index : nat) (h : list Fighter.t)
    (dbg : AIBrain.DebugState) (a' : nat) :
  map Matter.position
    (Fighter.segments (AIBrain.processAITick sq cfg ai index h dbg).1.2 a')
  = map Matter.position (Fighter.segments h a').
Proof.
  unfold AIBrain.processAITick.
  destruct (Fighter.deref h (AIBrain.fighter ai)) as [[a fo]|] eqn:Hd; [|cbn; auto].
  destruct (Fighter.ragdollOf h (AIBrain.target ai)) as [rt|]; [|cbn; auto].
  destruct (Fighter.ragdoll fo) as [r|] eqn:Hr; [|cbn; auto].
  apply deref_Some in Hd. destruct Hd as [_ Hl].
  destruct (AIBrain.enabled ai); cbn [negb].
  - match goal with |- context [AIBrain.nextState ?c ?d ?s] =>
      destruct (AIBrain.nextState c d s) end;
    cbn [AIBrain.setState AIBrain.state fst snd];
    apply writeBack_segments; try assumption;
    rewrite (proj2 (proj2 (clampHorizontalVelocity_rest _ _))); reflexivity.
  - cbn [fst snd]. apply writeBack_segments; try assumption; reflexivity.
Qed.

(** An evaluation never changes whom a controller steers, whom it targets
    and whether it is enabled. *)
Lemma processAITick_controller (sq : Q -> Q) (cfg : AIBrain.Config)
    (ai : AIBrain.AI) (index : nat) (h : list Fighter.t)
    (dbg : AIBrain.DebugState) :
  let ai' := (AIBrain.processAITick sq cfg ai index h dbg).1.1 in
  AIBrain.fighter ai' = AIBrain.fighter ai /\
  AIBrain.target ai' = AIBrain.target ai /\
  AIBrain.enabled ai' = AIBrain.enabled ai.
Proof.
  cbn zeta. unfold AIBrain.processAITick.
  destruct (Fighter.deref h (AIBrain.fighter ai)) as [[a fo]|]; [|cbn; auto].
  destruct (Fighter.ragdollOf h (AIBrain.target ai)) as [rt|]; [|cbn; auto].
  destruct (Fighter.ragdoll fo) as [r|]; [|cbn; auto].
  destruct (AIBrain.enabled ai) eqn:He; cbn [negb]; [|cbn; auto].
  match goal with |- context [AIBrain.nextState ?c ?d ?s] =>
    destruct (AIBrain.nextState c d s) end; cbn; auto.
Qed.

Lemma forEachAI_keeps (sq : Q -> Q) (cfg : AIBrain.Config)
    (m : list (string * AIBrain.AI)) :
  forall (index : nat) (h : list Fighter.t) (dbg : AIBrain.DebugState),
  let out := AIBrain.forEachAI sq cfg m index h dbg in
  map fst out.1.1 = map fst m /\
  map (fun kv => (AIBrain.fighter kv.2, AIBrain.target kv.2, AIBrain.enabled kv.2))
      out.1.1
  = map (fun kv => (AIBrain.fighter kv.2, AIBrain.target kv.2, AIBrain.enabled kv.2))
      m /\
  length out.1.2 = length h /\
  (forall a' : nat,
     map Matter.fixedPart (Fighter.segments out.1.2 a')
     = map Matter.fixedPart (Fighter.segments h a') /\
     map Matter.position (Fighter.segments out.1.2 a')
     = map Matter.position (Fighter.segments h a') /\
     Fighter.joints out.1.2 a' = Fighter.joints h a').
Proof.
  induction m as [|[k ai] m IH]; intros index h dbg; cbn zeta.
  - cbn. repeat split; reflexivity.
  - cbn [AIBrain.forEachAI].
    pose proof (processAITick_controller sq cfg ai index h dbg) as Hc.
    pose proof (fun a' => processAITick_positions sq cfg ai index h dbg a') as Hf.
    pose proof (fun a' => processAITick_topology sq cfg ai index h dbg a') as Ht.
    destruct (AIBrain.processAITick sq cfg ai index h dbg) as [[ai' h1] dbg1].
    cbn [fst snd] in Hc, Hf, Ht.
    specialize (IH (S index) h1 dbg1). cbn zeta in IH.
    destruct (AIBrain.forEachAI sq cfg m (S index) h1 dbg1) as [[m' h2] dbg2].
    cbn [fst snd] in IH |- *.
    destruct IH as (IH1 & IH2 & IH3 & IH4).
    destruct Hc as (Hc1 & Hc2 & Hc3).
    cbn [map fst snd]. rewrite IH1, IH2, Hc1, Hc2, Hc3.
    repeat split; try reflexivity.
    + rewrite IH3. apply (Ht 0%nat).
    + rewrite (proj1 (IH4 a')). apply (Ht a').
    + rewrite (proj1 (proj2 (IH4 a'))). apply (Hf a').
    + rewrite (proj2 (proj2 (IH4 a'))). apply (Ht a').
Qed.

(** X14.  A round of the tick timer over all controllers keeps the registry
    as it is: the same fighter ids in the same order, each controller with
    the fighter, the target and the enabled flag it had; it allocates and
    frees no fighter, moves no segment, and changes no joint and no fixed
    property of a segment. *)
Theorem processAllAI_keeps_registry (Math_sqrt : Q -> Q) (cfg : AIBrain.Config)
    (h : list Fighter.t) (s : AIBrain.Module_) :
  let out := AIBrain.processAllAI Math_sqrt cfg h s in
  map fst (AIBrain.aiInstances out.2) = map fst (AIBrain.aiInstances s) /\
  map (fun kv => (AIBrain.fighter kv.2, AIBrain.target kv.2, AIBrain.enabled kv.2))
      (AIBrain.aiInstances out.2)
  = map (fun kv => (AIBrain.fighter kv.2, AIBrain.target kv.2, AIBrain.enabled kv.2))
      (AIBrain.aiInstances s) /\
  AIBrain.tickTimer out.2 = AIBrain.tickTimer s /\
  length out.1 = length h /\
  (forall a' : nat,
     map Matter.fixedPart (Fighter.segments out.1 a')
     = map Matter.fixedPart (Fighter.segments h a') /\
     map Matter.position (Fighter.segments out.1 a')
     = map Matter.position (Fighter.segments h a') /\
     Fighter.joints out.1 a' = Fighter.joints h a').
Proof.
  cbn zeta. unfold AIBrain.processAllAI.
  pose proof (forEachAI_keeps Math_sqrt cfg (AIBrain.aiInstances s) 0 h
                (AIBrain.debugState s)) as H.
  cbn zeta in H.
  destruct (AIBrain.forEachAI Math_sqrt cfg (AIBrain.aiInstances s) 0 h
              (AIBrain.debugState s)) as [[m h1] dbg1].
  cbn [fst snd AIBrain.aiInstances AIBrain.tickTimer] in H |- *.
  destruct H as (H1 & H2 & H3 & H4).
  repeat split; try assumption; apply H4.
Qed.

(** ** The registry of controllers *)

Lemma Map_get_set_eq (k : string) (v : AIBrain.AI) (m : list (string * AIBrain.AI)) :
  AIBrain.Map_get k (AIBrain.Map_set k v m) = Some v.
Proof.
  induction m as [|[k' v'] m IH]; cbn.
  - rewrite String.eqb_refl. reflexivity.
  - destruct (String.eqb k k') eqn:E; cbn.
    + rewrite String.eqb_refl. reflexivity.
    + rewrite E. exact IH.
Qed.

Lemma Map_get_set_ne (k k0 : string) (v : AIBrain.AI)
    (m : list (string * AIBrain.AI)) :
  k0 <> k ->
  AIBrain.Map_get k0 (AIBrain.Map_set k v m) = AIBrain.Map_get k0 m.
Proof.
  intros Hne. induction m as [|[k' v'] m IH]; cbn.
  - apply String.eqb_neq in Hne. rewrite Hne. reflexivity.
  - destruct (String.eqb k k') eqn:E; cbn.
    + apply String.eqb_eq in E. subst k'.
      apply String.eqb_neq in Hne. rewrite Hne. reflexivity.
    + destruct (String.eqb k0 k'); [reflexivity | exact IH].
Qed.

Lemma Map_set_length (k : string) (v : AIBrain.AI) (m : list (string * AIBrain.AI)) :
  length (AIBrain.Map_set k v m)
  = match AIBrain.Map_get k m with
    | Some _ => length m
    | None => S (length m)
    end.
Proof.
  induction m as [|[k' v'] m IH]; cbn; [reflexivity|].
  destruct (String.eqb k k'); cbn; [reflexivity|].
  rewrite IH. destruct (AIBrain.Map_get k m); reflexivity.
Qed.

Lemma Map_get_delete_eq (k : string) (m : list (string * AIBrain.AI)) :
  AIBrain.Map_get k (AIBrain.Map_delete k m) = None.
Proof.
  unfold AIBrain.Map_delete.
  induction m as [|[k' v'] m IH]; cbn; [reflexivity|].
  destruct (String.eqb k k') eqn:E; cbn; [exact IH|].
  rewrite E. exact IH.
Qed.

Lemma Map_get_delete_ne (k k0 : string) (m : list (string * AIBrain.AI)) :
  k0 <> k ->
  AIBrain.Map_get k0 (AIBrain.Map_delete k m) = AIBrain.Map_get k0 m.
Proof.
  intros Hne. unfold AIBrain.Map_delete.
  induction m as [|[k' v'] m IH]; cbn; [reflexivity|].
  destruct (String.eqb k k') eqn:E; cbn.
  - apply String.eqb_eq in E. subst k'.
    apply String.eqb_neq in Hne. rewrite Hne. exact IH.
  - destruct (String.eqb k0 k'); [reflexivity | exact IH].
Qed.

(** X15.  [createAI] registers the controller under the id of its fighter:
    looking that id up returns the new controller, enabled and in IDLE;
    every other id is looked up as before; a controller already registered
    under the id is replaced, so that the registry grows by one only for a
    new id.  Removing the id afterwards makes the lookup fail again. *)
Theorem createAI_registers (h : list Fighter.t) (a : nat) (f : Fighter.t)
    (target : option nat) (s : AIBrain.Module_) :
  h !! a = Some f ->
  exists ai s',
    AIBrain.createAI h (Some a) target s = JS.Normal (ai, s') /\
    AIBrain.getAIState (Fighter.id f) s' = Some ai /\
    AIBrain.fighter ai = Some a /\ AIBrain.target ai = target /\
    AIBrain.state ai = AIBrain.IDLE /\ AIBrain.enabled ai = true /\
    (forall k, k <> Fighter.id f ->
       AIBrain.getAIState k s' = AIBrain.getAIState k s) /\
    length (AIBrain.aiInstances s')
    = match AIBrain.getAIState (Fighter.id f) s with
      | Some _ => length (AIBrain.aiInstances s)
      | None => S (length (AIBrain.aiInstances s))
      end /\
    AIBrain.getAIState (Fighter.id f) (AIBrain.removeAI (Fighter.id f) s') = None /\
    (forall k, k <> Fighter.id f ->
       AIBrain.getAIState k (AIBrain.removeAI (Fighter.id f) s')
       = AIBrain.getAIState k s).
Proof.
  intros Hl. unfold AIBrain.createAI, Fighter.deref. rewrite Hl.
  eexists. eexists. split; [reflexivity|].
  unfold AIBrain.getAIState, AIBrain.removeAI.
  cbn [AIBrain.setInstances AIBrain.aiInstances AIBrain.fighter AIBrain.target
       AIBrain.state AIBrain.enabled].
  split; [apply Map_get_set_eq|].
  repeat (split; [reflexivity|]).
  split; [intros k Hk; apply Map_get_set_ne; exact Hk|].
  split; [apply Map_set_length|].
  split; [apply Map_get_delete_eq|].
  intros k Hk. rewrite Map_get_delete_ne by exact Hk.
  apply Map_get_set_ne. exact Hk.
Qed.

Lemma createAI_registers_witness :
  let h := Fighter.heap (Main.store Sample.spawned) in
  exists f ai s',
    h !! 0%nat = Some f /\
    AIBrain.createAI h (Some 0%nat) (Some 1%nat) AIBrain.initial
    = JS.Normal (ai, s') /\
    AIBrain.getAIState (Fighter.id f) s' = Some ai /\
    AIBrain.state ai = AIBrain.IDLE /\ AIBrain.enabled ai = true /\
    length (AIBrain.aiInstances s') = 1%nat.
Proof.
  intros h.
  destruct (h !! 0%nat) as [f|] eqn:E; [|discriminate].
  destruct (createAI_registers h 0 f (Some 1%nat) AIBrain.initial E)
    as (ai & s' & Hc & Hg & _ & _ & Hst & Hen & _ & Hlen & _).
  exists f, ai, s'. split; [reflexivity|].
  split; [exact Hc|]. split; [exact Hg|]. split; [exact Hst|].
  split; [exact Hen | exact Hlen].
Defined.

Lemma Map_set_set (k : string) (v v1 v2 : AIBrain.AI)
    (m : list (string * AIBrain.AI)) :
  AIBrain.Map_get k m = Some v ->
  AIBrain.Map_set k v2 (AIBrain.Map_set k v1 m) = AIBrain.Map_set k v2 m.
Proof.
  induction m as [|[k' v'] m IH]; cbn; [discriminate|].
  destruct (String.eqb k k') eqn:E; cbn.
  - rewrite String.eqb_refl. reflexivity.
  - rewrite E. intros H. rewrite (IH H). reflexivity.
Qed.

Lemma Map_set_get (k : string) (v : AIBrain.AI) (m : list (string * AIBrain.AI)) :
  AIBrain.Map_get k m = Some v -> AIBrain.Map_set k v m = m.
Proof.
  induction m as [|[k' v'] m IH]; cbn; [discriminate|].
  destruct (String.eqb k k') eqn:E.
  - apply String.eqb_eq in E. subst k'. intros [= ->]. reflexivity.
  - intros H. rewrite (IH H). reflexivity.
Qed.

Lemma Map_set_keys (k : string) (v v1 : AIBrain.AI)
    (m : list (string * AIBrain.AI)) :
  AIBrain.Map_get k m = Some v ->
  map fst (AIBrain.Map_set k v1 m) = map fst m.
Proof.
  induction m as [|[k' v'] m IH]; cbn; [discriminate|].
  destruct (String.eqb k k') eqn:E; cbn.
  - apply String.eqb_eq in E. subst k'. reflexivity.
  - intros H. rewrite (IH H). reflexivity.
Qed.

(** X16.  [toggleAI] flips the enabled flag of the controller registered
    under the id and returns the new flag; for an id that is not registered
    it returns [false] and changes nothing.  Toggling twice restores the
    registry exactly, and a toggle changes the registration of no other
    id. *)
Theorem toggleAI_twice_restores (k : string) (s : AIBrain.Module_) :
  (AIBrain.toggleAI k (AIBrain.toggleAI k s).2).2 = s /\
  (AIBrain.toggleAI k s).1
  = match AIBrain.getAIState k s with
    | Some ai => negb (AIBrain.enabled ai)
    | None => false
    end /\
  AIBrain.getAIState k (AIBrain.toggleAI k s).2
  = option_map (fun ai => AIBrain.setEnabled (negb (AIBrain.enabled ai)) ai)
      (AIBrain.getAIState k s) /\
  (forall k0, k0 <> k ->
     AIBrain.getAIState k0 (AIBrain.toggleAI k s).2 = AIBrain.getAIState k0 s) /\
  map fst (AIBrain.aiInstances (AIBrain.toggleAI k s).2)
  = map fst (AIBrain.aiInstances s).
Proof.
  unfold AIBrain.toggleAI, AIBrain.getAIState.
  destruct (AIBrain.Map_get k (AIBrain.aiInstances s)) as [ai|] eqn:E;
    cbn [fst snd AIBrain.setInstances AIBrain.aiInstances option_map].
  - rewrite Map_get_set_eq.
    cbn [fst snd AIBrain.setInstances AIBrain.aiInstances AIBrain.setEnabled
         AIBrain.enabled AIBrain.fighter AIBrain.target AIBrain.state
         AIBrain.lastDistance AIBrain.tickTimer AIBrain.tickCallback
         AIBrain.debugState].
    split; [|split; [reflexivity|split; [reflexivity|split]]].
    + rewrite (Map_set_set k ai) by exact E.
      rewrite negb_involutive.
      unfold AIBrain.setEnabled, AIBrain.setInstances.
      cbn [AIBrain.enabled AIBrain.fighter AIBrain.target AIBrain.state
           AIBrain.lastDistance AIBrain.tickTimer AIBrain.tickCallback
           AIBrain.debugState AIBrain.aiInstances].
      replace {| AIBrain.fighter := AIBrain.fighter ai;
                 AIBrain.target := AIBrain.target ai;
                 AIBrain.state := AIBrain.state ai;
                 AIBrain.enabled := AIBrain.enabled ai;
                 AIBrain.lastDistance := AIBrain.lastDistance ai |}
        with ai by (destruct ai; reflexivity).
      rewrite (Map_set_get k ai) by exact E.
      destruct s; reflexivity.
    + intros k0 Hk0. apply Map_get_set_ne. exact Hk0.
    + apply (Map_set_keys k ai). exact E.
  - rewrite E. cbn [fst snd]. repeat split; reflexivity.
Qed.
(** ** Distances and impacts *)

Lemma Sample_Math_sqrt_proper (p q : Q) :
  p == q -> Sample.Math_sqrt p == Sample.Math_sqrt q.
Proof.
  intros H. unfold Sample.Math_sqrt. rewrite (Qfloor_comp _ _ H). reflexivity.
Qed.



(** ** The impact display *)

Section ImpactProperties.

Context {Engine : Type} (sq : Q -> Q) (now : nat -> Q).
Import ImpactState.

Lemma Math_round_ge (q : Q) (z : Z) :
  inject_Z z <= q -> inject_Z z <= Math_round q.
Proof.
  intros H. unfold Math_round. rewrite <- Zle_Qle.
  rewrite <- (Qfloor_Z z). apply Qfloor_resp_le.
  apply (Qle_trans _ q); [exact H|].
  change (1 / 2) with (1 # 2). lra.
Qed.

(** What one pair adds to the display. *)
Lemma onPair_adds (s : State Engine) (pair : ImpactTracker.Pair) :
  let s' := onPair sq now s pair in
  showImpacts s' = showImpacts s /\
  engine s' = engine s /\
  (clock s <= clock s')%nat /\
  exists added,
    floatingNumbers s' = floatingNumbers s ++ added /\
    (length (floatingNumbers s) + length added
       <= Nat.max (length (floatingNumbers s))
                  ImpactTracker.IMPACT_CONFIG.maxFloatingNumbers)%nat /\
    Forall (fun fn =>
              FloatingNumber.opacity fn = 1 /\
              FloatingNumber.vy fn = - (15 / 10) /\
              ImpactTracker.IMPACT_CONFIG.minImpact <= FloatingNumber.value fn /\
              (exists z, FloatingNumber.value fn = inject_Z z) /\
              (exists n, (clock s <= n < clock s')%nat /\
                         FloatingNumber.createdAt fn = now n))
           added.
Proof.
  cbn zeta. unfold onPair.
  destruct (ImpactTracker.shouldIgnore pair).
  { repeat split; try lia. exists []. rewrite app_nil_r.
    repeat split; [cbn; lia | constructor]. }
  destruct (JS.ltb _ _) eqn:Hlt.
  { repeat split; try lia. exists []. rewrite app_nil_r.
    repeat split; [cbn; lia | constructor]. }
  apply ltb_false in Hlt.
  destruct (length (floatingNumbers s) <? _)%nat eqn:Hcap;
    cbn [floatingNumbers showImpacts engine clock].
  - apply Nat.ltb_lt in Hcap.
    repeat split; try lia.
    eexists. split; [reflexivity|]. split; [cbn [length]; lia|].
    constructor; [|constructor].
    cbn [FloatingNumber.new FloatingNumber.opacity FloatingNumber.vy
         FloatingNumber.value FloatingNumber.createdAt].
    repeat split.
    + apply (Math_round_ge _ 50). exact Hlt.
    + eexists. reflexivity.
    + exists (clock s). split; [lia | reflexivity].
  - repeat split; try lia. exists []. rewrite app_nil_r.
    repeat split; [cbn; lia | constructor].
Qed.

Lemma fold_onPair_adds (pairs : list ImpactTracker.Pair) :
  forall s : State Engine,
  let s' := fold_left (onPair sq now) pairs s in
  showImpacts s' = showImpacts s /\
  engine s' = engine s /\
  (clock s <= clock s')%nat /\
  exists added,
    floatingNumbers s' = floatingNumbers s ++ added /\
    (length (floatingNumbers s) + length added
       <= Nat.max (length (floatingNumbers s))
                  ImpactTracker.IMPACT_CONFIG.maxFloatingNumbers)%nat /\
    Forall (fun fn =>
              FloatingNumber.opacity fn = 1 /\
              FloatingNumber.vy fn = - (15 / 10) /\
              ImpactTracker.IMPACT_CONFIG.minImpact <= FloatingNumber.value fn /\
              (exists z, FloatingNumber.value fn = inject_Z z) /\
              (exists n, (clock s <= n < clock s')%nat /\
                         FloatingNumber.createdAt fn = now n))
           added.
Proof.
  induction pairs as [|pair pairs IH]; intros s; cbn zeta.
  - cbn [fold_left]. repeat split; try lia. exists []. rewrite app_nil_r.
    repeat split; [cbn; lia | constructor].
  - cbn [fold_left].
    destruct (onPair_adds s pair) as (Hs1 & He1 & Hc1 & add1 & Hf1 & Hl1 & Ha1).
    destruct (IH (onPair sq now s pair)) as (Hs2 & He2 & Hc2 & add2 & Hf2 & Hl2 & Ha2).
    cbn zeta in *.
    repeat split; try congruence; try lia.
    exists (add1 ++ add2).
    split; [rewrite Hf2, Hf1, app_assoc; reflexivity|].
    split.
    + rewrite Hf1 in Hl2. rewrite length_app in *. lia.
    + apply Forall_app. split.
      * eapply List.Forall_impl; [|exact Ha1].
        intros fn (H1 & H2 & H3 & H4 & n & Hn & H5).
        repeat split; try assumption. exists n. split; [lia | exact H5].
      * eapply List.Forall_impl; [|exact Ha2].
        intros fn (H1 & H2 & H3 & H4 & n & Hn & H5).
        repeat split; try assumption. exists n. split; [lia | exact H5].
Qed.

(** X18.  The display never holds more than [maxFloatingNumbers] = 20
    numbers: a collision event only appends numbers, and stops appending at
    the limit.  Every number it appends starts fully opaque, rises by 1.5
    per frame and shows a whole number that is at least [minImpact]. *)
Theorem floating_numbers_capped (pairs : list ImpactTracker.Pair)
    (s : State Engine) :
  (length (floatingNumbers s)
     <= ImpactTracker.IMPACT_CONFIG.maxFloatingNumbers)%nat ->
  let s' := onCollisionStart sq now pairs s in
  (length (floatingNumbers s')
     <= ImpactTracker.IMPACT_CONFIG.maxFloatingNumbers)%nat /\
  showImpacts s' = showImpacts s /\
  exists added,
    floatingNumbers s' = floatingNumbers s ++ added /\
    Forall (fun fn =>
              FloatingNumber.opacity fn = 1 /\
              FloatingNumber.vy fn = - (15 / 10) /\
              ImpactTracker.IMPACT_CONFIG.minImpact <= FloatingNumber.value fn /\
              exists z, FloatingNumber.value fn = inject_Z z)
           added.
Proof.
  intros Hcap. cbn zeta. unfold onCollisionStart.
  destruct (showImpacts s) eqn:Hshow; cbn [negb].
  - destruct (fold_onPair_adds pairs s) as (Hs & _ & _ & added & Hf & Hl & Ha).
    cbn zeta in *.
    split; [rewrite Hf, length_app; lia|].
    split; [congruence|].
    exists added. split; [exact Hf|].
    eapply List.Forall_impl; [|exact Ha].
    intros fn (H1 & H2 & H3 & H4 & _). auto.
  - split; [exact Hcap|]. split; [exact Hshow|].
    exists []. rewrite app_nil_r. split; [reflexivity | constructor].
Qed.

(** X19.  A collision event leaves no trace, neither a number nor a history
    entry nor a reading of the clock, when the display is switched off or
    when each of its pairs is ignored or scores below [minImpact]. *)
Theorem quiet_collisions_leave_no_trace (pairs : list ImpactTracker.Pair)
    (s : State Engine) :
  showImpacts s = false \/
  Forall (fun pair =>
            ImpactTracker.shouldIgnore pair = true \/
            ImpactTracker.calculateImpact sq pair
              < ImpactTracker.IMPACT_CONFIG.minImpact) pairs ->
  onCollisionStart sq now pairs s = s.
Proof.
  intros H. unfold onCollisionStart.
  destruct (showImpacts s) eqn:Hshow; cbn [negb]; [|reflexivity].
  destruct H as [H|H]; [discriminate|].
  clear Hshow. induction H as [|pair pairs Hp _ IH]; [reflexivity|].
  cbn [fold_left].
  assert (E : onPair sq now s pair = s).
  { unfold onPair. destruct Hp as [Hp|Hp].
    - rewrite Hp. reflexivity.
    - destruct (ImpactTracker.shouldIgnore pair); [reflexivity|].
      apply ltb_true in Hp. rewrite Hp. reflexivity. }
  rewrite E. exact IH.
Qed.

Lemma Forall2_In_r {A B : Type} (R : A -> B -> Prop) (l : list A) (k : list B) :
  Forall2 R l k -> forall b, In b k -> exists a, In a l /\ R a b.
Proof.
  induction 1 as [|a b l k Hab _ IH]; intros b0 Hin; [destruct Hin|].
  destruct Hin as [<-|Hin].
  - exists a. split; [left; reflexivity | exact Hab].
  - destruct (IH b0 Hin) as (a0 & Ha0 & Hr). exists a0.
    split; [right; exact Ha0 | exact Hr].
Qed.

Lemma updateEach_spec (l : list FloatingNumber.t) :
  forall n : nat,
  (updateEach now l n).2 = (n + length l)%nat /\
  Forall2 (fun fn fn' =>
             exists k, (n <= k < n + length l)%nat /\
                       fn' = FloatingNumber.update (now k) fn)
          l (updateEach now l n).1.
Proof.
  induction l as [|fn l IH]; intros n; cbn [updateEach length].
  - split; [cbn; lia | constructor].
  - destruct (IH (S n)) as [H1 H2].
    destruct (updateEach now l (S n)) as [l1 n1]. cbn [fst snd] in *.
    split; [lia|].
    constructor.
    + exists n. split; [lia | reflexivity].
    + eapply Forall2_impl; [exact H2|].
      intros a b (k & Hk & E). exists k. split; [lia | exact E].
Qed.

Lemma dropExpired_spec (l : list FloatingNumber.t) :
  forall n : nat,
  (dropExpired now l n).2 = (n + length l)%nat /\
  (length (dropExpired now l n).1 <= length l)%nat /\
  Forall (fun fn =>
            In fn l /\
            exists k, (n <= k < n + length l)%nat /\
                      FloatingNumber.isExpired (now k) fn = false)
         (dropExpired now l n).1.
Proof.
  induction l as [|fn l IH]; intros n; cbn [dropExpired length].
  - repeat split; [cbn; lia | cbn; lia | constructor].
  - destruct (IH (S n)) as (H1 & H2 & H3).
    destruct (dropExpired now l (S n)) as [l1 n1]. cbn [fst snd] in *.
    split; [lia|].
    assert (H3' : Forall (fun fn0 =>
              In fn0 (fn :: l) /\
              exists k, (n <= k < n + S (length l))%nat /\
                        FloatingNumber.isExpired (now k) fn0 = false) l1).
    { eapply List.Forall_impl; [|exact H3].
      intros a (Hin & k & Hk & E). split; [right; exact Hin|].
      exists k. split; [lia | exact E]. }
    destruct (FloatingNumber.isExpired (now n) fn) eqn:E; cbn [negb length].
    + split; [lia | exact H3'].
    + split; [lia|]. constructor; [|exact H3'].
      split; [left; reflexivity|]. exists n. split; [lia | exact E].
Qed.

(** X20.  One call of [updateImpacts] under a clock that never runs
    backwards: no number is added; every number that stays has risen by its
    speed and kept its place, value, colour and creation time; its opacity
    lies between 0 and 1 (provided it was created no later than the clock
    now shows); and it is at most [floatDuration] old by the clock at the
    start of the call. *)
Theorem updateImpacts_fades_and_rises (dt : Q) (s : State Engine) :
  (forall i j : nat, (i <= j)%nat -> now i <= now j) ->
  Forall (fun fn => FloatingNumber.createdAt fn <= now (clock s))
         (floatingNumbers s) ->
  let s' := updateImpacts now dt s in
  (length (floatingNumbers s') <= length (floatingNumbers s))%nat /\
  clock s' = (clock s + 2 * length (floatingNumbers s))%nat /\
  impactHistory s' = impactHistory s /\
  Forall (fun fn' =>
            (exists fn, In fn (floatingNumbers s) /\
               FloatingNumber.y fn' = FloatingNumber.y fn + FloatingNumber.vy fn /\
               FloatingNumber.x fn' = FloatingNumber.x fn /\
               FloatingNumber.value fn' = FloatingNumber.value fn /\
               FloatingNumber.color fn' = FloatingNumber.color fn /\
               FloatingNumber.createdAt fn' = FloatingNumber.createdAt fn /\
               FloatingNumber.vy fn' = FloatingNumber.vy fn) /\
            0 <= FloatingNumber.opacity fn' /\
            FloatingNumber.opacity fn' <= 1 /\
            now (clock s) - FloatingNumber.createdAt fn'
              <= ImpactTracker.IMPACT_CONFIG.floatDuration)
         (floatingNumbers s').
Proof.
  intros Hmono Hcreated. cbn zeta. unfold updateImpacts.
  destruct (updateEach_spec (floatingNumbers s) (clock s)) as [Hn1 Hu].
  destruct (updateEach now (floatingNumbers s) (clock s)) as [l1 n1].
  cbn [fst snd] in Hn1, Hu.
  destruct (dropExpired_spec l1 n1) as (Hn2 & Hlen & Hd).
  destruct (dropExpired now l1 n1) as [l2 n2].
  cbn [fst snd] in Hn2, Hlen, Hd.
  cbn [floatingNumbers clock impactHistory].
  assert (Hl1 : length l1 = length (floatingNumbers s)).
  { symmetry. eapply Forall2_length. exact Hu. }
  split; [lia|]. split; [lia|]. split; [reflexivity|].
  eapply List.Forall_impl; [|exact Hd].
  intros fn' (Hin & k2 & Hk2 & Hexp).
  destruct (Forall2_In_r _ _ _ Hu fn' Hin) as (fn & Hinf & k1 & Hk1 & ->).
  pose proof (proj1 (List.Forall_forall _ _) Hcreated fn Hinf) as Hc.
  unfold FloatingNumber.isExpired in Hexp. apply gtb_false in Hexp.
  cbn [FloatingNumber.update FloatingNumber.createdAt FloatingNumber.y
       FloatingNumber.x FloatingNumber.value FloatingNumber.color
       FloatingNumber.vy FloatingNumber.opacity] in *.
  assert (H01 : now (clock s) <= now k1) by (apply Hmono; lia).
  assert (H12 : now k1 <= now k2) by (apply Hmono; lia).
  assert (Hfd : ImpactTracker.IMPACT_CONFIG.floatDuration == 1500) by reflexivity.
  split; [exists fn; repeat split; assumption|].
  assert (Hprog : (now k1 - FloatingNumber.createdAt fn)
                    / ImpactTracker.IMPACT_CONFIG.floatDuration <= 1).
  { apply Qle_shift_div_r; [reflexivity|]. lra. }
  assert (Hprog0 : 0 <= (now k1 - FloatingNumber.createdAt fn)
                         / ImpactTracker.IMPACT_CONFIG.floatDuration).
  { apply Qle_shift_div_l; [reflexivity|]. lra. }
  repeat split; lra.
Qed.

End ImpactProperties.

Lemma floating_numbers_capped_witness :
  let s := ImpactState.initial Sample.Engine in
  let s' :=
    ImpactState.onCollisionStart Sample.Math_sqrt Scenario.clock
      [Scenario.hit; Scenario.graze; Scenario.hit] s in
  (length (ImpactState.floatingNumbers s')
     <= ImpactTracker.IMPACT_CONFIG.maxFloatingNumbers)%nat /\
  ImpactState.showImpacts s' = ImpactState.showImpacts s /\
  exists added,
    ImpactState.floatingNumbers s' = ImpactState.floatingNumbers s ++ added /\
    Forall (fun fn =>
              ImpactState.FloatingNumber.opacity fn = 1 /\
              ImpactState.FloatingNumber.vy fn = - (15 / 10) /\
              ImpactTracker.IMPACT_CONFIG.minImpact
                <= ImpactState.FloatingNumber.value fn /\
              exists z, ImpactState.FloatingNumber.value fn = inject_Z z)
           added.
Proof.
  apply (floating_numbers_capped Sample.Math_sqrt Scenario.clock
           [Scenario.hit; Scenario.graze; Scenario.hit]
           (ImpactState.initial Sample.Engine)).
  cbn. lia.
Defined.

Lemma quiet_collisions_leave_no_trace_witness :
  ImpactState.onCollisionStart Sample.Math_sqrt Scenario.clock
    [Scenario.graze] Scenario.tracker
  = Scenario.tracker.
Proof.
  apply (quiet_collisions_leave_no_trace Sample.Math_sqrt Scenario.clock
           [Scenario.graze] Scenario.tracker).
  right. apply List.Forall_cons; [right; reflexivity | apply List.Forall_nil].
Defined.

Lemma Scenario_clock_monotone (i j : nat) :
  (i <= j)%nat -> Scenario.clock i <= Scenario.clock j.
Proof.
  intros H. unfold Scenario.clock, Simulator.ofNat.
  apply Qmult_le_compat_r; [|discriminate].
  rewrite <- Zle_Qle. lia.
Qed.

Lemma updateImpacts_fades_and_rises_witness :
  let s := Scenario.tracker in
  let s' := ImpactState.updateImpacts Scenario.clock (1667 / 100) s in
  (length (ImpactState.floatingNumbers s')
     <= length (ImpactState.floatingNumbers s))%nat /\
  ImpactState.clock s'
  = (ImpactState.clock s + 2 * length (ImpactState.floatingNumbers s))%nat /\
  ImpactState.impactHistory s' = ImpactState.impactHistory s /\
  Forall (fun fn' =>
            (exists fn, In fn (ImpactState.floatingNumbers s) /\
               ImpactState.FloatingNumber.y fn'
               = ImpactState.FloatingNumber.y fn
                 + ImpactState.FloatingNumber.vy fn /\
               ImpactState.FloatingNumber.x fn'
               = ImpactState.FloatingNumber.x fn /\
               ImpactState.FloatingNumber.value fn'
               = ImpactState.FloatingNumber.value fn /\
               ImpactState.FloatingNumber.color fn'
               = ImpactState.FloatingNumber.color fn /\
               ImpactState.FloatingNumber.createdAt fn'
               = ImpactState.FloatingNumber.createdAt fn /\
               ImpactState.FloatingNumber.vy fn'
               = ImpactState.FloatingNumber.vy fn) /\
            0 <= ImpactState.FloatingNumber.opacity fn' /\
            ImpactState.FloatingNumber.opacity fn' <= 1 /\
            Scenario.clock (ImpactState.clock s)
              - ImpactState.FloatingNumber.createdAt fn'
              <= ImpactTracker.IMPACT_CONFIG.floatDuration)
         (ImpactState.floatingNumbers s').
Proof.
  apply (updateImpacts_fades_and_rises Scenario.clock (1667 / 100)
           Scenario.tracker).
  - exact Scenario_clock_monotone.
  - repeat constructor; vm_compute; discriminate.
Defined.
(** ** Which collisions count *)

Lemma createRagdoll_tracked (circleArea : Q -> Q) (x y : Q)
    (options : Ragdoll.Options.t) :
  exists r,
    Ragdoll.createRagdoll circleArea x y options = JS.Normal r /\
    Forall (fun b =>
              Matter.isStatic b = false /\
              ImpactTracker.includes ImpactTracker.IMPACT_CONFIG.ignoreLabels
                (Matter.label b) = false)
           (Ragdoll.Bodies.values (Ragdoll.bodies r)).
Proof.
  eexists. split; [reflexivity|].
  cbn [Ragdoll.Bodies.values Ragdoll.bodies Ragdoll.Bodies.head
       Ragdoll.Bodies.torso Ragdoll.Bodies.pelvis
       Ragdoll.Bodies.leftUpperArm Ragdoll.Bodies.leftLowerArm
       Ragdoll.Bodies.leftHand Ragdoll.Bodies.rightUpperArm
       Ragdoll.Bodies.rightLowerArm Ragdoll.Bodies.rightHand
       Ragdoll.Bodies.leftUpperLeg Ragdoll.Bodies.leftLowerLeg
       Ragdoll.Bodies.leftFoot Ragdoll.Bodies.rightUpperLeg
       Ragdoll.Bodies.rightLowerLeg Ragdoll.Bodies.rightFoot].
  repeat constructor.
Qed.

(** X21.  The impact tracker scores every contact between segments of
    ragdolls, whatever their position and configuration: no segment is
    static or carries a label of the ignore list.  It ignores every contact
    with an arena wall: the four walls are static and carry exactly the
    ignored labels. *)
Theorem segment_contacts_tracked_walls_ignored (circleArea : Q -> Q)
    (x1 y1 x2 y2 : Q) (o1 o2 : Ragdoll.Options.t) :
  (exists r1 r2,
     Ragdoll.createRagdoll circleArea x1 y1 o1 = JS.Normal r1 /\
     Ragdoll.createRagdoll circleArea x2 y2 o2 = JS.Normal r2 /\
     forall p q,
       In p (Ragdoll.Bodies.values (Ragdoll.bodies r1)) ->
       In q (Ragdoll.Bodies.values (Ragdoll.bodies r2)) ->
       ImpactTracker.shouldIgnore
         {| ImpactTracker.bodyA := p; ImpactTracker.bodyB := q |} = false) /\
  map World.label (World.walls World.createArenaBounds)
  = ImpactTracker.IMPACT_CONFIG.ignoreLabels /\
  Forall (fun w => World.isStatic w = true)
         (World.walls World.createArenaBounds) /\
  (forall (w : World.Wall) (pair : ImpactTracker.Pair),
     In w (World.walls World.createArenaBounds) ->
     Matter.label (ImpactTracker.bodyA pair) = World.label w \/
     Matter.label (ImpactTracker.bodyB pair) = World.label w ->
     ImpactTracker.shouldIgnore pair = true).
Proof.
  split; [|split; [reflexivity|split; [repeat constructor|]]].
  - destruct (createRagdoll_tracked circleArea x1 y1 o1) as (r1 & H1 & F1).
    destruct (createRagdoll_tracked circleArea x2 y2 o2) as (r2 & H2 & F2).
    exists r1, r2. split; [exact H1|]. split; [exact H2|].
    intros p q Hp Hq.
    destruct (proj1 (List.Forall_forall _ _) F1 p Hp) as [Hps Hpl].
    destruct (proj1 (List.Forall_forall _ _) F2 q Hq) as [Hqs Hql].
    unfold ImpactTracker.shouldIgnore.
    cbn [ImpactTracker.bodyA ImpactTracker.bodyB].
    rewrite Hps, Hqs, Hpl, Hql. reflexivity.
  - intros w pair Hw Hl.
    assert (Hin : ImpactTracker.includes ImpactTracker.IMPACT_CONFIG.ignoreLabels
                    (World.label w) = true).
    { cbn in Hw. destruct Hw as [<-|[<-|[<-|[<-|[]]]]]; reflexivity. }
    unfold ImpactTracker.shouldIgnore.
    destruct (ImpactTracker.IMPACT_CONFIG.ignoreStatic && _); [reflexivity|].
    destruct Hl as [Hl|Hl]; rewrite Hl, Hin; [reflexivity|].
    destruct (ImpactTracker.includes _ (Matter.label (ImpactTracker.bodyA pair)));
      reflexivity.
Qed.

(** ** The skeleton *)

Ltac ragdoll_fields :=
  cbn [Ragdoll.Bodies.values Ragdoll.bodies Ragdoll.constraints Ragdoll.config
       Ragdoll.Bodies.get Ragdoll.bodyA Ragdoll.bodyB Ragdoll.pointA
       Ragdoll.pointB
       Ragdoll.Bodies.head Ragdoll.Bodies.torso Ragdoll.Bodies.pelvis
       Ragdoll.Bodies.leftUpperArm Ragdoll.Bodies.leftLowerArm
       Ragdoll.Bodies.leftHand Ragdoll.Bodies.rightUpperArm
       Ragdoll.Bodies.rightLowerArm Ragdoll.Bodies.rightHand
       Ragdoll.Bodies.leftUpperLeg Ragdoll.Bodies.leftLowerLeg
       Ragdoll.Bodies.leftFoot Ragdoll.Bodies.rightUpperLeg
       Ragdoll.Bodies.rightLowerLeg Ragdoll.Bodies.rightFoot
       Matter.Bodies_circle Matter.Bodies_rectangle Matter.create
       Matter.position Matter.shape Matter.fixedPart Matter.label Matter.mass
       Matter.isStatic Matter.density Matter.collisionFilter
       Geometry.pointAWorld Geometry.pointBWorld Vector.x Vector.y].

(** X22.  The skeleton is built in one piece: for every position and every
    configuration, the two anchors of each joint fall on the same point,
    except at the neck, where the head floats four scaled units above the
    torso, and at the shoulders, where each arm starts two scaled units
    outside the torso. *)
Theorem skeleton_joints_meet (circleArea : Q -> Q) (x y : Q)
    (options : Ragdoll.Options.t) :
  exists r,
    Ragdoll.createRagdoll circleArea x y options = JS.Normal r /\
    let s := Ragdoll.Config.scale (Ragdoll.config r) in
    Forall (fun c =>
              let a := Geometry.pointAWorld (Ragdoll.bodies r) c in
              let b := Geometry.pointBWorld (Ragdoll.bodies r) c in
              match Ragdoll.bodyA c, Ragdoll.bodyB c with
              | Ragdoll.Handle.head, Ragdoll.Handle.torso =>
                  Vector.x b == Vector.x a /\ Vector.y b - Vector.y a == 4 * s
              | Ragdoll.Handle.torso, Ragdoll.Handle.leftUpperArm =>
                  Vector.y b == Vector.y a /\ Vector.x a - Vector.x b == 2 * s
              | Ragdoll.Handle.torso, Ragdoll.Handle.rightUpperArm =>
                  Vector.y b == Vector.y a /\ Vector.x b - Vector.x a == 2 * s
              | _, _ =>
                  Vector.x b == Vector.x a /\ Vector.y b == Vector.y a
              end)
           (Ragdoll.constraints r).
Proof.
  eexists. split; [reflexivity|].
  cbn zeta. ragdoll_fields.
  repeat (apply List.Forall_cons; [ragdoll_fields; split; field|]).
  apply List.Forall_nil.
Qed.

(** X23.  The spawn position only translates the figure: moving the origin
    by [(dx, dy)] moves every segment by [(dx, dy)] and changes nothing
    else, neither a shape, mass, label or collision filter, nor a joint,
    nor the configuration. *)
Theorem ragdoll_translation (circleArea : Q -> Q) (x y dx dy : Q)
    (options : Ragdoll.Options.t) :
  exists r r',
    Ragdoll.createRagdoll circleArea x y options = JS.Normal r /\
    Ragdoll.createRagdoll circleArea (x + dx) (y + dy) options = JS.Normal r' /\
    Ragdoll.constraints r' = Ragdoll.constraints r /\
    Ragdoll.config r' = Ragdoll.config r /\
    Ragdoll.composite r' = Ragdoll.composite r /\
    map Matter.fixedPart (Ragdoll.Bodies.values (Ragdoll.bodies r'))
    = map Matter.fixedPart (Ragdoll.Bodies.values (Ragdoll.bodies r)) /\
    Forall2 (fun b b' =>
               Vector.x (Matter.position b') == Vector.x (Matter.position b) + dx /\
               Vector.y (Matter.position b') == Vector.y (Matter.position b) + dy)
            (Ragdoll.Bodies.values (Ragdoll.bodies r))
            (Ragdoll.Bodies.values (Ragdoll.bodies r')).
Proof.
  eexists. eexists. split; [reflexivity|]. split; [reflexivity|].
  repeat (split; [reflexivity|]).
  ragdoll_fields.
  repeat (apply List.Forall2_cons; [ragdoll_fields; split; field|]).
  apply List.Forall2_nil.
Qed.

(** X24.  The figure is symmetric about the vertical line through its
    origin: each left arm or leg segment mirrors its right counterpart, with
    the same height, shape and mass.  The feet are the exception: both are
    set four scaled units to the right of their leg, so they mirror about a
    line four scaled units to the right. *)
Theorem ragdoll_mirror_symmetry (circleArea : Q -> Q) (x y : Q)
    (options : Ragdoll.Options.t) :
  exists r,
    Ragdoll.createRagdoll circleArea x y options = JS.Normal r /\
    let s := Ragdoll.Config.scale (Ragdoll.config r) in
    let b := Ragdoll.bodies r in
    Forall (fun lr =>
              let l := Ragdoll.Bodies.get lr.1 b in
              let r := Ragdoll.Bodies.get lr.2 b in
              Vector.x (Matter.position l) + Vector.x (Matter.position r)
                == 2 * x /\
              Vector.y (Matter.position l) = Vector.y (Matter.position r) /\
              Matter.shape l = Matter.shape r /\
              Matter.mass l = Matter.mass r)
           [ (Ragdoll.Handle.leftUpperArm, Ragdoll.Handle.rightUpperArm);
             (Ragdoll.Handle.leftLowerArm, Ragdoll.Handle.rightLowerArm);
             (Ragdoll.Handle.leftHand, Ragdoll.Handle.rightHand);
             (Ragdoll.Handle.leftUpperLeg, Ragdoll.Handle.rightUpperLeg);
             (Ragdoll.Handle.leftLowerLeg, Ragdoll.Handle.rightLowerLeg) ] /\
    Vector.x (Matter.position (Ragdoll.Bodies.leftFoot b))
      + Vector.x (Matter.position (Ragdoll.Bodies.rightFoot b))
      == 2 * (x + 4 * s) /\
    Vector.y (Matter.position (Ragdoll.Bodies.leftFoot b))
    = Vector.y (Matter.position (Ragdoll.Bodies.rightFoot b)) /\
    Matter.shape (Ragdoll.Bodies.leftFoot b)
    = Matter.shape (Ragdoll.Bodies.rightFoot b) /\
    Vector.x (Matter.position (Ragdoll.Bodies.head b)) = x /\
    Vector.x (Matter.position (Ragdoll.Bodies.torso b)) = x /\
    Vector.x (Matter.position (Ragdoll.Bodies.pelvis b)) = x /\
    Matter.position (Ragdoll.Bodies.torso b) = Vector.make x y.
Proof.
  eexists. split; [reflexivity|].
  cbn zeta. ragdoll_fields.
  split.
  - repeat (apply List.Forall_cons;
            [cbn [fst snd]; ragdoll_fields;
             split; [field | repeat split; reflexivity]|]).
    apply List.Forall_nil.
  - split; [field|]. repeat split; reflexivity.
Qed.
(** ** Fighters in the world *)

(** X25.  [respawnFighter] takes the old ragdoll out of the world and puts a
    new fighter in, with the id and name of the old one (when these are not
    empty) and the new spawn point.  It does not pass on the collision
    group: the new ragdoll is built with the default group -1 whatever
    group the old one had, so none of its segments can collide with a body
    of group -1. *)
Theorem respawn_takes_default_group (circleArea : Q -> Q) (st : Fighter.Store)
    (a : nat) (f : Fighter.t) (x y : Q) (stamp : string) :
  Fighter.heap st !! a = Some f ->
  exists a' st' f' r',
    Fighter.respawnFighter circleArea st a x y stamp = JS.Normal (a', st') /\
    a' = length (Fighter.heap st) /\
    Fighter.heap st' = Fighter.heap st ++ [f'] /\
    Fighter.world st'
    = Fighter.world (Fighter.removeFighter st (Some a)) ++ [a'] /\
    (Fighter.ragdoll f <> None -> ~ In a (Fighter.world st')) /\
    Fighter.id f' = Fighter.or_else (Some (Fighter.id f)) stamp /\
    Fighter.name f' = Fighter.or_else (Some (Fighter.name f)) "Fighter" /\
    Fighter.spawnPoint f' = Vector.make x y /\
    Fighter.ragdoll f' = Some r' /\
    Ragdoll.Config.collisionGroup (Ragdoll.config r') = (-1)%Z /\
    Forall (fun p => Matter.group (Matter.collisionFilter p) = (-1)%Z)
           (Ragdoll.Bodies.values (Ragdoll.bodies r')) /\
    (forall p q,
       In p (Ragdoll.Bodies.values (Ragdoll.bodies r')) ->
       Matter.group (Matter.collisionFilter q) = (-1)%Z ->
       Matter.Detector_canCollide (Matter.collisionFilter p)
         (Matter.collisionFilter q) = false).
Proof.
  intros Hl.
  destruct (createRagdoll_segments circleArea x y Ragdoll.Options.empty)
    as (r' & Hr & Hcfg & _ & Hall).
  assert (Hgroup : Forall (fun p => Matter.group (Matter.collisionFilter p) = (-1)%Z)
                     (Ragdoll.Bodies.values (Ragdoll.bodies r'))).
  { eapply List.Forall_impl; [|exact Hall].
    intros p (Hp & _). rewrite Hp, Hcfg. reflexivity. }
  unfold Fighter.respawnFighter.
  rewrite removeFighter_heap, Hl.
  unfold Fighter.createFighter.
  cbn [Fighter.Options.ragdollConfig Fighter.Options.id Fighter.Options.name
       default].
  rewrite Hr. cbn [JS.bind]. rewrite removeFighter_heap.
  eexists. eexists. eexists. exists r'.
  split; [reflexivity|].
  cbn [Fighter.heap Fighter.world Fighter.id Fighter.name Fighter.spawnPoint
       Fighter.ragdoll].
  split; [reflexivity|]. split; [reflexivity|]. split; [reflexivity|].
  split.
  { intros Hrag Hin. apply in_app_or in Hin. destruct Hin as [Hin|Hin].
    - unfold Fighter.removeFighter in Hin. rewrite Hl in Hin.
      destruct (Fighter.ragdoll f); [|congruence].
      unfold Fighter.removeRagdoll in Hin. cbn [Fighter.world] in Hin.
      apply filter_In in Hin. destruct Hin as [_ Hin].
      rewrite Nat.eqb_refl in Hin. discriminate.
    - destruct Hin as [Hin|[]].
      apply lookup_lt_Some in Hl. lia. }
  repeat (split; [reflexivity|]).
  split; [rewrite Hcfg; reflexivity|].
  split; [exact Hgroup|].
  intros p q Hp Hq.
  apply (canCollide_same_negative p q (-1)%Z); [lia| |exact Hq].
  exact (proj1 (List.Forall_forall _ _) Hgroup p Hp).
Qed.

Lemma respawn_takes_default_group_witness :
  let st := Main.store Sample.spawned in
  exists f a' st' f' r',
    Fighter.heap st !! 1%nat = Some f /\
    Fighter.respawnFighter Sample.circleArea st 1 630 250 "fighter_9"
    = JS.Normal (a', st') /\
    Fighter.heap st' = Fighter.heap st ++ [f'] /\
    Fighter.id f' = Fighter.id f /\
    Fighter.ragdoll f' = Some r' /\
    Forall (fun p => Matter.group (Matter.collisionFilter p) = (-1)%Z)
           (Ragdoll.Bodies.values (Ragdoll.bodies r')).
Proof.
  intros st.
  destruct (Fighter.heap st !! 1%nat) as [f|] eqn:E; [|discriminate].
  destruct (respawn_takes_default_group Sample.circleArea st 1 f 630 250
              "fighter_9" E)
    as (a' & st' & f' & r' & Hr & _ & Hh & _ & _ & Hid & _ & _ & Hrag & _ & Hg & _).
  exists f, a', st', f', r'.
  split; [reflexivity|]. split; [exact Hr|]. split; [exact Hh|].
  split; [|split; [exact Hrag | exact Hg]].
  rewrite Hid. injection E as <-. reflexivity.
Defined.

(** What [spawnFighters] builds, from any state. *)
Lemma spawnFighters_state (circleArea : Q -> Q) (s : Main.State) :
  exists s' fa fb ra rb,
    Main.spawnFighters circleArea s = JS.Normal s' /\
    let n := length (Fighter.heap (Main.store s)) in
    Main.fighterA s' = Some n /\
    Main.fighterB s' = Some (S n) /\
    Fighter.heap (Main.store s') = Fighter.heap (Main.store s) ++ [fa; fb] /\
    Fighter.ragdoll fa = Some ra /\ Fighter.ragdoll fb = Some rb /\
    Fighter.id fa = "fighter_a"%string /\ Fighter.id fb = "fighter_b"%string /\
    Fighter.world (Main.store s')
    = Fighter.world
        (Fighter.removeFighter
           (Fighter.removeFighter (Main.store s) (Main.fighterA s))
           (Main.fighterB s))
      ++ [n; S n] /\
    AIBrain.aiInstances (Main.ai s')
    = [ ("fighter_a"%string,
         {| AIBrain.fighter := Some n; AIBrain.target := Some (S n);
            AIBrain.state := AIBrain.IDLE; AIBrain.enabled := true;
            AIBrain.lastDistance := 0 |});
        ("fighter_b"%string,
         {| AIBrain.fighter := Some (S n); AIBrain.target := Some n;
            AIBrain.state := AIBrain.IDLE; AIBrain.enabled := true;
            AIBrain.lastDistance := 0 |}) ] /\
    AIBrain.tickTimer (Main.ai s') = true /\
    AIBrain.tickCallback (Main.ai s') = true.
Proof.
  unfold Main.spawnFighters, Main.getSpawnPositions.
  cbn [Vector.x Vector.y].
  set (st2 := match Main.fighterB s with Some _ => _ | None => _ end).
  assert (Hst2 : st2 = Fighter.removeFighter
                         (Fighter.removeFighter (Main.store s) (Main.fighterA s))
                         (Main.fighterB s)).
  { unfold st2. destruct (Main.fighterB s), (Main.fighterA s); reflexivity. }
  assert (Hh : Fighter.heap st2 = Fighter.heap (Main.store s)).
  { rewrite Hst2, !removeFighter_heap. reflexivity. }
  rewrite <- Hst2, <- Hh.
  set (h0 := Fighter.heap st2).
  unfold Fighter.createFighter at 1.
  cbn [Fighter.Options.ragdollConfig Fighter.Options.id Fighter.Options.name
       default from_option Datatypes.id Fighter.or_else String.eqb Ascii.eqb
       Bool.eqb].
  destruct (createRagdoll_segments circleArea (Main.ARENA.width * (3 / 10))
              (Main.ARENA.height / 2 - 50) (Main.groupOnly (-1)))
    as (ra & Hra & _).
  rewrite Hra. cbn [JS.bind].
  unfold Fighter.createFighter at 1.
  cbn [Fighter.Options.ragdollConfig Fighter.Options.id Fighter.Options.name
       default from_option Datatypes.id Fighter.or_else String.eqb Ascii.eqb
       Bool.eqb Fighter.heap Fighter.world].
  destruct (createRagdoll_segments circleArea (Main.ARENA.width * (7 / 10))
              (Main.ARENA.height / 2 - 50) (Main.groupOnly (-2)))
    as (rb & Hrb & _).
  rewrite Hrb. cbn [JS.bind Fighter.heap Fighter.world].
  fold h0.
  match goal with |- context [h0 ++ [?x]] => set (fa := x) end.
  match goal with |- context [(h0 ++ [fa]) ++ [?x]] => set (fb := x) end.
  assert (Hlen : length (h0 ++ [fa]) = S (length h0))
    by (rewrite length_app; cbn; lia).
  assert (La : ((h0 ++ [fa]) ++ [fb]) !! length h0 = Some fa).
  { rewrite lookup_app_l by (rewrite length_app; cbn; lia).
    apply list_lookup_middle. reflexivity. }
  assert (Lb : ((h0 ++ [fa]) ++ [fb]) !! length (h0 ++ [fa]) = Some fb).
  { apply list_lookup_middle. reflexivity. }
  unfold AIBrain.createAI at 1. unfold Fighter.deref at 1. rewrite La.
  cbn [JS.bind].
  unfold AIBrain.createAI at 1. unfold Fighter.deref at 1. rewrite Lb.
  cbn [JS.bind].
  eexists. exists fa, fb, ra, rb. split; [reflexivity|].
  cbn zeta.
  cbn [Main.fighterA Main.fighterB Main.store Main.ai Fighter.heap
       Fighter.world].
  rewrite Hlen.
  split; [reflexivity|]. split; [reflexivity|].
  split; [rewrite <- app_assoc; reflexivity|].
  split; [reflexivity|]. split; [reflexivity|].
  split; [reflexivity|]. split; [reflexivity|].
  split; [rewrite <- app_assoc; reflexivity|].
  unfold AIBrain.startAI, AIBrain.resetAI, AIBrain.clearAllAI, AIBrain.stopAI,
    AIBrain.setInstances.
  destruct (AIBrain.tickTimer (Main.ai s)) eqn:Et;
    cbn [AIBrain.setInstances AIBrain.aiInstances AIBrain.tickTimer
         AIBrain.tickCallback AIBrain.debugState AIBrain.Map_set Fighter.id fa fb
         String.eqb Ascii.eqb Bool.eqb];
    rewrite ?Et;
    cbn [AIBrain.aiInstances AIBrain.tickTimer AIBrain.tickCallback];
    repeat split; reflexivity.
Qed.

(** X26.  However often the fighters are respawned, the world holds exactly
    two ragdolls, those of the current fighter A and fighter B, and the
    registry holds exactly two controllers, enabled and in IDLE, each aimed
    at the other fighter, with the tick timer running.  The fighters of
    earlier spawns are no longer in the world. *)
Theorem respawns_keep_two_fighters (circleArea : Q -> Q) (n : nat) :
  exists s' fa fb ra rb,
    Sandbox.respawns circleArea n Main.initial = JS.Normal s' /\
    let a := (2 * n)%nat in
    let b := S (2 * n) in
    Main.fighterA s' = Some a /\ Main.fighterB s' = Some b /\
    length (Fighter.heap (Main.store s')) = (2 * n + 2)%nat /\
    Fighter.world (Main.store s') = [a; b] /\
    Fighter.heap (Main.store s') !! a = Some fa /\
    Fighter.heap (Main.store s') !! b = Some fb /\
    Fighter.ragdoll fa = Some ra /\ Fighter.ragdoll fb = Some rb /\
    Fighter.id fa = "fighter_a"%string /\ Fighter.id fb = "fighter_b"%string /\
    AIBrain.getAllAIStates (Main.ai s')
    = [ {| AIBrain.fighter := Some a; AIBrain.target := Some b;
           AIBrain.state := AIBrain.IDLE; AIBrain.enabled := true;
           AIBrain.lastDistance := 0 |};
        {| AIBrain.fighter := Some b; AIBrain.target := Some a;
           AIBrain.state := AIBrain.IDLE; AIBrain.enabled := true;
           AIBrain.lastDistance := 0 |} ] /\
    map fst (AIBrain.aiInstances (Main.ai s'))
    = ["fighter_a"; "fighter_b"]%string /\
    AIBrain.tickTimer (Main.ai s') = true.
Proof.
  induction n as [|n IH].
  - cbn [Sandbox.respawns].
    destruct (spawnFighters_state circleArea Main.initial)
      as (s' & fa & fb & ra & rb & Hs & Ha & Hb & Hh & Hra & Hrb & Hia & Hib
          & Hw & Hai & Ht & _).
    cbn in Ha, Hb, Hh, Hw, Hai.
    exists s', fa, fb, ra, rb. split; [exact Hs|].
    cbn zeta. unfold AIBrain.getAllAIStates.
    rewrite Ha, Hb, Hh, Hw, Hai, Ht.
    repeat split; assumption.
  - cbn [Sandbox.respawns].
    destruct IH as (s1 & fa1 & fb1 & ra1 & rb1 & Hs1 & Ha1 & Hb1 & Hlen1 & Hw1
                    & Hla1 & Hlb1 & Hra1 & Hrb1 & _).
    cbn zeta in *.
    rewrite Hs1. cbn [JS.bind]. unfold Sandbox.handleRespawn.
    destruct (spawnFighters_state circleArea s1)
      as (s' & fa & fb & ra & rb & Hs & Ha & Hb & Hh & Hra & Hrb & Hia & Hib
          & Hw & Hai & Ht & _).
    cbn zeta in *.
    assert (Hrem : Fighter.world
                     (Fighter.removeFighter
                        (Fighter.removeFighter (Main.store s1) (Main.fighterA s1))
                        (Main.fighterB s1)) = []).
    { rewrite Ha1, Hb1.
      unfold Fighter.removeFighter at 2. rewrite Hla1, Hra1.
      unfold Fighter.removeFighter.
      cbn [Fighter.removeRagdoll Fighter.heap Fighter.world].
      rewrite Hlb1, Hrb1.
      cbn [Fighter.removeRagdoll Fighter.heap Fighter.world].
      rewrite Hw1. cbn [List.filter].
      rewrite !Nat.eqb_refl.
      replace (S (2 * n) =? 2 * n)%nat with false
        by (symmetry; apply Nat.eqb_neq; lia).
      cbn [negb List.filter]. rewrite Nat.eqb_refl. reflexivity. }
    rewrite Hrem, Hlen1 in *.
    exists s', fa, fb, ra, rb. split; [exact Hs|].
    unfold AIBrain.getAllAIStates.
    rewrite Ha, Hb, Hh, Hw, Hai, Ht.
    replace (2 * S n)%nat with (2 * n + 2)%nat by lia.
    cbn [app map fst snd].
    rewrite length_app, Hlen1. cbn [length].
    split; [reflexivity|]. split; [reflexivity|].
    split; [lia|]. split; [reflexivity|].
    split.
    { rewrite <- Hlen1. replace [fa; fb] with ([fa] ++ [fb]) by reflexivity.
      rewrite lookup_app_r by lia. rewrite Nat.sub_diag. reflexivity. }
    split.
    { replace (S (2 * n + 2)) with (length (Fighter.heap (Main.store s1)) + 1)%nat
        by lia.
      rewrite lookup_app_r by lia.
      replace (length (Fighter.heap (Main.store s1)) + 1
               - length (Fighter.heap (Main.store s1)))%nat with 1%nat by lia.
      reflexivity. }
    repeat split; assumption.
Qed.
(** ** The arena *)

(** X27.  The walls enclose the arena: the floor's top face is at [floorY],
    the ceiling's bottom face at [ceilingY], and the side walls' inner faces
    are one wall thickness inside the canvas.  Whenever the fighters are
    spawned, from any state, every segment of both fighters lies strictly
    between these four faces, and fighter A lies wholly to the left of
    fighter B. *)
Theorem fighters_spawn_inside_arena (circleArea : Q -> Q) (s : Main.State) :
  let bounds := World.createArenaBounds in
  let left := Vector.x (World.bounds_max (World.leftWall bounds)) in
  let right := Vector.x (World.bounds_min (World.rightWall bounds)) in
  let top := Vector.y (World.bounds_max (World.ceiling bounds)) in
  let bottom := Vector.y (World.bounds_min (World.floor bounds)) in
  let inside (p : Matter.Body) :=
    left < Vector.x (Geometry.bounds_min p) /\
    Vector.x (Geometry.bounds_max p) < right /\
    top < Vector.y (Geometry.bounds_min p) /\
    Vector.y (Geometry.bounds_max p) < bottom in
  bottom == World.ARENA.floorY /\ top == World.ARENA.ceilingY /\
  left == World.ARENA.wallThickness /\
  right == World.ARENA.width - World.ARENA.wallThickness /\
  Main.ARENA.width = World.ARENA.width /\
  Main.ARENA.height = World.ARENA.height /\
  exists s' a b,
    Main.spawnFighters circleArea s = JS.Normal s' /\
    Main.fighterA s' = Some a /\ Main.fighterB s' = Some b /\
    let h := Fighter.heap (Main.store s') in
    Forall inside (Fighter.segments h a) /\
    Forall inside (Fighter.segments h b) /\
    (forall p q, In p (Fighter.segments h a) -> In q (Fighter.segments h b) ->
       Vector.x (Geometry.bounds_max p) < Vector.x (Geometry.bounds_min q)).
Proof.
  cbn zeta.
  repeat (split; [reflexivity|]).
  destruct (spawnFighters_returns circleArea s)
    as (s' & ra & rb & Hs & Ha & Hb & Hra & Hrb & Hca & Hcb).
  exists s', (length (Fighter.heap (Main.store s))),
         (S (length (Fighter.heap (Main.store s)))).
  split; [exact Hs|]. split; [exact Ha|]. split; [exact Hb|].
  rewrite (segments_of _ _ _ Hra), (segments_of _ _ _ Hrb).
  unfold Ragdoll.createRagdoll in Hca, Hcb.
  injection Hca as <-. injection Hcb as <-.
  cbn [Ragdoll.bodies Ragdoll.Bodies.values].
  match goal with |- Forall _ ?la /\ Forall _ ?lb /\ _ =>
    assert (HA : Forall (fun p => Vector.x (Geometry.bounds_max p) < 450) la);
    [|assert (HB : Forall (fun q => 450 < Vector.x (Geometry.bounds_min q)) lb)]
  end.
  { repeat (apply List.Forall_cons; [vm_compute; reflexivity|]).
    apply List.Forall_nil. }
  { repeat (apply List.Forall_cons; [vm_compute; reflexivity|]).
    apply List.Forall_nil. }
  split; [|split].
  - repeat (apply List.Forall_cons; [vm_compute; repeat split; reflexivity|]).
    apply List.Forall_nil.
  - repeat (apply List.Forall_cons; [vm_compute; repeat split; reflexivity|]).
    apply List.Forall_nil.
  - intros p q Hp Hq.
    pose proof (proj1 (List.Forall_forall _ _) HA p Hp) as H1.
    pose proof (proj1 (List.Forall_forall _ _) HB q Hq) as H2.
    apply (Qlt_trans _ 450); assumption.
Qed.

(** ** Angles *)

Lemma Math_PI_pos : 0 < BalanceAssist.Math_PI.
Proof. reflexivity. Qed.

(** The first loop of [normalizeAngle]. *)
Lemma lower_spec (angle : Q) :
  BalanceAssist.lower angle <= BalanceAssist.Math_PI /\
  (exists k : nat,
     BalanceAssist.lower angle
     == angle - Simulator.ofNat k * (2 * BalanceAssist.Math_PI)) /\
  (angle <= BalanceAssist.Math_PI -> BalanceAssist.lower angle = angle) /\
  (BalanceAssist.lower angle = angle \/
   - BalanceAssist.Math_PI < BalanceAssist.lower angle).
Proof.
  pose proof Math_PI_pos as Hpi.
  apply (BalanceAssist.lower_elim
    (fun angle r =>
       r <= BalanceAssist.Math_PI /\
       (exists k : nat,
          r == angle - Simulator.ofNat k * (2 * BalanceAssist.Math_PI)) /\
       (angle <= BalanceAssist.Math_PI -> r = angle) /\
       (r = angle \/ - BalanceAssist.Math_PI < r))).
  - intros a Hgt (IH1 & (k & IH2) & IH3 & IH4) _.
    split; [exact IH1|]. split; [|split].
    + exists (S k). rewrite IH2, ofNat_S. ring.
    + intros Hle. exfalso. lra.
    + right. destruct IH4 as [E|H]; [|exact H].
      rewrite E. lra.
  - intros a Hle _.
    split; [exact Hle|]. split; [|split].
    + exists 0%nat. change (Simulator.ofNat 0) with 0. ring.
    + reflexivity.
    + left. reflexivity.
Qed.

(** The second loop of [normalizeAngle]. *)
Lemma raise_spec (angle : Q) :
  - BalanceAssist.Math_PI <= BalanceAssist.raise angle /\
  (exists k : nat,
     BalanceAssist.raise angle
     == angle + Simulator.ofNat k * (2 * BalanceAssist.Math_PI)) /\
  (- BalanceAssist.Math_PI <= angle -> BalanceAssist.raise angle = angle) /\
  (angle <= BalanceAssist.Math_PI ->
   BalanceAssist.raise angle <= BalanceAssist.Math_PI).
Proof.
  pose proof Math_PI_pos as Hpi.
  apply (BalanceAssist.raise_elim
    (fun angle r =>
       - BalanceAssist.Math_PI <= r /\
       (exists k : nat,
          r == angle + Simulator.ofNat k * (2 * BalanceAssist.Math_PI)) /\
       (- BalanceAssist.Math_PI <= angle -> r = angle) /\
       (angle <= BalanceAssist.Math_PI -> r <= BalanceAssist.Math_PI))).
  - intros a Hlt (IH1 & (k & IH2) & IH3 & IH4) _.
    split; [exact IH1|]. split; [|split].
    + exists (S k). rewrite IH2, ofNat_S. ring.
    + intros Hle. exfalso. lra.
    + intros _. apply IH4. lra.
  - intros a Hle _.
    split; [exact Hle|]. split; [|split].
    + exists 0%nat. change (Simulator.ofNat 0) with 0. ring.
    + reflexivity.
    + intros H. exact H.
Qed.

(** ** The impact counter *)

Section ImpactHistory.

Context {Engine : Type} (sq : Q -> Q) (now : nat -> Q).
Import ImpactState.

Lemma onPair_history (s : State Engine) (pair : ImpactTracker.Pair) :
  let s' := onPair sq now s pair in
  (Forall (fun h => ImpactTracker.IMPACT_CONFIG.minImpact <= impact h)
          (impactHistory s) ->
   Forall (fun h => ImpactTracker.IMPACT_CONFIG.minImpact <= impact h)
          (impactHistory s')) /\
  (s' = s \/
   ((clock s < clock s')%nat /\
    Forall (fun h => now (clock s' - 1) - time h
                     < ImpactTracker.IMPACT_CONFIG.counterWindow)
           (impactHistory s'))).
Proof.
  cbn zeta. unfold onPair.
  destruct (ImpactTracker.shouldIgnore pair); [split; [tauto | left; reflexivity]|].
  destruct (JS.ltb _ _) eqn:Hlt; [split; [tauto | left; reflexivity]|].
  apply ltb_false in Hlt.
  destruct (length (floatingNumbers s) <? _)%nat;
    cbn [impactHistory clock].
  - split.
    + intros Hall. apply List.Forall_forall. intros h Hin.
      apply filter_In in Hin. destruct Hin as [Hin _].
      apply in_app_or in Hin. destruct Hin as [Hin|[<-|[]]].
      * exact (proj1 (List.Forall_forall _ _) Hall h Hin).
      * exact Hlt.
    + right. split; [lia|].
      apply List.Forall_forall. intros h Hin.
      apply filter_In in Hin. destruct Hin as [_ Hf].
      apply ltb_true in Hf.
      replace (S (S (S (clock s))) - 1)%nat with (S (S (clock s))) by lia.
      exact Hf.
  - split.
    + intros Hall. apply List.Forall_forall. intros h Hin.
      apply filter_In in Hin. destruct Hin as [Hin _].
      apply in_app_or in Hin. destruct Hin as [Hin|[<-|[]]].
      * exact (proj1 (List.Forall_forall _ _) Hall h Hin).
      * exact Hlt.
    + right. split; [lia|].
      apply List.Forall_forall. intros h Hin.
      apply filter_In in Hin. destruct Hin as [_ Hf].
      apply ltb_true in Hf.
      replace (S (S (clock s)) - 1)%nat with (S (clock s)) by lia.
      exact Hf.
Qed.

Lemma fold_onPair_history (pairs : list ImpactTracker.Pair) :
  forall s : State Engine,
  let s' := fold_left (onPair sq now) pairs s in
  (Forall (fun h => ImpactTracker.IMPACT_CONFIG.minImpact <= impact h)
          (impactHistory s) ->
   Forall (fun h => ImpactTracker.IMPACT_CONFIG.minImpact <= impact h)
          (impactHistory s')) /\
  (s' = s \/
   ((clock s < clock s')%nat /\
    Forall (fun h => now (clock s' - 1) - time h
                     < ImpactTracker.IMPACT_CONFIG.counterWindow)
           (impactHistory s'))).
Proof.
  induction pairs as [|pair pairs IH]; intros s; cbn zeta; cbn [fold_left].
  - split; [tauto | left; reflexivity].
  - destruct (onPair_history s pair) as [H1 H2].
    destruct (IH (onPair sq now s pair)) as [I1 I2].
    cbn zeta in *.
    split; [tauto|].
    destruct I2 as [E|[Hc Hw]].
    + rewrite E. exact H2.
    + right. split; [|exact Hw].
      destruct H2 as [E|[Hc' _]]; [rewrite E in Hc |- *; exact Hc | lia].
Qed.

(** X29.  The impact history under any clock: a collision event records only
    scores of at least [minImpact]; it either leaves the tracker untouched
    or reads the clock and leaves only entries that were less than
    [counterWindow] old at its last reading.  Counting the impacts changes
    neither list and never counts more than the history holds. *)
Theorem impact_history_window (pairs : list ImpactTracker.Pair)
    (s : State Engine) :
  let s' := onCollisionStart sq now pairs s in
  (Forall (fun h => ImpactTracker.IMPACT_CONFIG.minImpact <= impact h)
          (impactHistory s) ->
   Forall (fun h => ImpactTracker.IMPACT_CONFIG.minImpact <= impact h)
          (impactHistory s')) /\
  (s' = s \/
   ((clock s < clock s')%nat /\
    Forall (fun h => now (clock s' - 1) - time h
                     < ImpactTracker.IMPACT_CONFIG.counterWindow)
           (impactHistory s'))) /\
  ((getImpactCount now s').1 <= length (impactHistory s'))%nat /\
  floatingNumbers (getImpactCount now s').2 = floatingNumbers s' /\
  impactHistory (getImpactCount now s').2 = impactHistory s'.
Proof.
  cbn zeta. unfold onCollisionStart.
  assert (Hcount : forall t : State Engine,
    ((getImpactCount now t).1 <= length (impactHistory t))%nat /\
    floatingNumbers (getImpactCount now t).2 = floatingNumbers t /\
    impactHistory (getImpactCount now t).2 = impactHistory t).
  { intros t. unfold getImpactCount. cbn [fst snd floatingNumbers impactHistory].
    split; [apply List.filter_length_le | split; reflexivity]. }
  destruct (showImpacts s); cbn [negb].
  - destruct (fold_onPair_history pairs s) as [H1 H2]. cbn zeta in *.
    split; [exact H1|]. split; [exact H2|]. apply Hcount.
  - split; [tauto|]. split; [left; reflexivity|]. apply Hcount.
Qed.

End ImpactHistory.

(** ** Masses *)

Lemma box_mass_positive (d s w h : Q) :
  0 < d -> 0 < s -> 0 < w -> 0 < h -> 0 < d * (w * s * (h * s)).
Proof.
  intros Hd Hs Hw Hh.
  apply Qmult_lt_0_compat; [exact Hd|].
  apply Qmult_lt_0_compat; apply Qmult_lt_0_compat; assumption.
Qed.

(** X30.  With a positive density, a positive scale and positive segment
    sizes every segment of a ragdoll has a positive mass, so the impact
    score of two segments never falls back on the substitute mass 1: it is
    the relative speed times the sum of the two masses times 10. *)
Theorem segment_masses_positive (circleArea : Q -> Q) (x y : Q)
    (options : Ragdoll.Options.t) :
  let cfg := Ragdoll.merge Ragdoll.RAGDOLL_CONFIG options in
  0 < Ragdoll.density (Ragdoll.Config.physics cfg) ->
  0 < Ragdoll.Config.scale cfg ->
  0 < circleArea (Ragdoll.radius (Ragdoll.Config.head cfg)
                  * Ragdoll.Config.scale cfg) ->
  Forall (fun bx => 0 < Ragdoll.width bx /\ 0 < Ragdoll.height bx)
         [ Ragdoll.Config.torso cfg; Ragdoll.Config.pelvis cfg;
           Ragdoll.Config.upperArm cfg; Ragdoll.Config.lowerArm cfg;
           Ragdoll.Config.hand cfg; Ragdoll.Config.upperLeg cfg;
           Ragdoll.Config.lowerLeg cfg; Ragdoll.Config.foot cfg ] ->
  exists r,
    Ragdoll.createRagdoll circleArea x y options = JS.Normal r /\
    Forall (fun b => 0 < Matter.mass b)
           (Ragdoll.Bodies.values (Ragdoll.bodies r)) /\
    (forall (Math_sqrt : Q -> Q) (p q : Matter.Body),
       In p (Ragdoll.Bodies.values (Ragdoll.bodies r)) ->
       In q (Ragdoll.Bodies.values (Ragdoll.bodies r)) ->
       let pair := {| ImpactTracker.bodyA := p; ImpactTracker.bodyB := q |} in
       ImpactTracker.calculateImpact Math_sqrt pair
       = ImpactTracker.relativeSpeed Math_sqrt pair
         * (Matter.mass p + Matter.mass q) * 10).
Proof.
  intros cfg Hd Hs Hc Hdims.
  eexists. split; [reflexivity|].
  fold cfg.
  match goal with |- Forall _ ?l /\ _ =>
    assert (Hmass : Forall (fun b => 0 < Matter.mass b) l)
  end.
  { ragdoll_fields. cbn [Matter.area Matter.opt_density].
    repeat match goal with
           | H : Forall _ (_ :: _) |- _ =>
               let a := fresh "Hw" in
               let b := fresh "Hh" in
               let c := fresh "Hrest" in
               apply List.Forall_cons_iff in H; destruct H as [[a b] c]
           end.
    repeat (apply List.Forall_cons;
            [first [ apply Qmult_lt_0_compat; [exact Hd | exact Hc]
                   | apply box_mass_positive; assumption ]|]).
    apply List.Forall_nil. }
  split; [exact Hmass|].
  intros sq p q Hp Hq pair.
  pose proof (proj1 (List.Forall_forall _ _) Hmass p Hp) as Mp.
  pose proof (proj1 (List.Forall_forall _ _) Hmass q Hq) as Mq.
  unfold ImpactTracker.calculateImpact, ImpactTracker.relativeSpeed, pair, JS.or_else.
  cbn [ImpactTracker.bodyA ImpactTracker.bodyB].
  rewrite (eqb_positive _ Mp), (eqb_positive _ Mq). reflexivity.
Qed.

Lemma segment_masses_positive_witness :
  exists r,
    Ragdoll.createRagdoll Sample.circleArea 270 250 Ragdoll.Options.empty
    = JS.Normal r /\
    Forall (fun b => 0 < Matter.mass b)
           (Ragdoll.Bodies.values (Ragdoll.bodies r)) /\
    (forall (Math_sqrt : Q -> Q) (p q : Matter.Body),
       In p (Ragdoll.Bodies.values (Ragdoll.bodies r)) ->
       In q (Ragdoll.Bodies.values (Ragdoll.bodies r)) ->
       let pair := {| ImpactTracker.bodyA := p; ImpactTracker.bodyB := q |} in
       ImpactTracker.calculateImpact Math_sqrt pair
       = ImpactTracker.relativeSpeed Math_sqrt pair
         * (Matter.mass p + Matter.mass q) * 10).
Proof.
  apply (segment_masses_positive Sample.circleArea 270 250 Ragdoll.Options.empty).
  - reflexivity.
  - reflexivity.
  - reflexivity.
  - repeat constructor.
Defined.
